(** * Scholaria: the universal AI chat facade ([app/groq_stream.py])

    A shallow embedding of [ChatIA_Universal]: the connectivity state
    machine, the age computation, the prompt assembly with its guarded
    data fetches, and the chat CRUD operations over a transactional
    session.  Python values are modelled as follows:

    - a [str] is the list of its Unicode code points ([pystr]); literals
      of the source are written as Rocq strings and decoded by [lit];
    - [None] is [None] of an [option]; truthiness tests ([if x], [x or d])
      are written out;
    - an attribute that may be missing or whose access may raise is an
      [attr]; a call that may raise returns a [result];
    - a dict is a [gmap] keyed by the (ASCII) key string;
    - the database is reached through a session with pending and stored
      tables, whose calls may raise. *)

From Stdlib Require Import ZArith NArith List Ascii String DecimalString Decimal.
From stdpp Require Import base tactics option list gmap strings fin_maps.
Import ListNotations.

Local Open Scope Z_scope.

(* ===================================================================== *)
(** ** Python strings *)
(* ===================================================================== *)

Module PyStr.

(** A Python [str]: a sequence of code points. *)
Abbreviation pystr := (list N).

(** UTF-8 decoding of a source literal.  [acc] is the code point being
    assembled and [k] the number of continuation bytes still expected. *)
Fixpoint decode (s : string) (acc : N) (k : nat) : pystr :=
  match s with
  | EmptyString => []
  | String c r =>
      let b := N_of_ascii c in
      match k with
      | O =>
          if (b <? 128)%N then b :: decode r 0%N O
          else if (b <? 224)%N then decode r (b - 192)%N 1%nat
          else if (b <? 240)%N then decode r (b - 224)%N 2%nat
          else decode r (b - 240)%N 3%nat
      | S O => (acc * 64 + (b - 128))%N :: decode r 0%N O
      | S k' => decode r (acc * 64 + (b - 128))%N k'
      end
  end.

Definition lit (s : string) : pystr := decode s 0%N O.

(** [str(n)] for an [int]. *)
Definition str_of_Z (z : Z) : pystr :=
  lit (NilZero.string_of_int (Z.to_int z)).

Definition str_of_nat (n : nat) : pystr := str_of_Z (Z.of_nat n).

(** [len(s)] *)
Definition len (s : pystr) : Z := Z.of_nat (length s).

(** [s[:n]] for a non-negative literal [n]. *)
Definition slice_to (n : nat) (s : pystr) : pystr := take n s.

(** [str.isspace] on one code point: the Unicode white space set that
    [str.strip()] removes. *)
Definition isspace (c : N) : bool :=
  ((9 <=? c) && (c <=? 13) || (28 <=? c) && (c <=? 32)
   || (c =? 133) || (c =? 160) || (c =? 5760)
   || (8192 <=? c) && (c <=? 8202)
   || (c =? 8232) || (c =? 8233) || (c =? 8239) || (c =? 8287)
   || (c =? 12288))%N.

Fixpoint lstrip (s : pystr) : pystr :=
  match s with
  | c :: r => if isspace c then lstrip r else s
  | [] => []
  end.

Definition rstrip (s : pystr) : pystr := reverse (lstrip (reverse s)).

(** [s.strip()] *)
Definition strip (s : pystr) : pystr := rstrip (lstrip s).

(** A string that neither begins nor ends with white space. *)
Definition no_outer_space (s : pystr) : Prop :=
  (forall c, head s = Some c -> isspace c = false)
  /\ (forall c, last s = Some c -> isspace c = false).

(** ["\n".join(parts)] *)
Fixpoint join (sep : pystr) (parts : list pystr) : pystr :=
  match parts with
  | [] => []
  | [p] => p
  | p :: rest => p ++ sep ++ join sep rest
  end.

(** [s.split('/')[-1]]: what follows the last separator. *)
Fixpoint split_last (sep : N) (s : pystr) : pystr :=
  match s with
  | [] => []
  | c :: r =>
      if existsb (N.eqb sep) r then split_last sep r
      else if (c =? sep)%N then r else s
  end.

(** [x in s] for strings: [x] occurs as a contiguous run of [s]. *)
Definition occurs_in (x s : pystr) : Prop :=
  exists pre suf, s = pre ++ x ++ suf.

(** Formatting of an optional string inside an f-string: [None] prints
    as the four letters of its name. *)
Definition fmt (o : option pystr) : pystr :=
  match o with
  | Some s => s
  | None => lit "None"
  end.

(** [x or d] for an optional string: [None] and the empty string are
    falsy. *)
Definition or_else (o : option pystr) (d : pystr) : pystr :=
  match o with
  | Some (c :: r) => c :: r
  | _ => d
  end.

(** Truthiness of an optional string. *)
Definition truthy (o : option pystr) : bool :=
  match o with
  | Some (_ :: _) => true
  | _ => false
  end.

End PyStr.
Import PyStr.

Global Arguments lit : simpl never.
Global Arguments str_of_Z : simpl never.
Global Arguments strip : simpl never.
Global Arguments len : simpl never.

(* ===================================================================== *)
(** ** Exceptions, fallible calls and attribute access *)
(* ===================================================================== *)

Inductive exn : Type :=
| AttributeError (msg : string)
| KeyError (msg : string)
| PyException (msg : string).

(** [str(e)] *)
Definition str_exn (e : exn) : pystr :=
  match e with
  | AttributeError m | KeyError m | PyException m => lit m
  end.

Inductive result (A : Type) : Type :=
| Ok (a : A)
| Raise (e : exn).
Arguments Ok {A} a.
Arguments Raise {A} e.

Definition bind {A B} (r : result A) (k : A -> result B) : result B :=
  match r with
  | Ok a => k a
  | Raise e => Raise e
  end.

(** [try: body  except Exception as e: handler(e)] *)
Definition try_except {A} (body : result A) (handler : exn -> result A)
  : result A :=
  match body with
  | Ok a => Ok a
  | Raise e => handler e
  end.

Notation "'let*' x ':=' c 'in' k" := (bind c (fun x => k))
  (at level 10, x name, c at level 100, k at level 200).
Notation "'do*' c 'in' k" := (bind c (fun _ => k))
  (at level 10, c at level 100, k at level 200).

(** An attribute of a Python object as seen by the code: it may be
    missing (reading it raises [AttributeError], [hasattr] is false), its
    access may raise something else (a relation whose load fails), or it
    holds a value. *)
Inductive attr (A : Type) : Type :=
| Missing
| Broken (e : exn)
| Value (a : A).
Arguments Missing {A}.
Arguments Broken {A} e.
Arguments Value {A} a.

(** [obj.name] *)
Definition get_attr {A} (name : string) (a : attr A) : result A :=
  match a with
  | Missing => Raise (AttributeError name)
  | Broken e => Raise e
  | Value v => Ok v
  end.

(** [hasattr(obj, name)]: an [AttributeError], whether the attribute is
    missing or its access raises one, gives false; any other exception
    of the access leaves the call. *)
Definition has_attr {A} (a : attr A) : result bool :=
  match a with
  | Missing => Ok false
  | Broken (AttributeError _) => Ok false
  | Broken e => Raise e
  | Value _ => Ok true
  end.

(** [getattr(obj, name, default)]: the default stands in for an
    [AttributeError] only. *)
Definition getattr_default {A} (a : attr A) (d : A) : result A :=
  match a with
  | Missing => Ok d
  | Broken (AttributeError _) => Ok d
  | Broken e => Raise e
  | Value v => Ok v
  end.

(* ===================================================================== *)
(** ** Data model (the parts of [app/models.py] the facade reads) *)
(* ===================================================================== *)

(** Modelled from the spec: the role enumeration [RolUsuario] of
    [app/models.py], which the spec gives as Student | Teacher. *)
Inductive RolUsuario : Type := PROFESOR | ALUMNO.

Global Instance RolUsuario_eq_dec : EqDecision RolUsuario.
Proof. solve_decision. Defined.

Record date : Type := mk_date { year : Z; month : Z; day : Z }.

Record datetime : Type := mk_datetime {
  dt_year : Z; dt_month : Z; dt_day : Z; dt_hour : Z; dt_minute : Z
}.

Record Curso : Type := mk_Curso {
  curso_id_ : Z;
  curso_nombre : option pystr
}.

Record Materia : Type := mk_Materia {
  materia_nombre : option pystr;
  materia_descripcion : option pystr;
  materia_curso : attr (option Curso)
}.

Record ArchivoMateria : Type := mk_ArchivoMateria {
  archivo_id : Z;
  archivo_path : option pystr;
  nombre_tema : option pystr;
  texto_extraido : option pystr;
  notas_adicionales : option pystr;
  instrucciones_ensenanza : option pystr;
  materia : attr (option Materia)
}.

Record Institucion : Type := mk_Institucion {
  inst_nombre : attr (option pystr);
  valores_institucionales : attr (option pystr);
  metodologia_pedagogica : attr (option pystr);
  configuracion_ia : attr (option pystr)
}.

(** A user object as the facade may receive it: every attribute the code
    touches may be missing or may fail on access. [rol] holds an enum
    member or [None]. *)
Record Usuario : Type := mk_Usuario {
  id : attr Z;
  nombre : attr (option pystr);
  apellido : attr (option pystr);
  rol : attr (option RolUsuario);
  fecha_nacimiento : attr (option date);
  get_institucion : attr (result (option Institucion));
  curso_id : attr (option Z);
  cursos : attr (list Curso)
}.

(** [usuario.rol == RolUsuario.PROFESOR] on the value read from [rol]. *)
Definition es_profesor (r : option RolUsuario) : bool :=
  match r with
  | Some PROFESOR => true
  | _ => false
  end.

(* ===================================================================== *)
(** ** [_calculate_age] *)
(* ===================================================================== *)

(** [(a1, a2) < (b1, b2)] on tuples of integers. *)
Definition tuple_lt (a1 a2 b1 b2 : Z) : bool :=
  (a1 <? b1) || ((a1 =? b1) && (a2 <? b2)).

(** [30 if usuario.rol == RolUsuario.PROFESOR else 16] *)
Definition edad_por_defecto (u : Usuario) : result Z :=
  let* r := get_attr "rol" (rol u) in
  Ok (if es_profesor r then 30 else 16).

(** The body of the [try] of [_calculate_age]; [hoy] is [date.today()]. *)
Definition _calculate_age_body (hoy : date) (u : Usuario) : result Z :=
  let* h := has_attr (fecha_nacimiento u) in
  if h then
     let* f := get_attr "fecha_nacimiento" (fecha_nacimiento u) in
     match f with
     | Some fecha_nac =>
         let edad :=
           year hoy - year fecha_nac
           - (if tuple_lt (month hoy) (day hoy) (month fecha_nac) (day fecha_nac)
              then 1 else 0) in
         Ok (Z.max 0 (Z.min edad 120))
     | None => edad_por_defecto u
     end
  else edad_por_defecto u.

Definition _calculate_age (hoy : date) (u : Usuario) : result Z :=
  try_except (_calculate_age_body hoy u) (fun _ => edad_por_defecto u).

(** The age as the specification words it: the difference of the years,
    less one when this year's birthday is still to come, kept within
    the interval from 0 to 120. *)
Definition birthday_still_to_come (hoy nac : date) : Prop :=
  month hoy < month nac \/ (month hoy = month nac /\ day hoy < day nac).

Global Instance birthday_still_to_come_dec hoy nac :
  Decision (birthday_still_to_come hoy nac).
Proof. unfold birthday_still_to_come. apply _. Defined.

Definition calendar_age (hoy nac : date) : Z :=
  year hoy - year nac - (if decide (birthday_still_to_come hoy nac) then 1 else 0).

(** Dates in calendar order, and the birthday of a given age: the day
    and month of birth in the year that many years after it. *)
Definition date_le (a b : date) : Prop :=
  year a < year b
  \/ (year a = year b
      /\ (month a < month b \/ (month a = month b /\ day a <= day b))).

Definition date_lt (a b : date) : Prop := ~ date_le b a.

Definition birthday (nac : date) (age : Z) : date :=
  {| year := year nac + age; month := month nac; day := day nac |}.

Definition clamp (lo hi x : Z) : Z :=
  if decide (x < lo) then lo else if decide (hi < x) then hi else x.



(* ===================================================================== *)
(** ** Connectivity: [__init__], [_initialize_groq], [reinitialize] *)
(* ===================================================================== *)

Module Groq.

(** The client object of the inference library and the reply of a
    completion call, as far as the facade looks at them. *)
Record Client : Type := mk_Client { client_api_key : pystr }.
Record Completion : Type := mk_Completion { choices : list pystr }.

(** What surrounds the facade during one initialization: the process
    environment, the constructor [Groq(api_key=...)] and the validation
    call [client.chat.completions.create(...)], each of which may
    raise. *)
Record World : Type := mk_World {
  getenv_GROQ_API_KEY : option pystr;
  Groq_ctor : pystr -> result Client;
  completions_create : Client -> result (option Completion)
}.

Record ChatIA_Universal : Type := mk_ChatIA_Universal {
  client : option Client;
  initialization_error : option pystr
}.

Definition set_client (c : option Client) (self : ChatIA_Universal) :=
  {| client := c; initialization_error := initialization_error self |}.

Definition set_error (e : option pystr) (self : ChatIA_Universal) :=
  {| client := client self; initialization_error := e |}.

(** The [try] block of [_initialize_groq]: the object as the block leaves
    it, and the value it returns or the exception it raises. *)
Definition _initialize_groq_body (w : World) (self : ChatIA_Universal)
  : ChatIA_Universal * result bool :=
  let api_key := getenv_GROQ_API_KEY w in
  if negb (truthy api_key) then
    let error_msg := lit "GROQ_API_KEY no encontrada en variables de entorno" in
    (set_error (Some error_msg) self, Ok false)
  else
    let api_key := strip (fmt api_key) in
    if len api_key <? 10 then
      let error_msg :=
        lit "GROQ_API_KEY parece inválida (longitud: "
        ++ str_of_Z (len api_key) ++ lit ")" in
      (set_error (Some error_msg) self, Ok false)
    else
      match Groq_ctor w api_key with
      | Raise e => (self, Raise e)
      | Ok c =>
          let self := set_client (Some c) self in
          match completions_create w c with
          | Raise e => (self, Raise e)
          | Ok test_completion =>
              match test_completion with
              | Some {| choices := _ :: _ |} =>
                  (set_error None self, Ok true)
              | _ =>
                  (self, Raise (PyException "Respuesta vacía en prueba de conexión"))
              end
          end
      end.

Definition _initialize_groq (w : World) (self : ChatIA_Universal)
  : ChatIA_Universal * bool :=
  match _initialize_groq_body w self with
  | (self', Ok b) => (self', b)
  | (self', Raise e) =>
      let error_msg := lit "Error inicializando Groq: " ++ str_exn e in
      (set_error (Some error_msg) (set_client None self'), false)
  end.

Definition __init__ (w : World) : ChatIA_Universal :=
  let self := {| client := None; initialization_error := None |} in
  fst (_initialize_groq w self).

Definition reinitialize (w : World) (self : ChatIA_Universal)
  : ChatIA_Universal * bool :=
  let self := set_client None self in
  let self := set_error None self in
  _initialize_groq w self.

Definition is_available (self : ChatIA_Universal) : bool :=
  match client self with
  | Some _ => true
  | None => false
  end.

Record Status : Type := mk_Status {
  available : bool;
  client_initialized : bool;
  api_key_present : bool;
  status_initialization_error : option pystr
}.

Definition get_status (w : World) (self : ChatIA_Universal) : Status :=
  {| available := is_available self;
     client_initialized := is_available self;
     api_key_present := truthy (getenv_GROQ_API_KEY w);
     status_initialization_error := initialization_error self |}.

(** The API key is absent from the configuration. *)
Definition api_key_absent (w : World) : Prop :=
  truthy (getenv_GROQ_API_KEY w) = false.

(** The client [c] was constructed from the configured key (stripped, of
    ten characters or more) and the validation call on it came back with
    at least one choice. *)
Definition validated (w : World) (c : Client) : Prop :=
  exists k comp,
    getenv_GROQ_API_KEY w = Some k /\
    10 <= len (strip k) /\
    Groq_ctor w (strip k) = Ok c /\
    completions_create w c = Ok (Some comp) /\
    choices comp <> [].

(** The states of the facade that its public life cycle produces:
    construction, then any number of [reinitialize]. Each state is
    paired with the world of the initialization that produced it. *)
Inductive reachable : World -> ChatIA_Universal -> Prop :=
| reach_init w :
    reachable w (__init__ w)
| reach_reinitialize w0 w self :
    reachable w0 self -> reachable w (fst (reinitialize w self)).

(** The messages [_initialize_groq] records. *)
Definition msg_clave_ausente : pystr :=
  lit "GROQ_API_KEY no encontrada en variables de entorno".

Definition msg_clave_invalida (api_key : pystr) : pystr :=
  lit "GROQ_API_KEY parece inválida (longitud: "
  ++ str_of_Z (len api_key) ++ lit ")".

Definition msg_error_inicializando (e : exn) : pystr :=
  lit "Error inicializando Groq: " ++ str_exn e.

(** The validation of a constructed client fails: the call raises, or
    comes back with nothing or with no choice. The exception the handler
    of [_initialize_groq] then sees. *)
Definition validation_failure (w : World) (c : Client) : option exn :=
  match completions_create w c with
  | Raise e => Some e
  | Ok (Some {| choices := _ :: _ |}) => None
  | Ok _ => Some (PyException "Respuesta vacía en prueba de conexión")
  end.

End Groq.

(* ===================================================================== *)
(** ** Chat CRUD over a transactional session *)
(* ===================================================================== *)

Module Crud.

(** Rows of the two tables; the primary key is the key of the table. *)
Record ChatIA : Type := mk_ChatIA {
  nombre_chat : pystr;
  usuario_id : Z;
  fecha_creacion : datetime;
  fecha_ultimo_mensaje : datetime
}.

Record MensajeChatIA : Type := mk_MensajeChatIA {
  mensaje_chat_id : Z;
  contenido : pystr
}.

Record Tables : Type := mk_Tables {
  chats : gmap Z ChatIA;
  mensajes : gmap Z MensajeChatIA
}.

(** [db.session]: the committed tables, the tables as the open
    transaction sees them, and for each coming call into the persistence
    layer whether it raises ([true]); past the end of the list no call
    raises. *)
Record Session : Type := mk_Session {
  stored : Tables;
  pending : Tables;
  faults : list bool
}.

(** Code that runs against the session and may raise. *)
Definition db (A : Type) : Type := Session -> result A * Session.

Definition db_ret {A} (a : A) : db A := fun s => (Ok a, s).

Definition db_bind {A B} (c : db A) (k : A -> db B) : db B :=
  fun s =>
    match c s with
    | (Ok a, s') => k a s'
    | (Raise e, s') => (Raise e, s')
    end.

Notation "'let!' x ':=' c 'in' k" := (db_bind c (fun x => k))
  (at level 10, x name, c at level 100, k at level 200).
Notation "'do!' c 'in' k" := (db_bind c (fun _ => k))
  (at level 10, c at level 100, k at level 200).

(** Entering the persistence layer: the next fault decision is consumed. *)
Definition db_call : db unit :=
  fun s =>
    match faults s with
    | [] => (Ok tt, s)
    | f :: fs =>
        let s' := {| stored := stored s; pending := pending s; faults := fs |} in
        if f then (Raise (PyException "persistence failure"), s')
        else (Ok tt, s')
    end.

Definition get_pending : db Tables := fun s => (Ok (pending s), s).

Definition put_pending (t : Tables) : db unit :=
  fun s => (Ok tt, {| stored := stored s; pending := t; faults := faults s |}).

(** The key the database gives to the next inserted chat: above every
    key in use, and at least 1. *)
Definition next_id (m : gmap Z ChatIA) : Z :=
  map_fold (fun k _ acc => Z.max (k + 1) acc) 1 m.

(** [ChatIA.query.filter_by(id=chat_id, usuario_id=usuario_id).first()] *)
Definition query_chat_first (chat_id uid : Z) : db (option ChatIA) :=
  do! db_call in
  let! t := get_pending in
  db_ret (match chats t !! chat_id with
          | Some chat => if decide (usuario_id chat = uid) then Some chat else None
          | None => None
          end).

(** [MensajeChatIA.query.filter_by(chat_id=chat_id).delete()] *)
Definition delete_mensajes (chat_id : Z) : db unit :=
  do! db_call in
  let! t := get_pending in
  put_pending
    {| chats := chats t;
       mensajes := filter (fun km => mensaje_chat_id (snd km) <> chat_id) (mensajes t) |}.

(** [db.session.delete(chat)] for the chat stored under [chat_id]. *)
Definition session_delete (chat_id : Z) : db unit :=
  do! db_call in
  let! t := get_pending in
  put_pending {| chats := delete chat_id (chats t); mensajes := mensajes t |}.

(** [db.session.add(chat)]; the row receives its key. *)
Definition session_add (chat : ChatIA) : db Z :=
  do! db_call in
  let! t := get_pending in
  let new_id := next_id (chats t) in
  do! put_pending {| chats := <[new_id := chat]> (chats t); mensajes := mensajes t |} in
  db_ret new_id.

(** [chat.nombre_chat = nombre] on the chat loaded under [chat_id]. *)
Definition set_nombre_chat (chat_id : Z) (nombre : pystr) : db unit :=
  let! t := get_pending in
  put_pending
    {| chats :=
         alter (fun chat =>
                  {| nombre_chat := nombre;
                     usuario_id := usuario_id chat;
                     fecha_creacion := fecha_creacion chat;
                     fecha_ultimo_mensaje := fecha_ultimo_mensaje chat |})
               chat_id (chats t);
       mensajes := mensajes t |}.

(** [db.session.commit()]: all of the transaction or nothing. *)
Definition session_commit : db unit :=
  do! db_call in
  fun s => (Ok tt, {| stored := pending s; pending := pending s; faults := faults s |}).

(** [chat.id] read after the commit, for the log line: the commit has
    expired the object, so the read loads the row again. *)
Definition refresh_chat_id (chat_id : Z) : db Z :=
  do! db_call in
  db_ret chat_id.

(** [db.session.rollback()] *)
Definition session_rollback (s : Session) : Session :=
  {| stored := stored s; pending := stored s; faults := faults s |}.

(** [try: body  except Exception: db.session.rollback(); return fallback] *)
Definition try_rollback {A} (body : db A) (fallback : A) (s : Session)
  : A * Session :=
  match body s with
  | (Ok a, s') => (a, s')
  | (Raise _, s') => (fallback, session_rollback s')
  end.

(** The clock readings one call of [crear_chat] takes. *)
Record Clock : Type := mk_Clock {
  now : datetime;
  utcnow_creacion : datetime;
  utcnow_ultimo_mensaje : datetime
}.

(** Two digits, zero padded, as [%d], [%m], [%H] and [%M] print. *)
Definition pad2 (n : Z) : pystr :=
  if n <? 10 then lit "0" ++ str_of_Z n else str_of_Z n.

(** [dt.strftime('%d/%m/%Y %H:%M')] *)
Definition strftime (dt : datetime) : pystr :=
  pad2 (dt_day dt) ++ lit "/" ++ pad2 (dt_month dt) ++ lit "/"
  ++ str_of_Z (dt_year dt) ++ lit " "
  ++ pad2 (dt_hour dt) ++ lit ":" ++ pad2 (dt_minute dt).

(** The fixed shape [dd/mm/yyyy HH:MM], digit by digit. *)
Definition digit (d : Z) : N := Z.to_N (48 + d).

Definition two_digits (n : Z) : pystr := [digit (n / 10); digit (n mod 10)].

Definition four_digits (n : Z) : pystr :=
  [digit (n / 1000); digit (n / 100 mod 10); digit (n / 10 mod 10);
   digit (n mod 10)].

Definition dd_mm_yyyy_HH_MM (dt : datetime) : pystr :=
  two_digits (dt_day dt) ++ [47%N] ++ two_digits (dt_month dt) ++ [47%N]
  ++ four_digits (dt_year dt) ++ [32%N]
  ++ two_digits (dt_hour dt) ++ [58%N] ++ two_digits (dt_minute dt).

(** A reading of the clock in the range where [%Y] prints four digits. *)
Definition valid_datetime (dt : datetime) : Prop :=
  1000 <= dt_year dt <= 9999 /\ 1 <= dt_month dt <= 12
  /\ 1 <= dt_day dt <= 31 /\ 0 <= dt_hour dt <= 23
  /\ 0 <= dt_minute dt <= 59.

Definition crear_chat_body (clk : Clock) (usuario_id : Z)
  (nombre_chat : option pystr) : db (option (Z * ChatIA)) :=
  let nombre_chat :=
    if negb (truthy nombre_chat) then lit "Chat " ++ strftime (now clk)
    else fmt nombre_chat in
  let chat :=
    {| nombre_chat := nombre_chat;
       usuario_id := usuario_id;
       fecha_creacion := utcnow_creacion clk;
       fecha_ultimo_mensaje := utcnow_ultimo_mensaje clk |} in
  let! chat_id := session_add chat in
  do! session_commit in
  let! chat_id := refresh_chat_id chat_id in
  db_ret (Some (chat_id, chat)).

Definition crear_chat (clk : Clock) (usuario_id : Z)
  (nombre_chat : option pystr) : Session -> option (Z * ChatIA) * Session :=
  try_rollback (crear_chat_body clk usuario_id nombre_chat) None.

Definition eliminar_chat_body (chat_id usuario_id : Z) : db bool :=
  let! chat := query_chat_first chat_id usuario_id in
  match chat with
  | None => db_ret false
  | Some _ =>
      do! delete_mensajes chat_id in
      do! session_delete chat_id in
      do! session_commit in
      db_ret true
  end.

Definition eliminar_chat (chat_id usuario_id : Z)
  : Session -> bool * Session :=
  try_rollback (eliminar_chat_body chat_id usuario_id) false.

Definition renombrar_chat_body (chat_id usuario_id : Z) (nuevo_nombre : pystr)
  : db bool :=
  let! chat := query_chat_first chat_id usuario_id in
  match chat with
  | None => db_ret false
  | Some _ =>
      do! set_nombre_chat chat_id (slice_to 200 (strip nuevo_nombre)) in
      do! session_commit in
      db_ret true
  end.

Definition renombrar_chat (chat_id usuario_id : Z) (nuevo_nombre : pystr)
  : Session -> bool * Session :=
  try_rollback (renombrar_chat_body chat_id usuario_id nuevo_nombre) false.

(** The chat stored under [chat_id] belongs to [uid], as the session
    sees it. *)
Definition owned_by (t : Tables) (chat_id uid : Z) : Prop :=
  exists chat, chats t !! chat_id = Some chat /\ usuario_id chat = uid.

Global Instance owned_by_dec t chat_id uid : Decision (owned_by t chat_id uid).
Proof.
  unfold owned_by. destruct (chats t !! chat_id) as [chat|] eqn:E.
  - destruct (decide (usuario_id chat = uid)) as [Hu|Hu].
    + left. exists chat. split; [reflexivity | exact Hu].
    + right. intros (x & Hx & Hx'). congruence.
  - right. intros (x & Hx & _). congruence.
Defined.

(** None of the next [n] calls into the persistence layer raises. *)
Definition healthy (n : nat) (s : Session) : Prop :=
  Forall (fun f => f = false) (take n (faults s)).

(** The try block of an operation raised. *)
Definition raised {A} (r : result A * Session) : Prop :=
  match fst r with
  | Raise _ => True
  | Ok _ => False
  end.

(** Every message belongs to a chat of the table. *)
Definition integrity (t : Tables) : Prop :=
  forall k m, mensajes t !! k = Some m -> is_Some (chats t !! mensaje_chat_id m).

(** The tables after each operation has gone through. *)
Definition tablas_con_chat (new_id : Z) (chat : ChatIA) (t : Tables) : Tables :=
  {| chats := <[new_id := chat]> (chats t); mensajes := mensajes t |}.

Definition tablas_sin_chat (chat_id : Z) (t : Tables) : Tables :=
  {| chats := delete chat_id (chats t);
     mensajes :=
       filter (fun km => mensaje_chat_id (snd km) <> chat_id) (mensajes t) |}.

Definition con_nombre (nombre : pystr) (chat : ChatIA) : ChatIA :=
  {| nombre_chat := nombre;
     usuario_id := usuario_id chat;
     fecha_creacion := fecha_creacion chat;
     fecha_ultimo_mensaje := fecha_ultimo_mensaje chat |}.

Definition tablas_renombrado (chat_id : Z) (nombre : pystr) (t : Tables)
  : Tables :=
  {| chats := alter (con_nombre nombre) chat_id (chats t);
     mensajes := mensajes t |}.

(** The chat [crear_chat] builds before it is given its key. *)
Definition chat_nuevo (clk : Clock) (uid : Z) (nombre : option pystr) : ChatIA :=
  {| nombre_chat :=
       if negb (truthy nombre) then lit "Chat " ++ strftime (now clk)
       else fmt nombre;
     usuario_id := uid;
     fecha_creacion := utcnow_creacion clk;
     fecha_ultimo_mensaje := utcnow_ultimo_mensaje clk |}.

End Crud.

(* ===================================================================== *)
(** ** Prompt construction *)
(* ===================================================================== *)

Module Prompt.

(** A value held in one of the module's dicts: a [str] or [None]. *)
Abbreviation pyval := (option pystr).
Abbreviation pydict := (gmap string (option pystr)).

(** [d[key]] *)
Definition getitem (d : pydict) (key : string) : result pyval :=
  match d !! key with
  | Some v => Ok v
  | None => Raise (KeyError key)
  end.

(** [d.get(key, default)]: the default is used only when the key is not
    in the dict. *)
Definition dict_get (d : pydict) (key : string) (default : pystr) : pyval :=
  match d !! key with
  | Some v => v
  | None => Some default
  end.

(** The rows the queries of the module return, before [.limit(10)]:
    already joined, filtered by the given key and ordered by upload
    time, newest first. Each query may raise. *)
Record Queries : Type := mk_Queries {
  archivos_de_profesor : Z -> result (list ArchivoMateria);
  archivos_de_curso : Z -> result (list ArchivoMateria);
  materias_cursos_de_profesor : Z -> result (list (Materia * Curso));
  materias_de_curso : Z -> result (list Materia)
}.

(** What a prompt is built from besides the user: the process
    environment ([os.getenv]), today's date, the database, and the
    printed [.value] of each role member (declared in [app/models.py]). *)
Record Ambiente : Type := mk_Ambiente {
  getenv : string -> option pystr;
  hoy : date;
  queries : Queries;
  rol_value : RolUsuario -> pystr
}.

Definition _get_env_vars (amb : Ambiente) : pydict :=
  {[ "NOMBRE" := getenv amb "NOMBRE";
     "LIMITACIONES" := getenv amb "LIMITACIONES";
     "ROL_IA_ALUMNOS" := getenv amb "ROL_IA_ALUMNOS";
     "ROL_IA_PROFESORES" := getenv amb "ROL_IA_PROFESORES";
     "EDAD_REGULACION" := getenv amb "EDAD_REGULACION" ]}.

(** The f-string of a log line reads [usuario.id]. *)
Definition log_usuario_id (u : Usuario) : result unit :=
  let* _ := get_attr "id" (id u) in Ok tt.

(** [archivo.materia.nombre or 'Sin materia'] behind its guard
    [hasattr(archivo, 'materia') and archivo.materia]. *)
Definition nombre_materia_de (a : ArchivoMateria) : result pystr :=
  let* h := has_attr (materia a) in
  if h then
    let* m := get_attr "materia" (materia a) in
    match m with
    | Some mat => Ok (or_else (materia_nombre mat) (lit "Sin materia"))
    | None => Ok (lit "Sin materia")
    end
  else Ok (lit "Sin materia").

(** [archivo.materia.curso.nombre or 'Sin curso'] behind its two guards. *)
Definition nombre_curso_de (a : ArchivoMateria) : result pystr :=
  let* h := has_attr (materia a) in
  if h then
    let* m := get_attr "materia" (materia a) in
    match m with
    | Some mat =>
        let* hc := has_attr (materia_curso mat) in
        if hc then
          let* c := get_attr "curso" (materia_curso mat) in
          match c with
          | Some cur => Ok (or_else (curso_nombre cur) (lit "Sin curso"))
          | None => Ok (lit "Sin curso")
          end
        else Ok (lit "Sin curso")
    | None => Ok (lit "Sin curso")
    end
  else Ok (lit "Sin curso").

(** The body of the per-file [try] of the teacher loop. *)
Definition entrada_profesor (a : ArchivoMateria) : result pydict :=
  let nombre_archivo :=
    if truthy (archivo_path a) then split_last 47%N (fmt (archivo_path a))
    else lit "Sin nombre" in
  let* nombre_materia := nombre_materia_de a in
  Ok {[ "tema" := Some (or_else (nombre_tema a) (lit "Sin tema"));
        "materia" := Some nombre_materia;
        "nombre_archivo" := Some nombre_archivo ]}.

(** The text of a file as the student loop prepares it. *)
Definition texto_procesado (a : ArchivoMateria) : pystr :=
  if truthy (texto_extraido a) then
    let texto_str := fmt (texto_extraido a) in
    if 2000 <? len texto_str then slice_to 2000 texto_str ++ lit "..."
    else texto_str
  else lit "Texto no disponible".

(** The body of the per-file [try] of the student loop. *)
Definition entrada_alumno (a : ArchivoMateria) : result pydict :=
  let texto := texto_procesado a in
  let* nombre_materia := nombre_materia_de a in
  let* nombre_curso := nombre_curso_de a in
  Ok {[ "tema" := Some (or_else (nombre_tema a) (lit "Sin tema"));
        "notas" := Some (or_else (notas_adicionales a) (lit "Sin notas adicionales"));
        "instrucciones" :=
          Some (or_else (instrucciones_ensenanza a)
                        (lit "Sin instrucciones específicas"));
        "texto" := Some texto;
        "materia" := Some nombre_materia;
        "curso" := Some nombre_curso ]}.

(** A loop whose body is wrapped in [try ... except Exception: continue]:
    the files whose entry raises are skipped. *)
Fixpoint recoger (entrada : ArchivoMateria -> result pydict)
  (archivos : list ArchivoMateria) : list pydict :=
  match archivos with
  | [] => []
  | a :: rest =>
      match entrada a with
      | Ok d => d :: recoger entrada rest
      | Raise _ => recoger entrada rest
      end
  end.

Definition archivos_profesor (amb : Ambiente) (u : Usuario)
  : result (list pydict) :=
  try_except
    (let* uid := get_attr "id" (id u) in
     let* rows := archivos_de_profesor (queries amb) uid in
     let archivos := take 10 rows in
     Ok (recoger entrada_profesor archivos))
    (fun _ => do* log_usuario_id u in Ok []).

Definition archivos_alumno (amb : Ambiente) (u : Usuario)
  : result (list pydict) :=
  try_except
    (let* h := has_attr (curso_id u) in
     let* sin_curso :=
       if h then
         let* c := get_attr "curso_id" (curso_id u) in
         Ok (match c with
             | Some z => bool_decide (z = 0)
             | None => true
             end)
       else Ok true in
     if (sin_curso : bool) then
       do* log_usuario_id u in Ok []
     else
       let* c := get_attr "curso_id" (curso_id u) in
       let* rows := archivos_de_curso (queries amb) (default 0 c) in
       let archivos := take 10 rows in
       Ok (recoger entrada_alumno archivos))
    (fun _ => do* log_usuario_id u in Ok []).

Definition _get_archivos_data (amb : Ambiente) (u : Usuario)
  : result (list pydict) :=
  try_except
    (let* r := get_attr "rol" (rol u) in
     if es_profesor r then archivos_profesor amb u
     else archivos_alumno amb u)
    (fun _ => do* log_usuario_id u in Ok []).

(** [str(institucion.x if hasattr(institucion, 'x') else d)] *)
Definition campo_institucion (a : attr pyval) (name : string) (d : pystr)
  : result pystr :=
  let* h := has_attr a in
  if h then let* v := get_attr name a in Ok (fmt v) else Ok d.

Definition institucion_por_defecto : pydict :=
  {[ "nombre" := Some (lit "No especificado");
     "valores" := Some (lit "No especificado");
     "metodologia" := Some (lit "No especificado");
     "configuracion" := Some (lit "Estándar") ]}.

(** The [try] of [_get_institucion_data]: [Ok None] when it falls
    through to the defaults. *)
Definition _get_institucion_data_body (u : Usuario) : result (option pydict) :=
  let* h := has_attr (get_institucion u) in
  if h then
    let* metodo := get_attr "get_institucion" (get_institucion u) in
    let* institucion := metodo in
    match institucion with
    | Some inst =>
        let* n := campo_institucion (inst_nombre inst) "nombre"
                    (lit "No especificado") in
        let* v := campo_institucion (valores_institucionales inst)
                    "valores_institucionales" (lit "No especificado") in
        let* m := campo_institucion (metodologia_pedagogica inst)
                    "metodologia_pedagogica" (lit "No especificado") in
        let* c := campo_institucion (configuracion_ia inst)
                    "configuracion_ia" (lit "Estándar") in
        Ok (Some ({[ "nombre" := Some n; "valores" := Some v;
                     "metodologia" := Some m; "configuracion" := Some c ]}
                  : pydict))
    | None => Ok None
    end
  else Ok None.

Definition _get_institucion_data (u : Usuario) : pydict :=
  match _get_institucion_data_body u with
  | Ok (Some d) => d
  | Ok None | Raise _ => institucion_por_defecto
  end.

Definition materia_dict (m : Materia) (c : Curso) : pydict :=
  {[ "nombre" := materia_nombre m;
     "curso" := curso_nombre c;
     "descripcion" :=
       Some (or_else (materia_descripcion m) (lit "Sin descripción")) ]}.

Definition _get_materias_profesor (amb : Ambiente) (profesor : Usuario)
  : list pydict :=
  match
    (let* pid := get_attr "id" (id profesor) in
     let* materias_cursos := materias_cursos_de_profesor (queries amb) pid in
     Ok (map (fun mc => materia_dict (fst mc) (snd mc)) materias_cursos))
  with
  | Ok l => l
  | Raise _ => []
  end.

(** The loop over [alumno.cursos]: one query per course. *)
Fixpoint materias_de_cursos (amb : Ambiente) (cs : list Curso)
  : result (list pydict) :=
  match cs with
  | [] => Ok []
  | curso :: rest =>
      let* materias := materias_de_curso (queries amb) (curso_id_ curso) in
      let* tail := materias_de_cursos amb rest in
      Ok (map (fun m => materia_dict m curso) materias ++ tail)
  end.

Definition _get_materias_alumno (amb : Ambiente) (alumno : Usuario)
  : list pydict :=
  match
    (let* h := has_attr (cursos alumno) in
     if h then
       let* cs := get_attr "cursos" (cursos alumno) in
       materias_de_cursos amb cs
     else Ok [])
  with
  | Ok l => l
  | Raise _ => []
  end.

(** [usuario.rol.value if hasattr(usuario.rol, 'value') else
    str(usuario.rol)] on the value read from [rol]. *)
Definition rol_texto (amb : Ambiente) (r : option RolUsuario) : pystr :=
  match r with
  | Some member => rol_value amb member
  | None => lit "None"
  end.

(** The line of one subject. *)
Definition linea_materia (m : pydict) : result pystr :=
  let* n := getitem m "nombre" in
  let* c := getitem m "curso" in
  Ok (lit "- " ++ fmt n ++ lit " (" ++ fmt c ++ lit ")").

(** [for ... in ...: prompt_parts.append/extend(...)] with a body that
    may raise. *)
Fixpoint for_each {A} (f : A -> result (list pystr)) (l : list A)
  : result (list pystr) :=
  match l with
  | [] => Ok []
  | x :: rest =>
      let* here := f x in
      let* tail := for_each f rest in
      Ok (here ++ tail)
  end.

(** The lines of file number [idx] in the teacher format. *)
Definition bloque_profesor (ia : nat * pydict) : result (list pystr) :=
  let '(idx, archivo) := ia in
  let* tema := getitem archivo "tema" in
  let* mat := getitem archivo "materia" in
  let* nom := getitem archivo "nombre_archivo" in
  Ok [ lit "";
       lit "Archivo " ++ str_of_nat idx ++ lit ":";
       lit "- Tema: " ++ fmt tema;
       lit "- Materia: " ++ fmt mat;
       lit "- Nombre: " ++ fmt nom ].

(** The lines of file number [idx] in the student format. *)
Definition bloque_alumno (ia : nat * pydict) : result (list pystr) :=
  let '(idx, archivo) := ia in
  let* tema := getitem archivo "tema" in
  let* mat := getitem archivo "materia" in
  let* notas := getitem archivo "notas" in
  let* instr := getitem archivo "instrucciones" in
  let* texto := getitem archivo "texto" in
  Ok [ lit "Archivos cargados por el profesor.";
       lit "Archivo " ++ str_of_nat idx ++ lit ":";
       lit "- Tema: " ++ fmt tema;
       lit "- Materia: " ++ fmt mat;
       lit "- Notas: " ++ fmt notas;
       lit "- Instrucciones de enseñanza: " ++ fmt instr;
       lit "- Contenido: " ++ fmt texto ++ lit "..." ].

(** [enumerate(l, 1)] *)
Definition enumerate1 {A} (l : list A) : list (nat * A) :=
  zip (seq 1 (length l)) l.

(** The file section of the prompt. *)
Definition seccion_archivos (profesor : bool) (archivos_data : list pydict)
  : result (list pystr) :=
  match archivos_data with
  | [] => Ok [lit "No hay archivos disponibles actualmente."]
  | _ :: _ =>
      if profesor then for_each bloque_profesor (enumerate1 archivos_data)
      else for_each bloque_alumno (enumerate1 archivos_data)
  end.

(** The [try] block of [_build_system_prompt]. *)
Definition _build_system_prompt_body (amb : Ambiente) (u : Usuario)
  : result pystr :=
  let env_vars := _get_env_vars amb in
  let* nombre_usuario := get_attr "nombre" (nombre u) in
  let* apellido_usuario := getattr_default (apellido u) (Some []) in
  let* r := get_attr "rol" (rol u) in
  let rol_usuario := rol_texto amb r in
  let* edad_usuario := _calculate_age (hoy amb) u in
  let institucion_data := _get_institucion_data u in
  let* archivos_data := _get_archivos_data amb u in
  let rol_ia :=
    if es_profesor r then
      dict_get env_vars "ROL_IA_PROFESORES"
        (lit "un asistente educativo para profesores")
    else
      dict_get env_vars "ROL_IA_ALUMNOS"
        (lit "un asistente educativo para estudiantes") in
  let materias_info :=
    if es_profesor r then _get_materias_profesor amb u
    else _get_materias_alumno amb u in
  let* i_nombre := getitem institucion_data "nombre" in
  let* i_valores := getitem institucion_data "valores" in
  let* i_metodologia := getitem institucion_data "metodologia" in
  let* i_configuracion := getitem institucion_data "configuracion" in
  let prompt_parts :=
    [ lit "Eres "
        ++ fmt (dict_get env_vars "NOMBRE" (lit "un asistente educativo"))
        ++ lit ", " ++ fmt rol_ia ++ lit ".";
      lit "Tus limitaciones son: "
        ++ fmt (dict_get env_vars "LIMITACIONES"
                  (lit "Responde de manera educativa y apropiada"));
      lit "Ahora mismo estás hablando con:";
      fmt nombre_usuario ++ lit " " ++ fmt apellido_usuario ++ lit ".";
      lit "Su rol es: " ++ rol_usuario ++ lit ".";
      lit "Su edad es: " ++ str_of_Z edad_usuario ++ lit " años.";
      lit "Regulación de edad: "
        ++ fmt (dict_get env_vars "EDAD_REGULACION" (lit "13"))
        ++ lit " años.";
      lit "Información de la institución:";
      lit "Nombre: " ++ fmt i_nombre;
      lit "Valores institucionales: " ++ fmt i_valores;
      lit "Metodología pedagógica: " ++ fmt i_metodologia;
      lit "Configuración IA: " ++ fmt i_configuracion;
      lit "" ] in
  let* lineas_materias :=
    for_each (fun m => let* l := linea_materia m in Ok [l]) materias_info in
  let prompt_parts :=
    prompt_parts
    ++ [ if es_profesor r then lit "Materias que enseña:"
         else lit "Materias en las que está inscrito:" ]
    ++ lineas_materias in
  let prompt_parts :=
    prompt_parts
    ++ [ lit "";
         lit "Archivos y contenidos disponibles del "
           ++ (if es_profesor r then lit "profesor" else lit "estudiante")
           ++ lit ":" ] in
  let* bloque := seccion_archivos (es_profesor r) archivos_data in
  Ok (join (lit (String (ascii_of_nat 10) EmptyString)) (prompt_parts ++ bloque)).

(** The noun of the fallback text. *)
Definition rol_fallback (r : option RolUsuario) : pystr :=
  if es_profesor r then lit "profesor" else lit "estudiante".

Definition prompt_fallback (r : option RolUsuario) : pystr :=
  lit "Eres un asistente educativo especializado para "
  ++ rol_fallback r
  ++ lit "s. Ayuda de manera apropiada y educativa.".

(** The [except] block of [_build_system_prompt] reads [usuario.rol]
    again. *)
Definition _build_system_prompt (amb : Ambiente) (u : Usuario)
  : result pystr :=
  try_except (_build_system_prompt_body amb u)
    (fun _ =>
       let* r := get_attr "rol" (rol u) in
       Ok (prompt_fallback r)).

(** The shape of the entries each role's loop produces, and of the
    dicts of the subject lists. *)
Definition entrada_de (profesor : bool) (d : pydict) : Prop :=
  exists a, (if profesor then entrada_profesor a else entrada_alumno a) = Ok d.

Definition es_materia_dict (d : pydict) : Prop :=
  exists m c, d = materia_dict m c.

(** A file with its extracted text, notes and teaching instructions
    erased, and a database whose teacher query returns such files. *)
Definition sin_contenido (a : ArchivoMateria) : ArchivoMateria :=
  {| archivo_id := archivo_id a;
     archivo_path := archivo_path a;
     nombre_tema := nombre_tema a;
     texto_extraido := None;
     notas_adicionales := None;
     instrucciones_ensenanza := None;
     materia := materia a |}.

Definition map_result {A B} (f : A -> B) (r : result A) : result B :=
  match r with
  | Ok a => Ok (f a)
  | Raise e => Raise e
  end.

Definition ambiente_sin_contenido (amb : Ambiente) : Ambiente :=
  {| getenv := getenv amb;
     hoy := hoy amb;
     queries :=
       {| archivos_de_profesor :=
            fun pid => map_result (map sin_contenido)
                         (archivos_de_profesor (queries amb) pid);
          archivos_de_curso := archivos_de_curso (queries amb);
          materias_cursos_de_profesor :=
            materias_cursos_de_profesor (queries amb);
          materias_de_curso := materias_de_curso (queries amb) |};
     rol_value := rol_value amb |}.

(** The text one attribute of the institution contributes when reading
    it does not fail: the default if the attribute is missing, the
    printed value otherwise. *)
Definition texto_campo (a : attr pyval) (d : pystr) : pystr :=
  match a with
  | Value v => fmt v
  | Missing | Broken _ => d
  end.

(** Reading the attribute raises something other than an
    [AttributeError] (which [hasattr] would take for a missing
    attribute). *)
Definition campo_roto (a : attr pyval) : Prop :=
  exists e, a = Broken e /\ forall m, e <> AttributeError m.

(** A subject without its description, and a database whose subject
    queries return such subjects. *)
Definition sin_descripcion (m : Materia) : Materia :=
  {| materia_nombre := materia_nombre m;
     materia_descripcion := None;
     materia_curso := materia_curso m |}.

Definition ambiente_sin_descripcion (amb : Ambiente) : Ambiente :=
  {| getenv := getenv amb;
     hoy := hoy amb;
     queries :=
       {| archivos_de_profesor := archivos_de_profesor (queries amb);
          archivos_de_curso := archivos_de_curso (queries amb);
          materias_cursos_de_profesor :=
            fun pid =>
              map_result (map (fun mc => (sin_descripcion (fst mc), snd mc)))
                (materias_cursos_de_profesor (queries amb) pid);
          materias_de_curso :=
            fun cid => map_result (map sin_descripcion)
                         (materias_de_curso (queries amb) cid) |};
     rol_value := rol_value amb |}.

(** The same surroundings with the two queries of the teacher path, or
    the two of the student path, replaced. *)
Definition con_consultas_profesor
  (qa : Z -> result (list ArchivoMateria))
  (qm : Z -> result (list (Materia * Curso))) (amb : Ambiente) : Ambiente :=
  {| getenv := getenv amb;
     hoy := hoy amb;
     queries :=
       {| archivos_de_profesor := qa;
          archivos_de_curso := archivos_de_curso (queries amb);
          materias_cursos_de_profesor := qm;
          materias_de_curso := materias_de_curso (queries amb) |};
     rol_value := rol_value amb |}.

Definition con_consultas_alumno
  (qa : Z -> result (list ArchivoMateria))
  (qm : Z -> result (list Materia)) (amb : Ambiente) : Ambiente :=
  {| getenv := getenv amb;
     hoy := hoy amb;
     queries :=
       {| archivos_de_profesor := archivos_de_profesor (queries amb);
          archivos_de_curso := qa;
          materias_cursos_de_profesor :=
            materias_cursos_de_profesor (queries amb);
          materias_de_curso := qm |};
     rol_value := rol_value amb |}.

End Prompt.

(* ===================================================================== *)
(** ** Concrete inputs used to exercise the statements *)
(* ===================================================================== *)

Module Ejemplos.
Import Groq Crud Prompt.

Definition alumna_sin_fecha : Usuario :=
  {| id := Value 7; nombre := Value (Some (lit "Ana"));
     apellido := Value (Some (lit "Paz")); rol := Value (Some ALUMNO);
     fecha_nacimiento := Value None; get_institucion := Missing;
     curso_id := Value (Some 3); cursos := Value [] |}.

(** A student whose recorded birth date is the day after [2026-11-03]. *)
Definition nacida_manana : Usuario :=
  {| id := Value 9; nombre := Value (Some (lit "Luz"));
     apellido := Missing; rol := Value (Some ALUMNO);
     fecha_nacimiento := Value (Some (mk_date 2026 11 4));
     get_institucion := Missing; curso_id := Missing; cursos := Missing |}.

Definition clave_valida : pystr := lit "gsk_0123456789abcdef".

Definition mundo_en_linea : World :=
  {| getenv_GROQ_API_KEY := Some clave_valida;
     Groq_ctor := fun k => Ok {| client_api_key := k |};
     completions_create := fun _ => Ok (Some {| choices := [lit "ok"] |}) |}.

Definition mundo_sin_clave : World :=
  {| getenv_GROQ_API_KEY := None;
     Groq_ctor := fun k => Ok {| client_api_key := k |};
     completions_create := fun _ => Ok (Some {| choices := [lit "ok"] |}) |}.

(** The key is fine and the client is built, but the validation call
    times out. *)
Definition mundo_caido : World :=
  {| getenv_GROQ_API_KEY := Some clave_valida;
     Groq_ctor := fun k => Ok {| client_api_key := k |};
     completions_create := fun _ => Raise (PyException "timeout") |}.

(** The key is set to three blanks. *)
Definition mundo_clave_en_blanco : World :=
  {| getenv_GROQ_API_KEY := Some [32%N; 9%N; 32%N];
     Groq_ctor := fun k => Ok {| client_api_key := k |};
     completions_create := fun _ => Ok (Some {| choices := [lit "ok"] |}) |}.

Definition instante : datetime :=
  {| dt_year := 2026; dt_month := 11; dt_day := 3; dt_hour := 9; dt_minute := 5 |}.

Definition reloj : Clock :=
  {| now := instante; utcnow_creacion := instante;
     utcnow_ultimo_mensaje := instante |}.

Definition chat_de (uid : Z) (nombre : string) : ChatIA :=
  {| nombre_chat := lit nombre; usuario_id := uid;
     fecha_creacion := instante; fecha_ultimo_mensaje := instante |}.

Definition tablas : Tables :=
  {| chats := {[ 1 := chat_de 10 "Álgebra"; 2 := chat_de 20 "Historia" ]};
     mensajes :=
       {[ 1 := {| mensaje_chat_id := 1; contenido := lit "hola" |};
          2 := {| mensaje_chat_id := 2; contenido := lit "buenas" |};
          3 := {| mensaje_chat_id := 1; contenido := lit "gracias" |} ]} |}.

(** A clean session on [tablas] with the given faults to come. *)
Definition sesion (fs : list bool) : Session :=
  {| stored := tablas; pending := tablas; faults := fs |}.

(** No environment variable is set and every query comes back empty. *)
Definition amb_vacio : Ambiente :=
  {| getenv := fun _ => None;
     hoy := mk_date 2026 11 3;
     queries :=
       {| archivos_de_profesor := fun _ => Ok [];
          archivos_de_curso := fun _ => Ok [];
          materias_cursos_de_profesor := fun _ => Ok [];
          materias_de_curso := fun _ => Ok [] |};
     rol_value :=
       fun r => match r with
                | PROFESOR => lit "profesor"
                | ALUMNO => lit "alumno"
                end |}.

(** An object with none of the attributes of a user. *)
Definition objeto_sin_atributos : Usuario :=
  {| id := Missing; nombre := Missing; apellido := Missing; rol := Missing;
     fecha_nacimiento := Missing; get_institucion := Missing;
     curso_id := Missing; cursos := Missing |}.

(** A teacher object of which little more than the role can be read. *)
Definition usuario_sin_nombre : Usuario :=
  {| id := Missing; nombre := Missing; apellido := Missing;
     rol := Value (Some PROFESOR); fecha_nacimiento := Missing;
     get_institucion := Broken (PyException "connection lost");
     curso_id := Missing; cursos := Missing |}.

(** An object of which only the id can be read. *)
Definition objeto_solo_id : Usuario :=
  {| id := Value 5; nombre := Missing; apellido := Missing; rol := Missing;
     fecha_nacimiento := Missing; get_institucion := Missing;
     curso_id := Missing; cursos := Missing |}.

Definition materia_fisica : Materia :=
  {| materia_nombre := Some (lit "Física");
     materia_descripcion := None;
     materia_curso := Value (Some {| curso_id_ := 3; curso_nombre := Some (lit "5A") |}) |}.

(** A file with a short extracted text and no notes. *)
Definition archivo_breve : ArchivoMateria :=
  {| archivo_id := 1;
     archivo_path := Some (lit "uploads/fisica/ondas.pdf");
     nombre_tema := Some (lit "Ondas");
     texto_extraido := Some (lit "abc");
     notas_adicionales := None;
     instrucciones_ensenanza := Some (lit "Usar ejemplos");
     materia := Value (Some materia_fisica) |}.

(** A file whose extracted text has 2001 characters. *)
Definition archivo_largo : ArchivoMateria :=
  {| archivo_id := 2;
     archivo_path := None;
     nombre_tema := None;
     texto_extraido := Some (replicate 2001 120%N);
     notas_adicionales := Some (lit "Repasar");
     instrucciones_ensenanza := None;
     materia := Missing |}.

(** A file whose subject cannot be loaded. *)
Definition archivo_sin_materia : ArchivoMateria :=
  {| archivo_id := 3;
     archivo_path := Some (lit "a.pdf");
     nombre_tema := Some (lit "Luz");
     texto_extraido := Some (lit "texto");
     notas_adicionales := None;
     instrucciones_ensenanza := None;
     materia := Broken (PyException "db") |}.

(** The student entries of the two files. *)
Definition entrada_breve : pydict :=
  {[ "tema" := Some (lit "Ondas");
     "notas" := Some (lit "Sin notas adicionales");
     "instrucciones" := Some (lit "Usar ejemplos");
     "texto" := Some (lit "abc");
     "materia" := Some (lit "Física");
     "curso" := Some (lit "5A") ]}.

Definition entrada_larga : pydict :=
  {[ "tema" := Some (lit "Sin tema");
     "notas" := Some (lit "Repasar");
     "instrucciones" := Some (lit "Sin instrucciones específicas");
     "texto" := Some (replicate 2000 120%N ++ lit "...");
     "materia" := Some (lit "Sin materia");
     "curso" := Some (lit "Sin curso") ]}.

Definition amb_con_archivos : Ambiente :=
  {| getenv := getenv amb_vacio;
     hoy := hoy amb_vacio;
     queries :=
       {| archivos_de_profesor := fun _ => Ok [archivo_breve; archivo_largo];
          archivos_de_curso := fun _ => Ok [archivo_breve; archivo_largo];
          materias_cursos_de_profesor := fun _ => Ok [];
          materias_de_curso := fun _ => Ok [] |};
     rol_value := rol_value amb_vacio |}.

(** The queries find the one short file. *)
Definition amb_un_archivo : Ambiente :=
  {| getenv := getenv amb_vacio;
     hoy := hoy amb_vacio;
     queries :=
       {| archivos_de_profesor := fun _ => Ok [archivo_breve];
          archivos_de_curso := fun _ => Ok [archivo_breve];
          materias_cursos_de_profesor := fun _ => Ok [];
          materias_de_curso := fun _ => Ok [] |};
     rol_value := rol_value amb_vacio |}.

(** Eleven rows for one query. *)
Definition once_archivos : list ArchivoMateria := replicate 11 archivo_breve.

Definition amb_once_archivos : Ambiente :=
  {| getenv := getenv amb_vacio;
     hoy := hoy amb_vacio;
     queries :=
       {| archivos_de_profesor := fun _ => Ok once_archivos;
          archivos_de_curso := fun _ => Ok once_archivos;
          materias_cursos_de_profesor := fun _ => Ok [];
          materias_de_curso := fun _ => Ok [] |};
     rol_value := rol_value amb_vacio |}.

(** A student who is in no course. *)
Definition alumno_sin_curso : Usuario :=
  {| id := Value 11; nombre := Value (Some (lit "Leo"));
     apellido := Value None; rol := Value (Some ALUMNO);
     fecha_nacimiento := Missing; get_institucion := Missing;
     curso_id := Value None; cursos := Missing |}.

(** A student in two courses; the subjects of the second cannot be
    read. *)
Definition alumno_dos_cursos : Usuario :=
  {| id := Value 12; nombre := Value (Some (lit "Sol"));
     apellido := Missing; rol := Value (Some ALUMNO);
     fecha_nacimiento := Missing; get_institucion := Missing;
     curso_id := Value (Some 1);
     cursos := Value [ {| curso_id_ := 1; curso_nombre := Some (lit "5A") |};
                       {| curso_id_ := 2; curso_nombre := Some (lit "5B") |} ] |}.

Definition amb_segundo_curso_falla : Ambiente :=
  {| getenv := getenv amb_vacio;
     hoy := hoy amb_vacio;
     queries :=
       {| archivos_de_profesor := fun _ => Ok [];
          archivos_de_curso := fun _ => Ok [];
          materias_cursos_de_profesor := fun _ => Ok [];
          materias_de_curso :=
            fun cid => if bool_decide (cid = 1) then Ok [materia_fisica]
                       else Raise (PyException "db") |};
     rol_value := rol_value amb_vacio |}.

(** An institution whose name is [None] and which has no AI
    configuration attribute. *)
Definition institucion_parcial : Institucion :=
  {| inst_nombre := Value None;
     valores_institucionales := Value (Some (lit "Respeto"));
     metodologia_pedagogica := Value (Some (lit "Proyectos"));
     configuracion_ia := Missing |}.

Definition alumna_con_institucion : Usuario :=
  {| id := Value 13; nombre := Value (Some (lit "Mar"));
     apellido := Missing; rol := Value (Some ALUMNO);
     fecha_nacimiento := Missing;
     get_institucion := Value (Ok (Some institucion_parcial));
     curso_id := Missing; cursos := Missing |}.

Definition profesora : Usuario :=
  {| id := Value 8; nombre := Value (Some (lit "Eva"));
     apellido := Value (Some (lit "Gil")); rol := Value (Some PROFESOR);
     fecha_nacimiento := Value (Some (mk_date 1980 12 24));
     get_institucion := Missing; curso_id := Missing; cursos := Missing |}.

End Ejemplos.

(* ===================================================================== *)
(** * Properties *)
(* ===================================================================== *)

(** ** Age *)

Section Age.
Import Ejemplos.

Lemma tuple_lt_spec hoy nac :
  tuple_lt (month hoy) (day hoy) (month nac) (day nac) = true
  <-> birthday_still_to_come hoy nac.
Proof.
  unfold tuple_lt, birthday_still_to_come.
  rewrite orb_true_iff, andb_true_iff, !Z.ltb_lt, Z.eqb_eq. tauto.
Qed.

Lemma max_min_clamp x : Z.max 0 (Z.min x 120) = clamp 0 120 x.
Proof. unfold clamp. repeat case_decide; lia. Qed.

Lemma clamp_bounds x : 0 <= clamp 0 120 x <= 120.
Proof. unfold clamp. repeat case_decide; lia. Qed.

Lemma edad_calendario hoy nac :
  year hoy - year nac
  - (if tuple_lt (month hoy) (day hoy) (month nac) (day nac) then 1 else 0)
  = calendar_age hoy nac.
Proof.
  unfold calendar_age.
  destruct (tuple_lt _ _ _ _) eqn:E; case_decide as Hd; try reflexivity.
  - apply tuple_lt_spec in E. contradiction.
  - apply tuple_lt_spec in Hd. congruence.
Qed.

(** The calendar age is the age whose birthday has come, on or before
    today, while the next one has not. *)
Lemma calendar_age_between_birthdays hoy nac :
  date_le (birthday nac (calendar_age hoy nac)) hoy
  /\ date_lt hoy (birthday nac (calendar_age hoy nac + 1)).
Proof.
  unfold date_lt, date_le, birthday, calendar_age, birthday_still_to_come.
  cbn [year month day]. case_decide; lia.
Qed.

Lemma calendar_age_unique hoy nac a :
  date_le (birthday nac a) hoy -> date_lt hoy (birthday nac (a + 1)) ->
  a = calendar_age hoy nac.
Proof.
  unfold date_lt, date_le, birthday, calendar_age, birthday_still_to_come.
  cbn [year month day]. case_decide; lia.
Qed.

(** C7. Without a birth date (the attribute is missing, holds [None], or
    cannot be read) [_calculate_age] gives 30 to a teacher and 16 to
    anyone else; with a birth date it gives the calendar age, the years'
    difference less one while this year's birthday is still to come
    (the age whose birthday has come while the next has not), clamped to
    the interval from 0 to 120. *)
Theorem calculate_age_spec (hoy : date) (u : Usuario) :
  (forall r, rol u = Value r ->
     (forall nac, fecha_nacimiento u <> Value (Some nac)) ->
     _calculate_age hoy u = Ok (if es_profesor r then 30 else 16))
  /\ (forall nac, fecha_nacimiento u = Value (Some nac) ->
      _calculate_age hoy u = Ok (clamp 0 120 (calendar_age hoy nac))
      /\ 0 <= clamp 0 120 (calendar_age hoy nac) <= 120
      /\ date_le (birthday nac (calendar_age hoy nac)) hoy
      /\ date_lt hoy (birthday nac (calendar_age hoy nac + 1))).
Proof.
  split.
  - intros r Hrol Hno.
    unfold _calculate_age, _calculate_age_body, edad_por_defecto.
    rewrite Hrol.
    destruct (fecha_nacimiento u) as [| [m|m|m] | [nac|]] eqn:Ef; simpl;
      try reflexivity.
    exfalso. exact (Hno nac eq_refl).
  - intros nac Hnac. split; [| split; [apply clamp_bounds |]].
    + unfold _calculate_age, _calculate_age_body. rewrite Hnac. simpl.
      by rewrite edad_calendario, max_min_clamp.
    + apply calendar_age_between_birthdays.
Qed.

Lemma calculate_age_spec_witness :
  _calculate_age (mk_date 2026 11 3) alumna_sin_fecha = Ok 16
  /\ _calculate_age (mk_date 2026 11 3) profesora = Ok 45.
Proof.
  split.
  - refine (proj1 (calculate_age_spec (mk_date 2026 11 3) alumna_sin_fecha)
              (Some ALUMNO) eq_refl _).
    intros nac H. discriminate H.
  - exact (proj1 (proj2 (calculate_age_spec (mk_date 2026 11 3) profesora)
                    (mk_date 1980 12 24) eq_refl)).
Defined.

End Age.

(** ** Connectivity *)

Section Connectivity.
Import Groq Ejemplos.

(** One run of [_initialize_groq] on an object whose client is unset
    ends either with no client and an error recorded, or with a
    validated client and no error. *)
(** One run of [_initialize_groq] on an object whose client is unset
    ends either with no client and an error recorded, or with a
    validated client and no error. *)
Lemma initialize_from_unset w self :
  client self = None ->
  let self' := fst (_initialize_groq w self) in
  (client self' = None /\ initialization_error self' <> None
   /\ ~ (exists c, validated w c))
  \/ (exists c, client self' = Some c /\ validated w c
      /\ initialization_error self' = None
      /\ snd (_initialize_groq w self) = true).
Proof.
  intros Hc. unfold _initialize_groq, _initialize_groq_body.
  destruct (getenv_GROQ_API_KEY w) as [k|] eqn:Hk; cbn [truthy negb].
  2:{ left. repeat split; try done.
      intros (c & k & comp & Hk' & _). congruence. }
  destruct k as [|c0 k0]; cbn [truthy negb fmt].
  { left. repeat split; try done.
    intros (c & k' & comp & Hk' & Hlen & _). rewrite Hk in Hk'; injection Hk' as <-.
    vm_compute in Hlen. by apply Hlen. }
  set (k := c0 :: k0) in *.
  destruct (len (strip k) <? 10) eqn:El; cbn [fst snd].
  { left. repeat split; try done.
    intros (c & k' & comp & Hk' & Hlen & _). rewrite Hk in Hk'; injection Hk' as <-.
    apply Z.ltb_lt in El. lia. }
  apply Z.ltb_ge in El.
  destruct (Groq_ctor w (strip k)) as [c|e] eqn:Ector; cbn [fst snd].
  2:{ left. repeat split; try done.
      intros (c & k' & comp & Hk' & _ & Hc' & _). rewrite Hk in Hk'; injection Hk' as <-.
      congruence. }
  destruct (completions_create w c) as [[[[|ch chs]]|]|e] eqn:Ecall;
    cbn [fst snd].
  - left. repeat split; try done.
    intros (c' & k' & comp & Hk' & _ & Hc' & Hcall & Hne). rewrite Hk in Hk'; injection Hk' as <-.
    rewrite Ector in Hc'. injection Hc' as <-. rewrite Ecall in Hcall.
    injection Hcall as <-. done.
  - right. exists c. repeat split; try done.
    exists k, {| choices := ch :: chs |}. repeat split; done.
  - left. repeat split; try done.
    intros (c' & k' & comp & Hk' & _ & Hc' & Hcall & _). rewrite Hk in Hk'; injection Hk' as <-.
    rewrite Ector in Hc'. injection Hc' as <-. rewrite Ecall in Hcall. done.
  - left. repeat split; try done.
    intros (c' & k' & comp & Hk' & _ & Hc' & Hcall & _). rewrite Hk in Hk'; injection Hk' as <-.
    rewrite Ector in Hc'. injection Hc' as <-. rewrite Ecall in Hcall. done.
Qed.

Lemma reachable_from_unset w self :
  reachable w self ->
  exists self0, client self0 = None /\ self = fst (_initialize_groq w self0).
Proof.
  intros [w' | w0 w' s0 _].
  - by exists {| client := None; initialization_error := None |}.
  - by exists (set_error None (set_client None s0)).
Qed.

Lemma absent_not_validated w c : api_key_absent w -> ~ validated w c.
Proof.
  unfold api_key_absent. intros Ha (k & comp & Hk & Hlen & _).
  rewrite Hk in Ha. destruct k; [unfold len in Hlen; simpl in Hlen; lia | done].
Qed.

(** C10. In every state the facade reaches by construction
    followed by any number of [reinitialize], with [w] the world of the
    latest of these initializations: [is_available] is false when the API
    key is absent from [w]; it is true exactly when the client was
    constructed and the validation call of that initialization
    succeeded; it equals (client is not None); and when it is true no
    initialization error is recorded. *)
Theorem is_available_reachable (w : World) (self : ChatIA_Universal) :
  reachable w self ->
  (api_key_absent w -> is_available self = false)
  /\ (is_available self = true <->
      exists c, client self = Some c /\ validated w c)
  /\ is_available self = bool_decide (client self <> None)
  /\ (is_available self = true -> initialization_error self = None).
Proof.
  intros Hr. destruct (reachable_from_unset _ _ Hr) as (self0 & H0 & ->).
  pose proof (initialize_from_unset w self0 H0) as Hinit. simpl in Hinit.
  unfold is_available.
  destruct Hinit as [(Hc & He & Hnv) | (c & Hc & Hv & He & _)]; rewrite Hc.
  - repeat split; try done.
    intros (c & Hc' & _). done.
  - repeat split; try done.
    + intros Ha. exfalso. exact (absent_not_validated w c Ha Hv).
    + intros _. by exists c.
Qed.

Lemma is_available_reachable_witness :
  is_available (__init__ mundo_en_linea) = true
  /\ initialization_error (__init__ mundo_en_linea) = None.
Proof.
  pose proof (is_available_reachable mundo_en_linea (__init__ mundo_en_linea)
                (reach_init mundo_en_linea)) as (_ & _ & _ & H).
  split; [reflexivity | apply H; reflexivity].
Defined.

End Connectivity.

(** ** Chat CRUD *)

Section CrudProps.
Import Crud Ejemplos.

Lemma next_id_above (m : gmap Z ChatIA) :
  1 <= next_id m /\ forall k, is_Some (m !! k) -> k < next_id m.
Proof.
  unfold next_id.
  apply (map_fold_weak_ind
           (fun r (m : gmap Z ChatIA) => 1 <= r /\ forall k, is_Some (m !! k) -> k < r)).
  - split; [lia |]. intros k [x Hx]. rewrite lookup_empty in Hx. done.
  - intros i x m' r Hi [Hr IH]. split; [lia |].
    intros k Hk. destruct (decide (i = k)) as [-> | Hne].
    + lia.
    + rewrite lookup_insert_ne in Hk by done. specialize (IH k Hk). lia.
Qed.

Lemma next_id_fresh (m : gmap Z ChatIA) : m !! next_id m = None.
Proof.
  destruct (m !! next_id m) eqn:E; [| done].
  pose proof (proj2 (next_id_above m) (next_id m) (mk_is_Some _ _ E)). lia.
Qed.

Ltac healthy_inv H :=
  unfold healthy in H; cbn [faults take] in H;
  repeat match type of H with
         | Forall _ (_ :: _) => apply Forall_cons in H as [? H]
         end;
  try discriminate.

Ltac db_step :=
  unfold eliminar_chat, renombrar_chat, crear_chat, try_rollback,
    eliminar_chat_body, renombrar_chat_body, crear_chat_body,
    query_chat_first, delete_mensajes, session_delete, session_add,
    set_nombre_chat, session_commit, session_rollback,
    db_bind, db_ret, db_call, get_pending, put_pending, raised;
  cbn [fst snd stored pending faults chats mensajes].

Ltac split_faults fs :=
  destruct fs as [|[] [|[] [|[] [|[] ?]]]].

Lemma not_owned_query t chat_id uid :
  ~ owned_by t chat_id uid ->
  match chats t !! chat_id with
  | Some chat => if decide (usuario_id chat = uid) then Some chat else None
  | None => None
  end = None.
Proof.
  intros Hn. destruct (chats t !! chat_id) as [chat|] eqn:E; [| done].
  case_decide; [| done]. exfalso. apply Hn. by exists chat.
Qed.

Lemma owned_query t chat_id uid chat :
  chats t !! chat_id = Some chat -> usuario_id chat = uid ->
  match chats t !! chat_id with
  | Some chat => if decide (usuario_id chat = uid) then Some chat else None
  | None => None
  end = Some chat.
Proof. intros -> Hu. by rewrite decide_True. Qed.

(** C1. [eliminar_chat] returns false and leaves the record set as it
    is (and, when the lookup itself does not fail, also the open
    transaction) when the session finds no chat with that id owned by
    that user; when it finds one and the persistence layer does not
    fail, it returns true and the committed tables are the former ones
    without the chat and without every message of that chat, all other
    chats and messages being kept. *)
Theorem eliminar_chat_spec (chat_id uid : Z) (s : Session) :
  (~ owned_by (pending s) chat_id uid ->
   fst (eliminar_chat chat_id uid s) = false
   /\ stored (snd (eliminar_chat chat_id uid s)) = stored s
   /\ (healthy 1 s -> pending (snd (eliminar_chat chat_id uid s)) = pending s))
  /\ (owned_by (pending s) chat_id uid -> healthy 4 s ->
      let t' := stored (snd (eliminar_chat chat_id uid s)) in
      fst (eliminar_chat chat_id uid s) = true
      /\ pending (snd (eliminar_chat chat_id uid s)) = t'
      /\ chats t' = delete chat_id (chats (pending s))
      /\ mensajes t'
         = filter (fun km => mensaje_chat_id (snd km) <> chat_id)
             (mensajes (pending s))
      /\ chats t' !! chat_id = None
      /\ (forall k m, mensajes t' !! k = Some m -> mensaje_chat_id m <> chat_id)
      /\ (forall k, k <> chat_id -> chats t' !! k = chats (pending s) !! k)
      /\ (forall k m, mensajes (pending s) !! k = Some m ->
          mensaje_chat_id m <> chat_id -> mensajes t' !! k = Some m)).
Proof.
  destruct s as [st pe fs]. cbn [pending stored]. split.
  - intros Hn. pose proof (not_owned_query _ _ _ Hn) as Hq.
    split_faults fs; db_step; rewrite ?Hq; repeat split; try done;
      intros Hh; healthy_inv Hh.
  - intros (chat & Hl & Hu) Hh. pose proof (owned_query _ _ _ _ Hl Hu) as Hq.
    split_faults fs; healthy_inv Hh; db_step; rewrite ?Hq; db_step;
      (split; [done |]); (split; [done |]); (split; [done |]);
      (split; [done |]); (split; [apply lookup_delete_eq |]);
      (split; [intros k m Hm; apply map_lookup_filter_Some in Hm as [_ Hm];
               exact Hm |]);
      (split; [intros k Hk; by apply lookup_delete_ne |]);
      intros k m Hm Hne; by apply map_lookup_filter_Some.
Qed.
Lemma eliminar_chat_spec_witness :
  fst (eliminar_chat 1 10 (sesion [])) = true
  /\ chats (stored (snd (eliminar_chat 1 10 (sesion [])))) !! 1 = None
  /\ fst (eliminar_chat 1 20 (sesion [])) = false
  /\ stored (snd (eliminar_chat 1 20 (sesion []))) = tablas.
Proof.
  destruct (eliminar_chat_spec 1 10 (sesion [])) as [_ Hyes].
  destruct (eliminar_chat_spec 1 20 (sesion [])) as [Hno _].
  assert (Hown : owned_by (pending (sesion [])) 1 10).
  { exists (chat_de 10 "Álgebra"). split; reflexivity. }
  assert (Hnot : ~ owned_by (pending (sesion [])) 1 20).
  { intros (chat & Hl & Hu). vm_compute in Hl. injection Hl as <-.
    discriminate Hu. }
  assert (Hh : healthy 4 (sesion [])) by constructor.
  destruct (Hyes Hown Hh) as (H1 & _ & _ & _ & H5 & _).
  destruct (Hno Hnot) as (H6 & H7 & _).
  repeat split; assumption.
Defined.

(** What makes a try block raise: a failing call among those the
    operation makes. *)
Lemma crear_chat_raises_iff clk uid nombre s :
  raised (crear_chat_body clk uid nombre s) <-> ~ healthy 3 s.
Proof.
  destruct s as [st pe fs].
  split_faults fs; db_step; split; try done;
    try (intros _ Hh; healthy_inv Hh);
    try (intros Hh; exfalso; apply Hh; unfold healthy; cbn [faults take];
         repeat constructor).
Qed.

Lemma eliminar_chat_raises_iff chat_id uid s :
  raised (eliminar_chat_body chat_id uid s) <->
  (if decide (owned_by (pending s) chat_id uid)
   then ~ healthy 4 s else ~ healthy 1 s).
Proof.
  destruct s as [st pe fs]. cbn [pending].
  case_decide as Ho.
  - destruct Ho as (chat & Hl & Hu).
    pose proof (owned_query _ _ _ _ Hl Hu) as Hq.
    split_faults fs; db_step; rewrite ?Hq; db_step; split; try done;
      try (intros _ Hh; healthy_inv Hh);
      try (intros Hh; exfalso; apply Hh; unfold healthy; cbn [faults take];
           repeat constructor).
  - pose proof (not_owned_query _ _ _ Ho) as Hq.
    split_faults fs; db_step; rewrite ?Hq; db_step; split; try done;
      try (intros _ Hh; healthy_inv Hh);
      try (intros Hh; exfalso; apply Hh; unfold healthy; cbn [faults take];
           repeat constructor).
Qed.

Lemma renombrar_chat_raises_iff chat_id uid nuevo s :
  raised (renombrar_chat_body chat_id uid nuevo s) <->
  (if decide (owned_by (pending s) chat_id uid)
   then ~ healthy 2 s else ~ healthy 1 s).
Proof.
  destruct s as [st pe fs]. cbn [pending].
  case_decide as Ho.
  - destruct Ho as (chat & Hl & Hu).
    pose proof (owned_query _ _ _ _ Hl Hu) as Hq.
    split_faults fs; db_step; rewrite ?Hq; db_step; split; try done;
      try (intros _ Hh; healthy_inv Hh);
      try (intros Hh; exfalso; apply Hh; unfold healthy; cbn [faults take];
           repeat constructor).
  - pose proof (not_owned_query _ _ _ Ho) as Hq.
    split_faults fs; db_step; rewrite ?Hq; db_step; split; try done;
      try (intros _ Hh; healthy_inv Hh);
      try (intros Hh; exfalso; apply Hh; unfold healthy; cbn [faults take];
           repeat constructor).
Qed.

(** Where a failure is rolled back to the former record set: at any
    point of [eliminar_chat] and [renombrar_chat], and in [crear_chat]
    when the add or the commit fails. The try block of each operation
    raises exactly when one of the calls it makes into the persistence
    layer fails. *)
Lemma crud_failure_rolls_back (s : Session) :
  (forall clk uid nombre,
      (raised (crear_chat_body clk uid nombre s) <-> ~ healthy 3 s)
      /\ (raised (crear_chat_body clk uid nombre s) ->
          fst (crear_chat clk uid nombre s) = None
          /\ pending (snd (crear_chat clk uid nombre s))
             = stored (snd (crear_chat clk uid nombre s)))
      /\ (~ healthy 2 s ->
          fst (crear_chat clk uid nombre s) = None
          /\ stored (snd (crear_chat clk uid nombre s)) = stored s
          /\ pending (snd (crear_chat clk uid nombre s)) = stored s))
  /\ (forall chat_id uid,
      (raised (eliminar_chat_body chat_id uid s) <->
       if decide (owned_by (pending s) chat_id uid)
       then ~ healthy 4 s else ~ healthy 1 s)
      /\ (raised (eliminar_chat_body chat_id uid s) ->
          fst (eliminar_chat chat_id uid s) = false
          /\ stored (snd (eliminar_chat chat_id uid s)) = stored s
          /\ pending (snd (eliminar_chat chat_id uid s)) = stored s))
  /\ (forall chat_id uid nuevo,
      (raised (renombrar_chat_body chat_id uid nuevo s) <->
       if decide (owned_by (pending s) chat_id uid)
       then ~ healthy 2 s else ~ healthy 1 s)
      /\ (raised (renombrar_chat_body chat_id uid nuevo s) ->
          fst (renombrar_chat chat_id uid nuevo s) = false
          /\ stored (snd (renombrar_chat chat_id uid nuevo s)) = stored s
          /\ pending (snd (renombrar_chat chat_id uid nuevo s)) = stored s)).
Proof.
  split; [| split].
  - intros clk uid nombre. split; [apply crear_chat_raises_iff |].
    destruct s as [st pe fs]. cbn [stored]. split.
    + split_faults fs; db_step; intros Hr; try done.
    + intros Hn.
      split_faults fs; db_step; try done;
        exfalso; apply Hn; unfold healthy; cbn [faults take];
        repeat constructor.
  - intros chat_id uid. split; [apply eliminar_chat_raises_iff |].
    destruct s as [st pe fs]. cbn [stored].
    destruct (chats pe !! chat_id) as [chat|] eqn:Hl;
      [destruct (decide (usuario_id chat = uid)) as [Hu|Hu] |];
      split_faults fs; db_step; rewrite ?Hl; rewrite ?(decide_True _ _ Hu);
      rewrite ?(decide_False _ _ Hu); db_step; intros Hr; try done.
  - intros chat_id uid nuevo. split; [apply renombrar_chat_raises_iff |].
    destruct s as [st pe fs]. cbn [stored].
    destruct (chats pe !! chat_id) as [chat|] eqn:Hl;
      [destruct (decide (usuario_id chat = uid)) as [Hu|Hu] |];
      split_faults fs; db_step; rewrite ?Hl; rewrite ?(decide_True _ _ Hu);
      rewrite ?(decide_False _ _ Hu); db_step; intros Hr; try done.
Qed.

Lemma crud_failure_rolls_back_witness :
  fst (eliminar_chat 1 10 (sesion [false; false; false; true])) = false
  /\ stored (snd (eliminar_chat 1 10 (sesion [false; false; false; true])))
     = tablas
  /\ fst (crear_chat reloj 10 None (sesion [false; true])) = None
  /\ stored (snd (crear_chat reloj 10 None (sesion [false; true]))) = tablas
  /\ fst (renombrar_chat 1 10 (lit "Geometría") (sesion [false; true])) = false
  /\ stored (snd (renombrar_chat 1 10 (lit "Geometría") (sesion [false; true])))
     = tablas.
Proof.
  destruct (crud_failure_rolls_back (sesion [false; false; false; true]))
    as (_ & He & _).
  destruct (crud_failure_rolls_back (sesion [false; true])) as (Hc & _ & Hr).
  destruct (proj2 (He 1 10)) as (H1 & H2 & _); [vm_compute; exact I |].
  destruct (proj2 (proj2 (Hc reloj 10 None))) as (H3 & H4 & _).
  { intros Hh. unfold healthy in Hh. cbn [faults sesion take] in Hh.
    apply Forall_cons in Hh as [_ Hh]. apply Forall_cons in Hh as [Hh _].
    discriminate Hh. }
  destruct (proj2 (Hr 1 10 (lit "Geometría"))) as (H5 & H6 & _);
    [vm_compute; exact I |].
  repeat split; assumption.
Defined.

(** C3. What the code does where the claim expects a rollback to the
    former record set: when the add and the commit of [crear_chat] go
    through and the reload of [chat.id] for the log line then raises,
    the handler rolls back an empty transaction and [None] is returned
    although the new chat is committed. *)
Theorem crear_chat_fails_after_commit (clk : Clock) (uid : Z)
  (nombre : option pystr) (s : Session) :
  healthy 2 s -> ~ healthy 3 s ->
  let new_id := next_id (chats (pending s)) in
  raised (crear_chat_body clk uid nombre s)
  /\ fst (crear_chat clk uid nombre s) = None
  /\ chats (pending s) !! new_id = None
  /\ chats (stored (snd (crear_chat clk uid nombre s)))
     = <[new_id := chat_nuevo clk uid nombre]> (chats (pending s))
  /\ chats (stored (snd (crear_chat clk uid nombre s))) !! new_id
     = Some (chat_nuevo clk uid nombre)
  /\ mensajes (stored (snd (crear_chat clk uid nombre s)))
     = mensajes (pending s)
  /\ pending (snd (crear_chat clk uid nombre s))
     = stored (snd (crear_chat clk uid nombre s)).
Proof.
  destruct s as [st pe fs]. cbn [pending]. intros H2 H3.
  pose proof (next_id_fresh (chats pe)) as Hfresh.
  split_faults fs; healthy_inv H2;
    try (exfalso; apply H3; unfold healthy; cbn [faults take];
         repeat constructor; fail);
    db_step; repeat split; try done; apply lookup_insert_eq.
Qed.

Lemma crear_chat_fails_after_commit_witness :
  fst (crear_chat reloj 10 None (sesion [false; false; true])) = None
  /\ chats (stored (snd (crear_chat reloj 10 None (sesion [false; false; true]))))
     !! 3
     = Some (chat_nuevo reloj 10 None)
  /\ chats tablas !! 3 = None.
Proof.
  assert (H2 : healthy 2 (sesion [false; false; true])) by (repeat constructor).
  assert (H3 : ~ healthy 3 (sesion [false; false; true])).
  { intros Hh. unfold healthy in Hh. cbn [faults sesion take] in Hh.
    do 2 apply Forall_cons in Hh as [_ Hh]. apply Forall_cons in Hh as [Hh _].
    discriminate Hh. }
  destruct (crear_chat_fails_after_commit reloj 10 None
              (sesion [false; false; true]) H2 H3)
    as (_ & Hn & Hf & _ & Hl & _).
  split; [exact Hn |]. split; [exact Hl | exact Hf].
Defined.

Lemma lstrip_head (s : pystr) :
  (forall c, head s = Some c -> isspace c = false) -> lstrip s = s.
Proof.
  destruct s as [|c r]; [done |]. intros H. simpl.
  by rewrite (H c eq_refl).
Qed.

Lemma strip_no_outer_space (s : pystr) : no_outer_space s -> strip s = s.
Proof.
  intros [Hh Hl]. unfold strip, rstrip.
  rewrite (lstrip_head s Hh), lstrip_head.
  - apply reverse_involutive.
  - intros c Hc. apply Hl. by rewrite <- (reverse_involutive s), last_reverse.
Qed.

Lemma alter_twice {A} (f : A -> A) (i : Z) (m : gmap Z A) :
  (forall x, f (f x) = f x) -> alter f i (alter f i m) = alter f i m.
Proof.
  intros Hf. apply map_eq. intros j. destruct (decide (i = j)) as [-> | Hne].
  - rewrite !lookup_alter_eq. destruct (m !! j); simpl; [by rewrite Hf | done].
  - by rewrite !lookup_alter_ne.
Qed.

(** C8 (amended). For a chat owned by the requesting user, while the
    persistence layer does not fail, [renombrar_chat] stores the new name
    stripped of the white space around it and cut to its first 200
    characters: never more than 200 characters, exactly 200 when the
    stripped name is longer, and the first 200 characters of the name
    itself when the name has no white space at either end; renaming a
    second time with the same name leaves the tables as the first
    renaming left them. *)
Theorem renombrar_chat_spec (chat_id uid : Z) (nuevo : pystr) (s : Session) :
  owned_by (pending s) chat_id uid -> healthy 2 s ->
  let r := renombrar_chat chat_id uid nuevo s in
  fst r = true
  /\ (exists chat,
        chats (stored (snd r)) !! chat_id = Some chat
        /\ usuario_id chat = uid
        /\ nombre_chat chat = take 200 (strip nuevo)
        /\ (length (nombre_chat chat) <= 200)%nat
        /\ ((200 < length (strip nuevo))%nat ->
            length (nombre_chat chat) = 200%nat)
        /\ (no_outer_space nuevo -> nombre_chat chat = take 200 nuevo))
  /\ (healthy 4 s ->
      let r2 := renombrar_chat chat_id uid nuevo (snd r) in
      fst r2 = true
      /\ stored (snd r2) = stored (snd r)
      /\ pending (snd r2) = pending (snd r)).
Proof.
  destruct s as [st pe fs]. cbn [pending].
  intros (chat & Hl & Hu) Hh. pose proof (owned_query _ _ _ _ Hl Hu) as Hq.
  set (f := fun c : ChatIA =>
              {| nombre_chat := slice_to 200 (strip nuevo);
                 usuario_id := usuario_id c;
                 fecha_creacion := fecha_creacion c;
                 fecha_ultimo_mensaje := fecha_ultimo_mensaje c |}).
  assert (Hq2 :
    match alter f chat_id (chats pe) !! chat_id with
    | Some c => if decide (usuario_id c = uid) then Some c else None
    | None => None
    end = Some (f chat)).
  { rewrite lookup_alter_eq, Hl. simpl. by rewrite decide_True. }
  assert (Hname : exists c,
            alter f chat_id (chats pe) !! chat_id = Some c
            /\ usuario_id c = uid
            /\ nombre_chat c = take 200 (strip nuevo)
            /\ (length (nombre_chat c) <= 200)%nat
            /\ ((200 < length (strip nuevo))%nat ->
                length (nombre_chat c) = 200%nat)
            /\ (no_outer_space nuevo -> nombre_chat c = take 200 nuevo)).
  { exists (f chat). rewrite lookup_alter_eq, Hl. cbn [f nombre_chat usuario_id].
    unfold slice_to. rewrite length_take. repeat split; try done; try lia.
    intros Hn. by rewrite (strip_no_outer_space _ Hn). }
  split_faults fs; healthy_inv Hh; db_step; rewrite ?Hq; db_step;
    fold f; (split; [done |]); (split; [exact Hname |]);
    intros Hh4; healthy_inv Hh4; db_step; fold f; rewrite ?Hq2; db_step;
    fold f; rewrite (alter_twice f) by done; done.
Qed.

Lemma renombrar_chat_spec_witness :
  fst (renombrar_chat 1 10 (lit "  Geometría ") (sesion [])) = true
  /\ nombre_chat
     <$> chats (stored (snd (renombrar_chat 1 10 (lit "  Geometría ") (sesion []))))
         !! 1
     = Some (lit "Geometría").
Proof.
  assert (Hown : owned_by (pending (sesion [])) 1 10).
  { exists (chat_de 10 "Álgebra"). split; reflexivity. }
  assert (Hh : healthy 2 (sesion [])) by constructor.
  destruct (renombrar_chat_spec 1 10 (lit "  Geometría ") (sesion []) Hown Hh)
    as (H1 & (chat & Hl & _ & Hn & _) & _).
  split; [exact H1 |]. rewrite Hl. simpl. rewrite Hn. reflexivity.
Defined.

(** C8, as stated, fails on a name that begins with white space: the
    name is stripped before it is cut, so what is stored is not the
    first 200 characters of the name. *)
Lemma renombrar_chat_strips_before_cutting :
  ~ (forall chat_id uid nuevo s,
        owned_by (pending s) chat_id uid -> healthy 2 s ->
        (200 < length nuevo)%nat ->
        exists chat,
          chats (stored (snd (renombrar_chat chat_id uid nuevo s))) !! chat_id
          = Some chat
          /\ nombre_chat chat = take 200 nuevo).
Proof.
  intros H.
  destruct (H 1 10 (32%N :: replicate 201 97%N) (sesion [])) as (chat & Hl & Hn).
  - exists (chat_de 10 "Álgebra"). split; reflexivity.
  - constructor.
  - rewrite length_cons, length_replicate. lia.
  - vm_compute in Hl. injection Hl as <-. vm_compute in Hn. discriminate Hn.
Qed.

Lemma pad2_two_digits n : 0 <= n < 100 -> pad2 n = two_digits n.
Proof.
  intros Hn.
  assert (H : forallb (fun k => bool_decide (pad2 (Z.of_nat k) = two_digits (Z.of_nat k)))
                (seq 0 100) = true) by (vm_compute; reflexivity).
  rewrite forallb_forall in H.
  assert (Hin : In (Z.to_nat n) (seq 0 100)) by (apply in_seq; lia).
  specialize (H _ Hin). rewrite Z2Nat.id in H by lia.
  by apply bool_decide_eq_true in H.
Qed.

Lemma year_four_digits n : 1000 <= n <= 9999 -> str_of_Z n = four_digits n.
Proof.
  intros Hn.
  assert (H : forallb (fun q =>
                forallb (fun r =>
                  bool_decide (str_of_Z (100 * Z.of_nat q + Z.of_nat r)
                               = four_digits (100 * Z.of_nat q + Z.of_nat r)))
                  (seq 0 100))
                (seq 10 90) = true) by (vm_compute; reflexivity).
  rewrite forallb_forall in H.
  assert (Hq : In (Z.to_nat (n / 100)) (seq 10 90)).
  { apply in_seq. pose proof (Z.div_le_lower_bound n 100 10).
    pose proof (Z.div_lt_upper_bound n 100 100). lia. }
  specialize (H _ Hq). rewrite forallb_forall in H.
  assert (Hr : In (Z.to_nat (n mod 100)) (seq 0 100)).
  { apply in_seq. pose proof (Z.mod_pos_bound n 100). lia. }
  specialize (H _ Hr). apply bool_decide_eq_true in H.
  pose proof (Z.mod_pos_bound n 100).
  assert (0 <= n / 100) by (apply Z.div_pos; lia).
  rewrite !Z2Nat.id in H by lia.
  by rewrite <- (Z.div_mod n 100) in H by lia.
Qed.

Lemma strftime_fixed_format dt :
  valid_datetime dt ->
  strftime dt = dd_mm_yyyy_HH_MM dt /\ length (strftime dt) = 16%nat.
Proof.
  intros (Hy & Hm & Hd & HH & HM). unfold strftime.
  rewrite !pad2_two_digits, year_four_digits by lia. split; reflexivity.
Qed.

(** C9 (amended). While the add and the commit do not fail,
    [crear_chat] persists under a fresh key a chat of the given user
    (and returns it when the reload of its id does not fail either)
    whose name is: the word Chat, a space and the current local time
    printed as [dd/mm/yyyy HH:MM] when no name or the empty name is
    given; the given name, verbatim, when it is not empty. *)
Theorem crear_chat_spec (clk : Clock) (uid : Z) (nombre : option pystr)
  (s : Session) :
  healthy 2 s ->
  exists new_id chat,
    (healthy 3 s -> fst (crear_chat clk uid nombre s) = Some (new_id, chat))
    /\ chats (pending s) !! new_id = None
    /\ chats (stored (snd (crear_chat clk uid nombre s)))
       = <[new_id := chat]> (chats (pending s))
    /\ mensajes (stored (snd (crear_chat clk uid nombre s)))
       = mensajes (pending s)
    /\ usuario_id chat = uid
    /\ fecha_creacion chat = utcnow_creacion clk
    /\ fecha_ultimo_mensaje chat = utcnow_ultimo_mensaje clk
    /\ (nombre = None \/ nombre = Some [] ->
        nombre_chat chat = lit "Chat " ++ strftime (now clk)
        /\ (valid_datetime (now clk) ->
            nombre_chat chat = lit "Chat " ++ dd_mm_yyyy_HH_MM (now clk)))
    /\ (forall n, nombre = Some n -> n <> [] -> nombre_chat chat = n).
Proof.
  destruct s as [st pe fs]. cbn [pending]. intros Hh.
  exists (next_id (chats pe)), (chat_nuevo clk uid nombre).
  unfold chat_nuevo.
  split_faults fs; healthy_inv Hh; db_step;
    (split; [intros H3; healthy_inv H3; reflexivity |]);
    (split; [apply next_id_fresh |]);
    (split; [reflexivity |]); (split; [reflexivity |]);
    (split; [reflexivity |]); (split; [reflexivity |]);
    (split; [reflexivity |]); cbn [nombre_chat];
    (split;
     [ intros [-> | ->]; cbn [truthy negb]; (split; [reflexivity |]);
       intros Hv; by rewrite (proj1 (strftime_fixed_format _ Hv))
     | intros [|c n] -> Hne; [done | reflexivity] ]).
Qed.

Lemma crear_chat_spec_witness :
  exists new_id chat,
    fst (crear_chat reloj 10 None (sesion [])) = Some (new_id, chat)
    /\ nombre_chat chat = lit "Chat 03/11/2026 09:05".
Proof.
  destruct (crear_chat_spec reloj 10 None (sesion [])) as
    (new_id & chat & H1 & _ & _ & _ & _ & _ & _ & Hn & _); [constructor |].
  exists new_id, chat. split; [apply H1; constructor |].
  destruct (Hn (or_introl eq_refl)) as [-> _]. reflexivity.
Defined.

(** C9, as stated, fails on the empty name: it is taken for no name and
    replaced by the dated default, not stored verbatim. *)
Lemma crear_chat_empty_name_not_verbatim :
  ~ (forall clk uid nombre s,
        healthy 3 s ->
        exists new_id chat,
          fst (crear_chat clk uid (Some nombre) s) = Some (new_id, chat)
          /\ nombre_chat chat = nombre).
Proof.
  intros H.
  destruct (H reloj 10 [] (sesion [])) as (new_id & chat & Hc & Hn);
    [constructor |].
  vm_compute in Hc. injection Hc as _ <-. discriminate Hn.
Qed.

End CrudProps.

(** ** Prompt construction *)

Section PromptProps.
Import Prompt Ejemplos.

Lemma bind_Ok {A B} (r : result A) (k : A -> result B) (b : B) :
  bind r k = Ok b -> exists a, r = Ok a /\ k a = Ok b.
Proof. destruct r as [a|e]; simpl; [eauto | discriminate]. Qed.

(** The handler of [_build_system_prompt] succeeds whenever [rol] can be
    read. *)
Lemma calculate_age_total hoy u r :
  rol u = Value r -> exists z, _calculate_age hoy u = Ok z.
Proof.
  intros Hrol. unfold _calculate_age, try_except.
  destruct (_calculate_age_body hoy u) as [z|e]; [by exists z |].
  unfold edad_por_defecto. rewrite Hrol. simpl. eauto.
Qed.

Lemma occurs_in_fallback r : occurs_in (rol_fallback r) (prompt_fallback r).
Proof.
  exists (lit "Eres un asistente educativo especializado para "),
         (lit "s. Ayuda de manera apropiada y educativa.").
  reflexivity.
Qed.

(** C2 (amended). For every user object whose [rol] attribute can be
    read, whatever else is missing or fails, [_build_system_prompt]
    does not raise and returns a string; when anything inside it fails,
    that string is the generic fallback, which contains the noun
    profesor for a teacher and estudiante for anyone else. *)
Theorem build_system_prompt_never_raises (amb : Ambiente) (u : Usuario)
  (r : option RolUsuario) :
  rol u = Value r ->
  exists p,
    _build_system_prompt amb u = Ok p
    /\ (forall e, _build_system_prompt_body amb u = Raise e ->
        p = prompt_fallback r)
    /\ (forall p', _build_system_prompt_body amb u = Ok p' -> p = p')
    /\ occurs_in (if es_profesor r then lit "profesor" else lit "estudiante")
         (prompt_fallback r).
Proof.
  intros Hrol. unfold _build_system_prompt, try_except.
  destruct (_build_system_prompt_body amb u) as [p|e].
  - exists p. repeat split; [discriminate | congruence | apply occurs_in_fallback].
  - rewrite Hrol. simpl. exists (prompt_fallback r).
    repeat split; [discriminate | apply occurs_in_fallback].
Qed.

Lemma build_system_prompt_never_raises_witness :
  _build_system_prompt amb_vacio usuario_sin_nombre
  = Ok (prompt_fallback (Some PROFESOR)).
Proof.
  destruct (build_system_prompt_never_raises amb_vacio usuario_sin_nombre
              (Some PROFESOR) eq_refl) as (p & Hp & Hfall & _).
  rewrite Hp. f_equal. apply (Hfall (AttributeError "nombre")).
  vm_compute. reflexivity.
Defined.

(** C2, as stated, fails on an object without the [rol] attribute: the
    handler reads [usuario.rol] itself, and the [AttributeError] leaves
    the function. *)
Lemma build_system_prompt_raises_without_rol :
  ~ (forall amb u, exists p, _build_system_prompt amb u = Ok p).
Proof.
  intros H. destruct (H amb_vacio objeto_sin_atributos) as [p Hp].
  vm_compute in Hp. discriminate Hp.
Qed.



Lemma entrada_profesor_inv a d :
  entrada_profesor a = Ok d ->
  exists nm,
    nombre_materia_de a = Ok nm
    /\ d = {[ "tema" := Some (or_else (nombre_tema a) (lit "Sin tema"));
              "materia" := Some nm;
              "nombre_archivo" :=
                Some (if truthy (archivo_path a)
                      then split_last 47%N (fmt (archivo_path a))
                      else lit "Sin nombre") ]}.
Proof.
  unfold entrada_profesor. intros H.
  apply bind_Ok in H as (nm & Hnm & H). injection H as <-. eauto.
Qed.

Lemma entrada_alumno_inv a d :
  entrada_alumno a = Ok d ->
  exists nm nc,
    nombre_materia_de a = Ok nm /\ nombre_curso_de a = Ok nc
    /\ d = {[ "tema" := Some (or_else (nombre_tema a) (lit "Sin tema"));
              "notas" := Some (or_else (notas_adicionales a)
                                 (lit "Sin notas adicionales"));
              "instrucciones" :=
                Some (or_else (instrucciones_ensenanza a)
                        (lit "Sin instrucciones específicas"));
              "texto" := Some (texto_procesado a);
              "materia" := Some nm;
              "curso" := Some nc ]}.
Proof.
  unfold entrada_alumno. intros H.
  apply bind_Ok in H as (nm & Hnm & H).
  apply bind_Ok in H as (nc & Hnc & H). injection H as <-. eauto.
Qed.

Lemma bloque_alumno_lines idx (tema notas instr texto mat cur : pystr) :
  bloque_alumno
    (idx, {[ "tema" := Some tema; "notas" := Some notas;
             "instrucciones" := Some instr; "texto" := Some texto;
             "materia" := Some mat; "curso" := Some cur ]})
  = Ok [ lit "Archivos cargados por el profesor.";
         lit "Archivo " ++ str_of_nat idx ++ lit ":";
         lit "- Tema: " ++ tema;
         lit "- Materia: " ++ mat;
         lit "- Notas: " ++ notas;
         lit "- Instrucciones de enseñanza: " ++ instr;
         lit "- Contenido: " ++ texto ++ lit "..." ].
Proof. reflexivity. Qed.

Lemma bloque_profesor_lines idx (tema mat nom : pystr) :
  bloque_profesor
    (idx, {[ "tema" := Some tema; "materia" := Some mat;
             "nombre_archivo" := Some nom ]})
  = Ok [ lit "";
         lit "Archivo " ++ str_of_nat idx ++ lit ":";
         lit "- Tema: " ++ tema;
         lit "- Materia: " ++ mat;
         lit "- Nombre: " ++ nom ].
Proof. reflexivity. Qed.


(** The defaults handed to [env_vars.get] are never used: the dict built
    by [_get_env_vars] holds all five keys, with [None] for a variable
    that is not set. *)
Lemma env_defaults_never_used amb d :
  dict_get (_get_env_vars amb) "NOMBRE" d = getenv amb "NOMBRE"
  /\ dict_get (_get_env_vars amb) "LIMITACIONES" d = getenv amb "LIMITACIONES"
  /\ dict_get (_get_env_vars amb) "ROL_IA_ALUMNOS" d = getenv amb "ROL_IA_ALUMNOS"
  /\ dict_get (_get_env_vars amb) "ROL_IA_PROFESORES" d
     = getenv amb "ROL_IA_PROFESORES"
  /\ dict_get (_get_env_vars amb) "EDAD_REGULACION" d
     = getenv amb "EDAD_REGULACION".
Proof. repeat split; reflexivity. Qed.

(** C4. What the code does where the claim expects the builtin
    defaults: for each of the five configuration values
    [env_vars.get(key, default)] is whatever [os.getenv] gave, [None]
    included, whatever the default; and with no environment variable
    set, the prompt built for a student prints the word None where the
    assistant name, the persona, the limitations and the minimum age
    belong, and none of the builtin default texts. *)
Theorem prompt_without_env_prints_None :
  (forall amb d,
     dict_get (_get_env_vars amb) "NOMBRE" d = getenv amb "NOMBRE"
     /\ dict_get (_get_env_vars amb) "LIMITACIONES" d
        = getenv amb "LIMITACIONES"
     /\ dict_get (_get_env_vars amb) "ROL_IA_ALUMNOS" d
        = getenv amb "ROL_IA_ALUMNOS"
     /\ dict_get (_get_env_vars amb) "ROL_IA_PROFESORES" d
        = getenv amb "ROL_IA_PROFESORES"
     /\ dict_get (_get_env_vars amb) "EDAD_REGULACION" d
        = getenv amb "EDAD_REGULACION")
  /\ _build_system_prompt amb_vacio alumna_sin_fecha
  = Ok (lit "Eres None, None.
Tus limitaciones son: None
Ahora mismo estás hablando con:
Ana Paz.
Su rol es: alumno.
Su edad es: 16 años.
Regulación de edad: None años.
Información de la institución:
Nombre: No especificado
Valores institucionales: No especificado
Metodología pedagógica: No especificado
Configuración IA: Estándar

Materias en las que está inscrito:

Archivos y contenidos disponibles del estudiante:
No hay archivos disponibles actualmente.").
Proof.
  split; [apply env_defaults_never_used |]. vm_compute. reflexivity.
Qed.

Lemma texto_procesado_cases a :
  (forall t, texto_extraido a = Some t -> 2000 < len t ->
     texto_procesado a = take 2000 t ++ lit "..."
     /\ length (take 2000 t) = 2000%nat)
  /\ (forall t, texto_extraido a = Some t -> t <> [] -> len t <= 2000 ->
     texto_procesado a = t)
  /\ (texto_extraido a = None \/ texto_extraido a = Some [] ->
     texto_procesado a = lit "Texto no disponible").
Proof.
  unfold texto_procesado. split; [| split].
  - intros t -> Hlen. unfold len in Hlen.
    destruct t as [|c t']; [simpl in Hlen; lia |]. cbn [truthy fmt].
    unfold len. rewrite (proj2 (Z.ltb_lt _ _) Hlen). split; [reflexivity |].
    rewrite length_take. lia.
  - intros t -> Hne Hlen. destruct t as [|c t']; [done |]. cbn [truthy fmt].
    rewrite (proj2 (Z.ltb_ge _ _) Hlen). reflexivity.
  - intros [-> | ->]; reflexivity.
Qed.

(** C5. What the code does where the claim expects short text to
    appear unmodified. The entry of a file carries the text as the claim
    says (the first 2000 characters and three dots when longer,
    unmodified when not, the placeholder when absent or empty), but the
    template of the student block appends three more dots to the
    content of every file: short text is followed by a marker and
    truncated text by six dots. The prompt of a student whose course
    has one file with the text abc shows it. *)
Theorem texto_en_bloque_alumno :
  (forall (a : ArchivoMateria) (d : pydict) (idx : nat),
     entrada_alumno a = Ok d ->
     d !! "texto" = Some (Some (texto_procesado a))
     /\ (forall t, texto_extraido a = Some t -> 2000 < len t ->
         texto_procesado a = take 2000 t ++ lit "..."
         /\ length (take 2000 t) = 2000%nat)
     /\ (forall t, texto_extraido a = Some t -> t <> [] -> len t <= 2000 ->
         texto_procesado a = t)
     /\ (texto_extraido a = None \/ texto_extraido a = Some [] ->
         texto_procesado a = lit "Texto no disponible")
     /\ exists lines,
         bloque_alumno (idx, d) = Ok lines
         /\ last lines
            = Some (lit "- Contenido: " ++ texto_procesado a ++ lit "...")
         /\ (forall t, texto_extraido a = Some t -> t <> [] -> len t <= 2000 ->
             last lines = Some (lit "- Contenido: " ++ t ++ lit "...")
             /\ last lines <> Some (lit "- Contenido: " ++ t))
         /\ (forall t, texto_extraido a = Some t -> 2000 < len t ->
             last lines
             = Some (lit "- Contenido: " ++ take 2000 t ++ lit "......")))
  /\ _build_system_prompt amb_un_archivo alumna_sin_fecha
     = Ok (lit "Eres None, None.
Tus limitaciones son: None
Ahora mismo estás hablando con:
Ana Paz.
Su rol es: alumno.
Su edad es: 16 años.
Regulación de edad: None años.
Información de la institución:
Nombre: No especificado
Valores institucionales: No especificado
Metodología pedagógica: No especificado
Configuración IA: Estándar

Materias en las que está inscrito:

Archivos y contenidos disponibles del estudiante:
Archivos cargados por el profesor.
Archivo 1:
- Tema: Ondas
- Materia: Física
- Notas: Sin notas adicionales
- Instrucciones de enseñanza: Usar ejemplos
- Contenido: abc...").
Proof.
  split; [| vm_compute; reflexivity].
  intros a d idx H. apply entrada_alumno_inv in H as (nm & nc & _ & _ & ->).
  destruct (texto_procesado_cases a) as (H1 & H2 & H3).
  split; [reflexivity |]. repeat (split; [assumption |]).
  eexists. rewrite bloque_alumno_lines. split; [reflexivity |].
  split; [reflexivity |]. split.
  - intros t Ht Hne Hlen. rewrite (H2 t Ht Hne Hlen). cbn [last].
    split; [reflexivity |]. intros Heq. injection Heq as Heq.
    apply (f_equal length) in Heq.
    rewrite length_app in Heq. change (length (lit "...")) with 3%nat in Heq.
    lia.
  - intros t Ht Hlen. destruct (H1 t Ht Hlen) as [-> _]. cbn [last].
    by rewrite <- !app_assoc.
Qed.

Lemma texto_en_bloque_alumno_witness :
  entrada_alumno archivo_breve = Ok entrada_breve
  /\ exists lines,
       bloque_alumno (1%nat, entrada_breve) = Ok lines
       /\ last lines = Some (lit "- Contenido: abc...").
Proof.
  assert (E : entrada_alumno archivo_breve = Ok entrada_breve)
    by (vm_compute; reflexivity).
  destruct (proj1 texto_en_bloque_alumno archivo_breve entrada_breve 1%nat E)
    as (_ & _ & _ & _ & lines & Hb & _ & Hshort & _).
  split; [exact E |]. exists lines. split; [exact Hb |].
  refine (proj1 (Hshort (lit "abc") eq_refl _ _)).
  - discriminate.
  - vm_compute. discriminate.
Defined.

(** C5, as stated, fails on short text: the template of the student
    block appends three dots to the content of every file, so a text of
    three characters does not appear unmodified on its line. *)
Lemma contenido_breve_lleva_puntos :
  ~ (forall a d idx lines t,
       entrada_alumno a = Ok d ->
       texto_extraido a = Some t -> len t <= 2000 ->
       bloque_alumno (idx, d) = Ok lines ->
       In (lit "- Contenido: " ++ t) lines).
Proof.
  intros H.
  assert (E : entrada_alumno archivo_breve = Ok entrada_breve)
    by (vm_compute; reflexivity).
  assert (Hlen : len (lit "abc") <= 2000) by (vm_compute; discriminate).
  specialize (H archivo_breve entrada_breve 1%nat _ (lit "abc") E eq_refl Hlen
                (bloque_alumno_lines 1 _ _ _ _ _ _)).
  vm_compute in H. repeat (destruct H as [H | H]; [discriminate H |]). exact H.
Qed.


Lemma entrada_profesor_sin_contenido a :
  entrada_profesor (sin_contenido a) = entrada_profesor a.
Proof. reflexivity. Qed.

Lemma recoger_sin_contenido l :
  recoger entrada_profesor (map sin_contenido l) = recoger entrada_profesor l.
Proof.
  induction l as [|a l IH]; [reflexivity |].
  cbn [map recoger]. rewrite entrada_profesor_sin_contenido, IH. reflexivity.
Qed.

Lemma archivos_profesor_sin_contenido amb u :
  archivos_profesor (ambiente_sin_contenido amb) u = archivos_profesor amb u.
Proof.
  unfold archivos_profesor. f_equal.
  destruct (get_attr "id" (id u)) as [uid|e]; [| reflexivity].
  cbn [bind ambiente_sin_contenido queries archivos_de_profesor].
  destruct (archivos_de_profesor (queries amb) uid) as [rows|e]; [| reflexivity].
  cbn [map_result bind]. f_equal.
  rewrite firstn_map. apply recoger_sin_contenido.
Qed.

Lemma get_archivos_data_sin_contenido amb u :
  rol u = Value (Some PROFESOR) ->
  _get_archivos_data (ambiente_sin_contenido amb) u = _get_archivos_data amb u.
Proof.
  intros Hrol. unfold _get_archivos_data. rewrite Hrol.
  cbn [get_attr bind es_profesor].
  by rewrite archivos_profesor_sin_contenido.
Qed.

Lemma materias_de_cursos_sin_contenido amb cs :
  materias_de_cursos (ambiente_sin_contenido amb) cs = materias_de_cursos amb cs.
Proof.
  induction cs as [|c cs IH]; [reflexivity |].
  cbn [materias_de_cursos]. rewrite IH. reflexivity.
Qed.

Lemma get_materias_alumno_sin_contenido amb u :
  _get_materias_alumno (ambiente_sin_contenido amb) u
  = _get_materias_alumno amb u.
Proof.
  unfold _get_materias_alumno.
  destruct (has_attr (cursos u)) as [[]|]; cbn [bind]; try reflexivity.
  destruct (get_attr "cursos" (cursos u)); cbn [bind]; try reflexivity.
  by rewrite materias_de_cursos_sin_contenido.
Qed.

Lemma build_system_prompt_sin_contenido amb u :
  rol u = Value (Some PROFESOR) ->
  _build_system_prompt (ambiente_sin_contenido amb) u
  = _build_system_prompt amb u.
Proof.
  intros Hrol. unfold _build_system_prompt, _build_system_prompt_body.
  rewrite (get_archivos_data_sin_contenido amb u Hrol).
  rewrite (get_materias_alumno_sin_contenido amb u). reflexivity.
Qed.


Lemma or_else_falsy (o : option pystr) d : truthy o = false -> or_else o d = d.
Proof. destruct o as [[|c s]|]; simpl; done. Qed.

Lemma recoger_shape (profesor : bool) l :
  Forall (entrada_de profesor)
    (recoger (if profesor then entrada_profesor else entrada_alumno) l).
Proof.
  induction l as [|a l IH]; [constructor |]. cbn [recoger].
  destruct ((if profesor then entrada_profesor else entrada_alumno) a) as [d|e] eqn:E;
    [| exact IH].
  constructor; [| exact IH]. exists a. by destruct profesor.
Qed.

Lemma get_archivos_data_total amb u r i :
  rol u = Value r -> id u = Value i ->
  exists l, _get_archivos_data amb u = Ok l /\ Forall (entrada_de (es_profesor r)) l.
Proof.
  intros Hrol Hid. unfold _get_archivos_data. rewrite Hrol.
  cbn [get_attr bind]. unfold log_usuario_id. rewrite Hid. cbn [get_attr bind].
  destruct (es_profesor r) eqn:Er.
  - unfold archivos_profesor, log_usuario_id. rewrite Hid. cbn [get_attr bind].
    destruct (archivos_de_profesor (queries amb) i) as [rows|e];
      cbn [bind try_except].
    + eexists. split; [reflexivity |]. apply (recoger_shape true).
    + eexists. split; [reflexivity |]. constructor.
  - unfold archivos_alumno, log_usuario_id. rewrite Hid.
    destruct (curso_id u) as [|[m|m|m]|[z|]];
      cbn [has_attr get_attr bind try_except];
      try (eexists; split; [reflexivity | constructor]).
    destruct (bool_decide (z = 0)); cbn [bind try_except];
      try (eexists; split; [reflexivity | constructor]).
    destruct (archivos_de_curso (queries amb) (default 0 (Some z))) as [rows|e];
      cbn [bind try_except].
    + eexists. split; [reflexivity |]. apply (recoger_shape false).
    + eexists. split; [reflexivity |]. constructor.
Qed.

Lemma get_institucion_data_keys u :
  exists n v m c,
    _get_institucion_data u
    = {[ "nombre" := Some n; "valores" := Some v;
         "metodologia" := Some m; "configuracion" := Some c ]}.
Proof.
  assert (Hdef : exists n v m c,
             institucion_por_defecto
             = {[ "nombre" := Some n; "valores" := Some v;
                  "metodologia" := Some m; "configuracion" := Some c ]})
    by (eexists _, _, _, _; reflexivity).
  unfold _get_institucion_data, _get_institucion_data_body.
  destruct (get_institucion u) as [|[m|m|m]|[[inst|]|e]];
    cbn [has_attr get_attr bind]; try exact Hdef.
  destruct (campo_institucion (inst_nombre inst) _ _) as [n|e];
    cbn [bind]; [| exact Hdef].
  destruct (campo_institucion (valores_institucionales inst) _ _) as [v|e];
    cbn [bind]; [| exact Hdef].
  destruct (campo_institucion (metodologia_pedagogica inst) _ _) as [m|e];
    cbn [bind]; [| exact Hdef].
  destruct (campo_institucion (configuracion_ia inst) _ _) as [c|e];
    cbn [bind]; [| exact Hdef].
  eexists _, _, _, _; reflexivity.
Qed.

Lemma getitem_institucion (n v m c : pystr) :
  let d : pydict := {[ "nombre" := Some n; "valores" := Some v;
                       "metodologia" := Some m; "configuracion" := Some c ]} in
  getitem d "nombre" = Ok (Some n) /\ getitem d "valores" = Ok (Some v)
  /\ getitem d "metodologia" = Ok (Some m)
  /\ getitem d "configuracion" = Ok (Some c).
Proof. repeat split; reflexivity. Qed.

Lemma materias_de_cursos_shape amb cs l :
  materias_de_cursos amb cs = Ok l -> Forall es_materia_dict l.
Proof.
  revert l. induction cs as [|c cs IH]; intros l H.
  - injection H as <-. constructor.
  - cbn [materias_de_cursos] in H.
    apply bind_Ok in H as (ms & _ & H). apply bind_Ok in H as (tl & Htl & H).
    injection H as <-. apply Forall_app. split; [| by apply IH].
    apply Forall_forall. intros d Hd. apply list_elem_of_In, in_map_iff in Hd.
    destruct Hd as (m & <- & _). by exists m, c.
Qed.

Lemma get_materias_shape amb u (profesor : bool) :
  Forall es_materia_dict
    (if profesor then _get_materias_profesor amb u
     else _get_materias_alumno amb u).
Proof.
  destruct profesor.
  - unfold _get_materias_profesor.
    destruct (get_attr "id" (id u)) as [pid|e]; cbn [bind]; [| constructor].
    destruct (materias_cursos_de_profesor (queries amb) pid) as [mcs|e];
      cbn [bind]; [| constructor].
    apply Forall_forall. intros d Hd. apply list_elem_of_In, in_map_iff in Hd.
    destruct Hd as ([m c] & <- & _). by exists m, c.
  - unfold _get_materias_alumno.
    destruct (has_attr (cursos u)) as [[]|e]; cbn [bind]; try constructor.
    destruct (get_attr "cursos" (cursos u)) as [cs|e]; cbn [bind];
      [| constructor].
    destruct (materias_de_cursos amb cs) as [l|e] eqn:E; [| constructor].
    by apply (materias_de_cursos_shape amb cs).
Qed.

Lemma lineas_materias_total l :
  Forall es_materia_dict l ->
  exists ls,
    for_each (fun m => let* l := linea_materia m in Ok [l]) l = Ok ls.
Proof.
  induction 1 as [|d l (m & c & ->) _ [ls IH]]; [by exists [] |].
  cbn [for_each]. rewrite IH.
  assert (Hl : exists x, linea_materia (materia_dict m c) = Ok x)
    by (eexists; reflexivity).
  destruct Hl as [x ->]. cbn [bind]. eauto.
Qed.

Lemma bloques_total (profesor : bool) l :
  Forall (entrada_de profesor) l ->
  forall start,
  exists ls,
    for_each (if profesor then bloque_profesor else bloque_alumno)
      (zip (seq start (length l)) l) = Ok ls.
Proof.
  induction 1 as [|d l [a Ha] _ IH]; intros start; [by exists [] |].
  cbn [length seq]. cbn [zip zip_with for_each].
  destruct (IH (S start)) as [ls ->].
  destruct profesor.
  - apply entrada_profesor_inv in Ha as (nm & _ & ->).
    rewrite bloque_profesor_lines. cbn [bind]. eauto.
  - apply entrada_alumno_inv in Ha as (nm & nc & _ & _ & ->).
    rewrite bloque_alumno_lines. cbn [bind]. eauto.
Qed.

Lemma seccion_archivos_total (profesor : bool) l :
  Forall (entrada_de profesor) l ->
  exists ls, seccion_archivos profesor l = Ok ls.
Proof.
  intros Hl. unfold seccion_archivos, enumerate1.
  destruct l as [|d l]; [eauto |].
  destruct (bloques_total profesor (d :: l) Hl 1%nat) as [ls Hls].
  exists ls. by destruct profesor.
Qed.

(** Failures of the fetches degrade their section and do not abort the
    prompt: once the name, the role and the id of the user can be read
    (and reading the surname does not fail), the prompt is assembled in
    full, whatever the institution lookup and the four queries do. *)
Lemma build_system_prompt_degrades amb u n r i :
  nombre u = Value n -> rol u = Value r -> id u = Value i ->
  (forall e, apellido u <> Broken e) ->
  exists p,
    _build_system_prompt_body amb u = Ok p
    /\ _build_system_prompt amb u = Ok p.
Proof.
  intros Hn Hrol Hid Hap.
  assert (Hbody : exists p, _build_system_prompt_body amb u = Ok p).
  { unfold _build_system_prompt_body. rewrite Hn. cbn [get_attr bind].
    destruct (apellido u) as [|e|ap] eqn:Eap; [| by destruct (Hap e) |];
      cbn [getattr_default bind]; rewrite Hrol; cbn [get_attr bind];
      destruct (calculate_age_total (hoy amb) u r Hrol) as [z ->]; cbn [bind];
      destruct (get_archivos_data_total amb u r i Hrol Hid) as (l & -> & Hl);
      cbn [bind];
      destruct (get_institucion_data_keys u) as (ni & vi & mi & ci & ->);
      destruct (getitem_institucion ni vi mi ci) as (-> & -> & -> & ->);
      cbn [bind];
      destruct (lineas_materias_total _ (get_materias_shape amb u (es_profesor r)))
        as [ls ->]; cbn [bind];
      destruct (seccion_archivos_total _ l Hl) as [bl ->]; cbn [bind]; eauto. }
  destruct Hbody as [p Hp]. exists p. split; [exact Hp |].
  unfold _build_system_prompt. by rewrite Hp.
Qed.
Lemma get_attr_Ok {A} name (a : attr A) (v : A) :
  get_attr name a = Ok v -> a = Value v.
Proof. destruct a; simpl; intros H; by inversion H. Qed.

Lemma join_cons sep (p q : pystr) rest :
  join sep (p :: q :: rest) = p ++ sep ++ join sep (q :: rest).
Proof. reflexivity. Qed.

Lemma occurs_in_join sep (parts : list pystr) x :
  In x parts -> occurs_in x (join sep parts).
Proof.
  induction parts as [|p rest IH]; [done |]. intros [-> | Hin].
  - destruct rest as [|q rest].
    + exists [], []. cbn [join]. by rewrite app_nil_r.
    + rewrite join_cons. exists [], (sep ++ join sep (q :: rest)). reflexivity.
  - destruct rest as [|q rest]; [done |]. rewrite join_cons.
    destruct (IH Hin) as (pre & suf & ->).
    exists (p ++ sep ++ pre), suf. by rewrite <- !app_assoc.
Qed.

Lemma for_each_In {A} (f : A -> result (list pystr)) l ls x xs line :
  for_each f l = Ok ls -> In x l -> f x = Ok xs -> In line xs -> In line ls.
Proof.
  revert ls. induction l as [|y l IH]; intros ls H Hx Hf Hline; [done |].
  cbn [for_each] in H. apply bind_Ok in H as (ys & Hy & H).
  apply bind_Ok in H as (tl & Htl & H). injection H as <-.
  apply in_or_app. destruct Hx as [-> | Hx].
  - left. congruence.
  - right. by apply (IH tl).
Qed.

Lemma zip_seq_In {A} (l : list A) (d : A) start :
  In d l -> exists idx, In (idx, d) (zip (seq start (length l)) l).
Proof.
  revert start. induction l as [|y l IH]; intros start Hd; [done |].
  cbn [length seq zip zip_with]. destruct Hd as [-> | Hd].
  - exists start. by left.
  - destruct (IH (S start) Hd) as [idx Hidx]. exists idx. by right.
Qed.

Lemma recoger_In entrada l a d :
  In a l -> entrada a = Ok d -> In d (recoger entrada l).
Proof.
  induction l as [|y l IH]; intros Ha Hd; [done |]. cbn [recoger].
  destruct Ha as [-> | Ha].
  - rewrite Hd. by left.
  - destruct (entrada y); [right |]; by apply IH.
Qed.

Lemma Ok_inj {A} (a b : A) : Ok a = Ok b -> a = b.
Proof. intros H. by inversion H. Qed.

(** What a prompt that was assembled is made of. *)
Lemma build_system_prompt_body_inv amb u p :
  _build_system_prompt_body amb u = Ok p ->
  exists r l cabecera bloque,
    rol u = Value r
    /\ _get_archivos_data amb u = Ok l
    /\ seccion_archivos (es_profesor r) l = Ok bloque
    /\ p = join (lit (String (ascii_of_nat 10) EmptyString)) (cabecera ++ bloque).
Proof.
  unfold _build_system_prompt_body. intros H.
  apply bind_Ok in H as (n & _ & H). apply bind_Ok in H as (ap & _ & H).
  apply bind_Ok in H as (r & Hr & H). apply bind_Ok in H as (edad & _ & H).
  apply bind_Ok in H as (l & Hl & H).
  apply bind_Ok in H as (i1 & _ & H). apply bind_Ok in H as (i2 & _ & H).
  apply bind_Ok in H as (i3 & _ & H). apply bind_Ok in H as (i4 & _ & H).
  apply bind_Ok in H as (lm & _ & H). apply bind_Ok in H as (bl & Hbl & H).
  apply Ok_inj in H. apply get_attr_Ok in Hr.
  eexists r, l, _, bl. split; [exact Hr |]. split; [exact Hl |].
  split; [exact Hbl | symmetry; exact H].
Qed.

(** Every line of the block of an entry of the list is in the prompt. *)
Lemma linea_de_entrada_en_prompt amb u p r l d (lineas : nat -> list pystr) :
  _build_system_prompt_body amb u = Ok p ->
  rol u = Value r -> _get_archivos_data amb u = Ok l -> In d l ->
  (forall idx,
     (if es_profesor r then bloque_profesor else bloque_alumno) (idx, d)
     = Ok (lineas idx)) ->
  exists idx, forall linea, In linea (lineas idx) -> occurs_in linea p.
Proof.
  intros Hp Hrol Hl Hd Hb.
  apply build_system_prompt_body_inv in Hp
    as (r' & l' & cab & bl & Hrol' & Hl' & Hbl & ->).
  rewrite Hrol in Hrol'. injection Hrol' as <-.
  rewrite Hl in Hl'. injection Hl' as <-.
  unfold seccion_archivos, enumerate1 in Hbl.
  destruct l as [|d0 l0] eqn:El; [done |]. rewrite <- El in *.
  destruct (zip_seq_In l d 1%nat Hd) as [idx Hidx].
  exists idx. intros linea Hlinea. apply occurs_in_join, in_or_app. right.
  assert (Hfe : for_each (if es_profesor r then bloque_profesor else bloque_alumno)
                  (zip (seq 1 (length l)) l) = Ok bl).
  { rewrite El in *. by destruct (es_profesor r). }
  exact (for_each_In _ _ _ _ _ _ Hfe Hidx (Hb idx) Hlinea).
Qed.


Lemma or_else_truthy (n d : pystr) : n <> [] -> or_else (Some n) d = n.
Proof. destruct n; done. Qed.

Lemma get_archivos_data_profesor amb u i rows :
  rol u = Value (Some PROFESOR) -> id u = Value i ->
  archivos_de_profesor (queries amb) i = Ok rows ->
  _get_archivos_data amb u = Ok (recoger entrada_profesor (take 10 rows)).
Proof.
  intros Hrol Hid Hq. unfold _get_archivos_data. rewrite Hrol.
  cbn [get_attr bind es_profesor]. unfold archivos_profesor.
  rewrite Hid. cbn [get_attr bind]. rewrite Hq. reflexivity.
Qed.

Lemma get_archivos_data_alumno amb u r c rows :
  rol u = Value r -> es_profesor r = false ->
  curso_id u = Value (Some c) -> c <> 0 ->
  archivos_de_curso (queries amb) c = Ok rows ->
  _get_archivos_data amb u = Ok (recoger entrada_alumno (take 10 rows)).
Proof.
  intros Hrol Hr Hc Hne Hq. unfold _get_archivos_data. rewrite Hrol.
  cbn [get_attr bind]. rewrite Hr. unfold archivos_alumno. rewrite Hc.
  cbn [has_attr get_attr bind]. rewrite bool_decide_eq_false_2 by done.
  cbn [bind]. change (default 0 (Some c)) with c. rewrite Hq. reflexivity.
Qed.

(** C6. For a teacher: an entry holds the topic, the subject and the
    file name and has no key for the extracted text, the notes or the
    teaching instructions; it is the same when these three fields of the
    file are erased, and so is the whole prompt; the list handed to the
    prompt is made of such entries, one for each of the first ten files
    found, and the prompt prints the file name of each. For a student:
    an entry always holds notes, teaching instructions and text, each
    the value of the file when it has one and its placeholder when the
    field is absent or empty (the text cut as the fetch cuts it); the
    list handed to the prompt is made of such entries for the first ten
    files of the course, and the prompt prints the three fields of each
    of them. *)
Theorem file_entries_by_role :
  (* teacher: the entries *)
  (forall a d, entrada_profesor a = Ok d ->
     d !! "texto" = None /\ d !! "notas" = None /\ d !! "instrucciones" = None
     /\ forall idx, exists tema mat nom,
         bloque_profesor (idx, d)
         = Ok [ lit ""; lit "Archivo " ++ str_of_nat idx ++ lit ":";
                lit "- Tema: " ++ tema; lit "- Materia: " ++ mat;
                lit "- Nombre: " ++ nom ])
  /\ (forall a, entrada_profesor (sin_contenido a) = entrada_profesor a)
  /\ (forall amb u, rol u = Value (Some PROFESOR) ->
      _build_system_prompt (ambiente_sin_contenido amb) u
      = _build_system_prompt amb u)
  (* teacher: from the query to the prompt *)
  /\ (forall amb u n i rows,
      rol u = Value (Some PROFESOR) -> nombre u = Value n -> id u = Value i ->
      (forall e, apellido u <> Broken e) ->
      archivos_de_profesor (queries amb) i = Ok rows ->
      _get_archivos_data amb u = Ok (recoger entrada_profesor (take 10 rows))
      /\ Forall (fun d => d !! "texto" = None /\ d !! "notas" = None
                          /\ d !! "instrucciones" = None)
           (recoger entrada_profesor (take 10 rows))
      /\ exists p,
          _build_system_prompt amb u = Ok p
          /\ forall a d, In a (take 10 rows) -> entrada_profesor a = Ok d ->
               exists tema mat nom,
                 d !! "tema" = Some (Some tema)
                 /\ d !! "materia" = Some (Some mat)
                 /\ d !! "nombre_archivo" = Some (Some nom)
                 /\ occurs_in (lit "- Tema: " ++ tema) p
                 /\ occurs_in (lit "- Materia: " ++ mat) p
                 /\ occurs_in (lit "- Nombre: " ++ nom) p)
  (* student: the entries *)
  /\ (forall a d, entrada_alumno a = Ok d ->
      d !! "notas"
      = Some (Some (or_else (notas_adicionales a) (lit "Sin notas adicionales")))
      /\ d !! "instrucciones"
         = Some (Some (or_else (instrucciones_ensenanza a)
                         (lit "Sin instrucciones específicas")))
      /\ d !! "texto" = Some (Some (texto_procesado a))
      /\ (forall n, notas_adicionales a = Some n -> n <> [] ->
          d !! "notas" = Some (Some n))
      /\ (notas_adicionales a = None \/ notas_adicionales a = Some [] ->
          d !! "notas" = Some (Some (lit "Sin notas adicionales")))
      /\ (forall i, instrucciones_ensenanza a = Some i -> i <> [] ->
          d !! "instrucciones" = Some (Some i))
      /\ (instrucciones_ensenanza a = None
          \/ instrucciones_ensenanza a = Some [] ->
          d !! "instrucciones" = Some (Some (lit "Sin instrucciones específicas")))
      /\ (forall t, texto_extraido a = Some t -> t <> [] -> len t <= 2000 ->
          d !! "texto" = Some (Some t))
      /\ (forall t, texto_extraido a = Some t -> 2000 < len t ->
          d !! "texto" = Some (Some (take 2000 t ++ lit "...")))
      /\ (texto_extraido a = None \/ texto_extraido a = Some [] ->
          d !! "texto" = Some (Some (lit "Texto no disponible")))
      /\ forall idx, exists lines rest,
          bloque_alumno (idx, d) = Ok lines
          /\ In (lit "- Notas: "
                 ++ or_else (notas_adicionales a) (lit "Sin notas adicionales"))
               lines
          /\ In (lit "- Instrucciones de enseñanza: "
                 ++ or_else (instrucciones_ensenanza a)
                      (lit "Sin instrucciones específicas"))
               lines
          /\ In (lit "- Contenido: " ++ texto_procesado a ++ rest) lines)
  (* student: from the query to the prompt *)
  /\ (forall amb u r n i c rows,
      rol u = Value r -> es_profesor r = false ->
      nombre u = Value n -> id u = Value i ->
      (forall e, apellido u <> Broken e) ->
      curso_id u = Value (Some c) -> c <> 0 ->
      archivos_de_curso (queries amb) c = Ok rows ->
      _get_archivos_data amb u = Ok (recoger entrada_alumno (take 10 rows))
      /\ exists p,
          _build_system_prompt amb u = Ok p
          /\ forall a d, In a (take 10 rows) -> entrada_alumno a = Ok d ->
               exists notas instr texto,
                 d !! "notas" = Some (Some notas)
                 /\ d !! "instrucciones" = Some (Some instr)
                 /\ d !! "texto" = Some (Some texto)
                 /\ occurs_in (lit "- Notas: " ++ notas) p
                 /\ occurs_in (lit "- Instrucciones de enseñanza: " ++ instr) p
                 /\ occurs_in (lit "- Contenido: " ++ texto) p).
Proof.
  split; [| split; [| split; [| split; [| split]]]].
  - intros a d H. apply entrada_profesor_inv in H as (nm & _ & ->).
    repeat (split; [reflexivity |]).
    intros idx. eexists _, _, _. apply bloque_profesor_lines.
  - apply entrada_profesor_sin_contenido.
  - apply build_system_prompt_sin_contenido.
  - intros amb u n i rows Hrol Hn Hid Hap Hq.
    pose proof (get_archivos_data_profesor amb u i rows Hrol Hid Hq) as Hl.
    split; [exact Hl |]. split.
    + apply Forall_forall. intros d Hd.
      pose proof (recoger_shape true (take 10 rows)) as Hs. cbn in Hs.
      rewrite Forall_forall in Hs. destruct (Hs d Hd) as [a Ha].
      apply entrada_profesor_inv in Ha as (nm & _ & ->).
      repeat split; reflexivity.
    + destruct (build_system_prompt_degrades amb u n _ i Hn Hrol Hid Hap)
        as (p & Hbody & Hp).
      exists p. split; [exact Hp |]. intros a d Ha Hd.
      pose proof (recoger_In _ _ _ _ Ha Hd) as Hin.
      apply entrada_profesor_inv in Hd as (nm & _ & ->).
      eexists _, _, _. do 3 (split; [reflexivity |]).
      destruct (linea_de_entrada_en_prompt amb u p _ _ _ _ Hbody Hrol Hl Hin
                  (fun idx => bloque_profesor_lines idx _ _ _))
        as [idx Hlineas].
      repeat split; apply Hlineas; cbn [In]; auto 10.
  - intros a d H. apply entrada_alumno_inv in H as (nm & nc & _ & _ & ->).
    destruct (texto_procesado_cases a) as (Hlargo & Hcorto & Hvacio).
    repeat (split; [reflexivity |]).
    split; [intros n -> Hne; by rewrite or_else_truthy |].
    split; [intros [-> | ->]; reflexivity |].
    split; [intros i -> Hne; by rewrite or_else_truthy |].
    split; [intros [-> | ->]; reflexivity |].
    split; [intros t Ht Hne Hlen; by rewrite (Hcorto t Ht Hne Hlen) |].
    split; [intros t Ht Hlen; by rewrite (proj1 (Hlargo t Ht Hlen)) |].
    split; [intros Hv; by rewrite (Hvacio Hv) |].
    intros idx. eexists _, (lit "..."). rewrite bloque_alumno_lines.
    split; [reflexivity |]. cbn [In].
    split; [do 4 right; left; reflexivity |].
    split; [do 5 right; left; reflexivity | do 6 right; left; reflexivity].
  - intros amb u r n i c rows Hrol Hr Hn Hid Hap Hc Hne Hq.
    pose proof (get_archivos_data_alumno amb u r c rows Hrol Hr Hc Hne Hq) as Hl.
    split; [exact Hl |].
    destruct (build_system_prompt_degrades amb u n r i Hn Hrol Hid Hap)
      as (p & Hbody & Hp).
    exists p. split; [exact Hp |]. intros a d Ha Hd.
    pose proof (recoger_In _ _ _ _ Ha Hd) as Hin.
    apply entrada_alumno_inv in Hd as (nm & nc & _ & _ & ->).
    eexists _, _, _. do 3 (split; [reflexivity |]).
    assert (Hb : forall idx,
               (if es_profesor r then bloque_profesor else bloque_alumno)
                 (idx, _) = Ok _)
      by (intros idx; rewrite Hr; apply bloque_alumno_lines).
    destruct (linea_de_entrada_en_prompt amb u p _ _ _ _ Hbody Hrol Hl Hin Hb)
      as [idx Hlineas].
    split; [apply Hlineas; cbn [In]; auto 10 |].
    split; [apply Hlineas; cbn [In]; auto 10 |].
    destruct (Hlineas (lit "- Contenido: " ++ texto_procesado a ++ lit "..."))
      as (pre & suf & ->); [cbn [In]; auto 10 |].
    exists pre, (lit "..." ++ suf). by rewrite <- !app_assoc.
Qed.

Lemma file_entries_by_role_witness :
  _build_system_prompt (ambiente_sin_contenido amb_con_archivos) profesora
  = _build_system_prompt amb_con_archivos profesora
  /\ entrada_breve !! "notas" = Some (Some (lit "Sin notas adicionales"))
  /\ (forall d, entrada_profesor archivo_breve = Ok d -> d !! "texto" = None)
  /\ _get_archivos_data amb_un_archivo alumna_sin_fecha
     = Ok (recoger entrada_alumno (take 10 [archivo_breve]))
  /\ (exists p notas instr texto,
        _build_system_prompt amb_un_archivo alumna_sin_fecha = Ok p
        /\ entrada_breve !! "notas" = Some (Some notas)
        /\ entrada_breve !! "instrucciones" = Some (Some instr)
        /\ entrada_breve !! "texto" = Some (Some texto)
        /\ occurs_in (lit "- Notas: " ++ notas) p
        /\ occurs_in (lit "- Instrucciones de enseñanza: " ++ instr) p
        /\ occurs_in (lit "- Contenido: " ++ texto) p)
  /\ (exists p nom,
        _build_system_prompt amb_un_archivo profesora = Ok p
        /\ (forall d, entrada_profesor archivo_breve = Ok d ->
            d !! "nombre_archivo" = Some (Some nom))
        /\ occurs_in (lit "- Nombre: " ++ nom) p).
Proof.
  destruct file_entries_by_role as (Hprof & _ & Hprompt & Hprof2 & Halu & Halu2).
  assert (E : entrada_alumno archivo_breve = Ok entrada_breve)
    by (vm_compute; reflexivity).
  split; [apply Hprompt; reflexivity |].
  destruct (Halu archivo_breve entrada_breve E)
    as (_ & _ & _ & _ & Hn & _).
  split; [apply Hn; left; reflexivity |].
  split; [intros d Hd; exact (proj1 (Hprof archivo_breve d Hd)) |].
  destruct (Halu2 amb_un_archivo alumna_sin_fecha (Some ALUMNO) _ 7 3
              [archivo_breve] eq_refl eq_refl eq_refl eq_refl
              ltac:(discriminate) eq_refl ltac:(lia) eq_refl)
    as (Hl & p & Hp & Hall).
  split; [exact Hl |]. split.
  - destruct (Hall archivo_breve entrada_breve ltac:(left; reflexivity) E)
      as (notas & instr & texto & H1 & H2 & H3 & H4 & H5 & H6).
    exists p, notas, instr, texto. repeat (split; [assumption |]). assumption.
  - destruct (Hprof2 amb_un_archivo profesora _ 8 [archivo_breve]
                eq_refl eq_refl eq_refl ltac:(discriminate) eq_refl)
      as (_ & _ & q & Hq & Hallq).
    assert (Ep : exists d, entrada_profesor archivo_breve = Ok d)
      by (eexists; vm_compute; reflexivity).
    destruct Ep as [d Ep].
    destruct (Hallq archivo_breve d ltac:(left; reflexivity) Ep)
      as (tema & mat & nom & _ & _ & Hnom & _ & _ & Hocc).
    exists q, nom. split; [exact Hq |]. split; [| exact Hocc].
    intros d' Hd'. rewrite Ep in Hd'. apply Ok_inj in Hd'. by subst d'.
Defined.
End PromptProps.

(* ===================================================================== *)
(** * Further properties of the facade *)
(* ===================================================================== *)

Import Groq Crud Prompt Ejemplos.

(** ** Connectivity, continued *)


(** Every way one run of [_initialize_groq] can end, from any object. *)
Lemma initialize_outcome w self :
  (truthy (getenv_GROQ_API_KEY w) = false
   /\ _initialize_groq w self = (set_error (Some msg_clave_ausente) self, false))
  \/ (exists k,
      getenv_GROQ_API_KEY w = Some k /\ k <> [] /\ len (strip k) < 10
      /\ _initialize_groq w self
         = (set_error (Some (msg_clave_invalida (strip k))) self, false))
  \/ (exists k e,
      getenv_GROQ_API_KEY w = Some k /\ 10 <= len (strip k)
      /\ (Groq_ctor w (strip k) = Raise e
          \/ exists c, Groq_ctor w (strip k) = Ok c
                       /\ validation_failure w c = Some e)
      /\ _initialize_groq w self
         = ({| client := None;
               initialization_error := Some (msg_error_inicializando e) |},
            false))
  \/ (exists k c,
      getenv_GROQ_API_KEY w = Some k /\ 10 <= len (strip k)
      /\ Groq_ctor w (strip k) = Ok c /\ validation_failure w c = None
      /\ validated w c
      /\ _initialize_groq w self
         = ({| client := Some c; initialization_error := None |}, true)).
Proof.
  unfold _initialize_groq, _initialize_groq_body, validation_failure,
    msg_clave_ausente, msg_clave_invalida, msg_error_inicializando.
  destruct (getenv_GROQ_API_KEY w) as [[|c0 k0]|] eqn:Hk; cbn [truthy negb fmt].
  1,3: left; split; reflexivity.
  set (k := c0 :: k0) in *. right.
  destruct (len (strip k) <? 10) eqn:El.
  { left. exists k. apply Z.ltb_lt in El. repeat split; done. }
  apply Z.ltb_ge in El. right.
  destruct (Groq_ctor w (strip k)) as [c|e] eqn:Ector.
  2:{ left. exists k, e. repeat split; try done. by left. }
  destruct (completions_create w c) as [[[[|ch chs]]|]|e] eqn:Ecall.
  - left. eexists k, _. repeat split; try done. right. exists c.
    by rewrite Ecall.
  - right. exists k, c. rewrite Ecall. repeat split; try done.
    exists k, {| choices := ch :: chs |}. repeat split; done.
  - left. eexists k, _. repeat split; try done. right. exists c.
    by rewrite Ecall.
  - left. exists k, e. repeat split; try done. right. exists c.
    by rewrite Ecall.
Qed.

(** [reinitialize] forgets the object it is called on: the facade it
    leaves is the one a fresh construction in the same world gives, and
    the boolean it returns is the availability of that facade. *)
Theorem reinitialize_as_fresh (w : World) (self : ChatIA_Universal) :
  fst (reinitialize w self) = __init__ w
  /\ snd (reinitialize w self) = is_available (fst (reinitialize w self)).
Proof.
  split; [reflexivity |].
  unfold reinitialize.
  set (s0 := set_error None (set_client None self)).
  destruct (initialize_outcome w s0)
    as [[_ ->] | [(k & _ & _ & _ & ->) | [(k & e & _ & _ & _ & ->)
                                         | (k & c & _ & _ & _ & _ & _ & ->)]]];
    reflexivity.
Qed.

(** After construction or [reinitialize], the status snapshot is
    coherent: an error message is recorded exactly when the service is
    unavailable, the two availability flags agree, and an available
    service had its key present. *)
Theorem status_coherent (w : World) (self : ChatIA_Universal) :
  reachable w self ->
  let st := get_status w self in
  available st = client_initialized st
  /\ (available st = false <-> status_initialization_error st <> None)
  /\ (available st = true -> api_key_present st = true).
Proof.
  intros Hr. destruct (reachable_from_unset _ _ Hr) as (self0 & H0 & ->).
  unfold get_status, is_available.
  cbn [available client_initialized status_initialization_error api_key_present].
  destruct self0 as [c0 e0]. cbn [client] in H0. subst c0.
  destruct (initialize_outcome w {| client := None; initialization_error := e0 |})
    as [[Hk ->] | [(k & Hk & Hne & _ & ->) | [(k & e & Hk & _ & _ & ->)
                                            | (k & c & Hk & Hl & _ & _ & _ & ->)]]];
    cbn [fst client initialization_error set_error];
    repeat split; try done.
  rewrite Hk. destruct k; [vm_compute in Hl; by destruct Hl | done].
Qed.

Lemma status_coherent_witness :
  status_initialization_error
    (get_status mundo_sin_clave (__init__ mundo_sin_clave)) <> None.
Proof.
  destruct (status_coherent mundo_sin_clave (__init__ mundo_sin_clave)
              (reach_init mundo_sin_clave)) as (_ & [H _] & _).
  apply H. vm_compute. reflexivity.
Defined.

(** Whatever object [_initialize_groq] runs on, even one that holds a
    client: when the key is usable but the constructor raises or the
    validation call fails, no client is left behind, the error message
    is the fixed prefix followed by the text of the exception, and false
    is returned. *)
Theorem failed_validation_clears_client (w : World) (self : ChatIA_Universal)
  (k : pystr) (e : exn) :
  getenv_GROQ_API_KEY w = Some k -> 10 <= len (strip k) ->
  (Groq_ctor w (strip k) = Raise e
   \/ exists c, Groq_ctor w (strip k) = Ok c /\ validation_failure w c = Some e) ->
  _initialize_groq w self
  = ({| client := None;
        initialization_error := Some (msg_error_inicializando e) |}, false)
  /\ is_available (fst (_initialize_groq w self)) = false.
Proof.
  intros Hk Hl Hfail.
  destruct (initialize_outcome w self)
    as [[Ht _] | [(k' & Hk' & _ & Hl' & _) | [(k' & e' & Hk' & _ & Hf' & ->)
                                            | (k' & c & Hk' & _ & Hc & Hv & _)]]].
  - rewrite Hk in Ht. destruct k; [vm_compute in Hl; by destruct Hl | done].
  - rewrite Hk in Hk'. injection Hk' as <-. lia.
  - rewrite Hk in Hk'. injection Hk' as <-.
    assert (e' = e) as ->; [| done].
    destruct Hfail as [Hr | (c & Hc & Hv)], Hf' as [Hr' | (c' & Hc' & Hv')];
      congruence.
  - rewrite Hk in Hk'. injection Hk' as <-.
    destruct Hfail as [Hr | (c' & Hc' & Hv')]; congruence.
Qed.

Lemma failed_validation_clears_client_witness :
  is_available (fst (_initialize_groq mundo_caido (__init__ mundo_en_linea)))
  = false.
Proof.
  refine (proj2 (failed_validation_clears_client mundo_caido
                   (__init__ mundo_en_linea) clave_valida
                   (PyException "timeout") eq_refl _ _)).
  - vm_compute. discriminate.
  - right. exists {| client_api_key := strip clave_valida |}.
    split; reflexivity.
Defined.

Lemma lstrip_blank (s : pystr) :
  Forall (fun c => isspace c = true) s -> lstrip s = [].
Proof.
  induction 1 as [|c s Hc _ IH]; [reflexivity |]. cbn [lstrip]. by rewrite Hc.
Qed.

Lemma strip_blank (s : pystr) :
  Forall (fun c => isspace c = true) s -> strip s = [].
Proof. intros H. unfold strip, rstrip. by rewrite (lstrip_blank s H). Qed.

(** A key that is set but made only of white space passes the presence
    test and is then reported as invalid with length 0, not as missing;
    no client is built and the object's client is left as it was. *)
Theorem blank_key_reported_invalid (w : World) (self : ChatIA_Universal)
  (k : pystr) :
  getenv_GROQ_API_KEY w = Some k -> k <> [] ->
  Forall (fun c => isspace c = true) k ->
  _initialize_groq w self
  = (set_error (Some (lit "GROQ_API_KEY parece inválida (longitud: 0)")) self,
     false).
Proof.
  intros Hk Hne Hblank.
  destruct (initialize_outcome w self)
    as [[Ht _] | [(k' & Hk' & _ & _ & ->) | [(k' & e' & Hk' & Hl & _)
                                            | (k' & c & Hk' & Hl & _)]]].
  - rewrite Hk in Ht. by destruct k.
  - rewrite Hk in Hk'. injection Hk' as <-. rewrite (strip_blank k Hblank).
    reflexivity.
  - rewrite Hk in Hk'. injection Hk' as <-. rewrite (strip_blank k Hblank) in Hl.
    vm_compute in Hl. by destruct Hl.
  - rewrite Hk in Hk'. injection Hk' as <-. rewrite (strip_blank k Hblank) in Hl.
    vm_compute in Hl. by destruct Hl.
Qed.

Lemma blank_key_reported_invalid_witness :
  initialization_error (__init__ mundo_clave_en_blanco)
  = Some (lit "GROQ_API_KEY parece inválida (longitud: 0)").
Proof.
  unfold __init__.
  rewrite (blank_key_reported_invalid mundo_clave_en_blanco _
             [32%N; 9%N; 32%N] eq_refl).
  - reflexivity.
  - discriminate.
  - repeat constructor.
Defined.


(** ** Age, continued *)


Lemma calculate_age_with_date hoy u nac :
  fecha_nacimiento u = Value (Some nac) ->
  _calculate_age hoy u = Ok (clamp 0 120 (calendar_age hoy nac)).
Proof.
  intros Hnac. unfold _calculate_age, _calculate_age_body. rewrite Hnac. simpl.
  by rewrite edad_calendario, max_min_clamp.
Qed.

Lemma calculate_age_without_date hoy u :
  (forall nac, fecha_nacimiento u <> Value (Some nac)) ->
  _calculate_age hoy u = edad_por_defecto u.
Proof.
  intros Hno. unfold _calculate_age, _calculate_age_body.
  destruct (fecha_nacimiento u) as [| [m|m|m] | [nac|]] eqn:Ef; simpl;
    try (destruct (edad_por_defecto u); reflexivity).
  exfalso. exact (Hno nac eq_refl).
Qed.

Lemma calendar_age_monotone hoy1 hoy2 nac :
  date_le hoy1 hoy2 -> calendar_age hoy1 nac <= calendar_age hoy2 nac.
Proof.
  unfold date_le, calendar_age, birthday_still_to_come.
  intros H. repeat case_decide; lia.
Qed.

Lemma clamp_monotone x y : x <= y -> clamp 0 120 x <= clamp 0 120 y.
Proof. unfold clamp. intros H. repeat case_decide; lia. Qed.

(** The age never goes down as the days pass: computed for the same
    user on a later day it is at least what it was. *)
Theorem calculate_age_monotone (hoy1 hoy2 : date) (u : Usuario) (a1 a2 : Z) :
  date_le hoy1 hoy2 ->
  _calculate_age hoy1 u = Ok a1 -> _calculate_age hoy2 u = Ok a2 ->
  a1 <= a2.
Proof.
  intros Hle H1 H2.
  destruct (fecha_nacimiento u) as [| e | [nac|]] eqn:Ef.
  1,2,4: rewrite calculate_age_without_date in H1 by (rewrite Ef; done);
         rewrite calculate_age_without_date in H2 by (rewrite Ef; done);
         rewrite H1 in H2; injection H2 as <-; lia.
  rewrite (calculate_age_with_date _ _ _ Ef) in H1.
  rewrite (calculate_age_with_date _ _ _ Ef) in H2.
  injection H1 as <-. injection H2 as <-.
  by apply clamp_monotone, calendar_age_monotone.
Qed.

Lemma calculate_age_monotone_witness :
  exists a1 a2,
    _calculate_age (mk_date 2026 11 3) profesora = Ok a1
    /\ _calculate_age (mk_date 2026 12 24) profesora = Ok a2
    /\ a1 <= a2.
Proof.
  exists 45, 46. split; [reflexivity |]. split; [reflexivity |].
  apply (calculate_age_monotone (mk_date 2026 11 3) (mk_date 2026 12 24)
           profesora); [| reflexivity | reflexivity].
  right. cbn [year month day]. lia.
Defined.

(** The two ends of the clamp: a birth date that is today or still to
    come gives 0, and a birth year 121 or more years back gives 120. *)
Theorem calculate_age_clamped_ends (hoy : date) (u : Usuario) (nac : date) :
  fecha_nacimiento u = Value (Some nac) ->
  (date_le hoy nac -> _calculate_age hoy u = Ok 0)
  /\ (121 <= year hoy - year nac -> _calculate_age hoy u = Ok 120).
Proof.
  intros Hnac. rewrite (calculate_age_with_date _ _ _ Hnac).
  unfold date_le, clamp, calendar_age, birthday_still_to_come.
  split; intros H; f_equal; repeat case_decide; lia.
Qed.

Lemma calculate_age_clamped_ends_witness :
  _calculate_age (mk_date 2026 11 3) nacida_manana = Ok 0.
Proof.
  apply (proj1 (calculate_age_clamped_ends (mk_date 2026 11 3) nacida_manana
                  (mk_date 2026 11 4) eq_refl)).
  right. cbn [year month day]. lia.
Defined.

(** [_calculate_age] raises in one situation only: the role cannot be
    read and there is no usable birth date (the handler reads the role
    again). *)
Theorem calculate_age_raises_iff (hoy : date) (u : Usuario) :
  (exists e, _calculate_age hoy u = Raise e)
  <-> (forall r, rol u <> Value r)
      /\ (forall nac, fecha_nacimiento u <> Value (Some nac)).
Proof.
  split.
  - intros [e He]. split.
    + intros r Hr. destruct (calculate_age_total hoy u r Hr) as [z Hz]. congruence.
    + intros nac Hnac. rewrite (calculate_age_with_date _ _ _ Hnac) in He.
      discriminate He.
  - intros [Hrol Hno]. rewrite (calculate_age_without_date _ _ Hno).
    unfold edad_por_defecto.
    destruct (rol u) as [| e | r]; simpl; eauto. by destruct (Hrol r).
Qed.


Lemma calculate_age_raises_iff_witness :
  exists e, _calculate_age (mk_date 2026 11 3) objeto_sin_atributos = Raise e.
Proof.
  apply (proj2 (calculate_age_raises_iff (mk_date 2026 11 3)
                  objeto_sin_atributos)).
  split; intros ? H; discriminate H.
Defined.

(** ** Chat CRUD, continued *)


Ltac healthy_inv H :=
  unfold healthy in H; cbn [faults take] in H;
  repeat match type of H with
         | Forall _ (_ :: _) => apply Forall_cons in H as [? H]
         end;
  try discriminate.

Ltac db_step :=
  unfold eliminar_chat, renombrar_chat, crear_chat, try_rollback,
    eliminar_chat_body, renombrar_chat_body, crear_chat_body,
    query_chat_first, delete_mensajes, session_delete, session_add,
    set_nombre_chat, session_commit, session_rollback, refresh_chat_id,
    db_bind, db_ret, db_call, get_pending, put_pending, raised;
  cbn [fst snd stored pending faults chats mensajes].

Ltac split_faults fs :=
  destruct fs as [|[] [|[] [|[] [|[] ?]]]].

(** The operations in closed form while the persistence layer holds. *)
Lemma crear_chat_healthy clk uid nombre st pe fs :
  healthy 3 (mk_Session st pe fs) ->
  crear_chat clk uid nombre (mk_Session st pe fs)
  = (Some (next_id (chats pe), chat_nuevo clk uid nombre),
     let t' := tablas_con_chat (next_id (chats pe)) (chat_nuevo clk uid nombre) pe in
     mk_Session t' t' (drop 3 fs)).
Proof.
  intros Hh. split_faults fs; healthy_inv Hh; reflexivity.
Qed.


Lemma eliminar_chat_healthy chat_id uid st pe fs :
  owned_by pe chat_id uid -> healthy 4 (mk_Session st pe fs) ->
  eliminar_chat chat_id uid (mk_Session st pe fs)
  = (true, let t' := tablas_sin_chat chat_id pe in mk_Session t' t' (drop 4 fs)).
Proof.
  intros (chat & Hl & Hu) Hh. pose proof (owned_query _ _ _ _ Hl Hu) as Hq.
  split_faults fs; healthy_inv Hh; db_step; rewrite ?Hq; reflexivity.
Qed.

Lemma renombrar_chat_healthy chat_id uid nuevo st pe fs :
  owned_by pe chat_id uid -> healthy 2 (mk_Session st pe fs) ->
  renombrar_chat chat_id uid nuevo (mk_Session st pe fs)
  = (true,
     let t' := tablas_renombrado chat_id (slice_to 200 (strip nuevo)) pe in
     mk_Session t' t' (drop 2 fs)).
Proof.
  intros (chat & Hl & Hu) Hh. pose proof (owned_query _ _ _ _ Hl Hu) as Hq.
  split_faults fs; healthy_inv Hh; db_step; rewrite ?Hq; reflexivity.
Qed.

Lemma not_owned_healthy chat_id uid nuevo st pe fs :
  ~ owned_by pe chat_id uid -> healthy 1 (mk_Session st pe fs) ->
  eliminar_chat chat_id uid (mk_Session st pe fs)
  = (false, mk_Session st pe (drop 1 fs))
  /\ renombrar_chat chat_id uid nuevo (mk_Session st pe fs)
     = (false, mk_Session st pe (drop 1 fs)).
Proof.
  intros Hn Hh. pose proof (not_owned_query _ _ _ Hn) as Hq.
  split_faults fs; healthy_inv Hh; db_step; rewrite ?Hq; split; reflexivity.
Qed.

Lemma healthy_drop n k st pe st' pe' fs :
  healthy (n + k) (mk_Session st pe fs) ->
  healthy n (mk_Session st pe fs)
  /\ healthy k (mk_Session st' pe' (drop n fs)).
Proof.
  unfold healthy. cbn [faults]. rewrite <- take_take_drop.
  intros H. by apply Forall_app in H.
Qed.

Lemma integrity_con_chat new_id chat t :
  integrity t -> integrity (tablas_con_chat new_id chat t).
Proof.
  intros Hi k m Hm. cbn [tablas_con_chat chats mensajes] in *.
  destruct (decide (new_id = mensaje_chat_id m)) as [He | Hne].
  - rewrite He, lookup_insert_eq. eauto.
  - rewrite lookup_insert_ne by done. by apply (Hi k).
Qed.

Lemma integrity_sin_chat chat_id t :
  integrity t -> integrity (tablas_sin_chat chat_id t).
Proof.
  intros Hi k m Hm. cbn [tablas_sin_chat chats mensajes] in *.
  apply map_lookup_filter_Some in Hm as [Hm Hne]. cbn [snd] in Hne.
  rewrite lookup_delete_ne by done. by apply (Hi k).
Qed.

Lemma integrity_renombrado chat_id nombre t :
  integrity t -> integrity (tablas_renombrado chat_id nombre t).
Proof.
  intros Hi k m Hm. cbn [tablas_renombrado chats mensajes] in *.
  destruct (Hi k m Hm) as [c Hc].
  destruct (decide (chat_id = mensaje_chat_id m)) as [He | Hne].
  - rewrite He, lookup_alter_eq, Hc. simpl. eauto.
  - rewrite lookup_alter_ne by done. eauto.
Qed.

(** Whatever the persistence layer does, the three operations keep the
    tables referentially sound: if every message belongs to an existing
    chat before (in the committed tables and in the open transaction),
    so it is after. In particular a deletion never leaves messages of
    the deleted chat behind. *)
Theorem crud_preserves_integrity (s : Session) :
  integrity (stored s) -> integrity (pending s) ->
  (forall clk uid nombre,
      integrity (stored (snd (crear_chat clk uid nombre s)))
      /\ integrity (pending (snd (crear_chat clk uid nombre s))))
  /\ (forall chat_id uid,
      integrity (stored (snd (eliminar_chat chat_id uid s)))
      /\ integrity (pending (snd (eliminar_chat chat_id uid s))))
  /\ (forall chat_id uid nuevo,
      integrity (stored (snd (renombrar_chat chat_id uid nuevo s)))
      /\ integrity (pending (snd (renombrar_chat chat_id uid nuevo s)))).
Proof.
  destruct s as [st pe fs]. cbn [stored pending]. intros Hst Hpe.
  split; [| split].
  - intros clk uid nombre.
    pose proof (integrity_con_chat (next_id (chats pe))
                  (chat_nuevo clk uid nombre) pe Hpe) as Hnew.
    split_faults fs; db_step; split; first [exact Hst | exact Hpe | exact Hnew].
  - intros chat_id uid.
    pose proof (integrity_sin_chat chat_id pe Hpe) as Hdel.
    destruct (chats pe !! chat_id) as [chat|] eqn:Hl;
      [destruct (decide (usuario_id chat = uid)) as [Hu|Hu] |];
      split_faults fs; db_step; rewrite ?Hl; rewrite ?(decide_True _ _ Hu);
      rewrite ?(decide_False _ _ Hu); db_step;
      split; first [exact Hst | exact Hpe | exact Hdel].
  - intros chat_id uid nuevo.
    pose proof (integrity_renombrado chat_id (slice_to 200 (strip nuevo)) pe Hpe)
      as Hren.
    destruct (chats pe !! chat_id) as [chat|] eqn:Hl;
      [destruct (decide (usuario_id chat = uid)) as [Hu|Hu] |];
      split_faults fs; db_step; rewrite ?Hl; rewrite ?(decide_True _ _ Hu);
      rewrite ?(decide_False _ _ Hu); db_step;
      split; first [exact Hst | exact Hpe | exact Hren].
Qed.

Lemma integrity_tablas : integrity tablas.
Proof.
  intros k m Hm. unfold tablas in *. cbn [mensajes chats] in *.
  destruct (decide (k = 1)) as [-> | H1]; [vm_compute in Hm; injection Hm as <-; by eexists |].
  destruct (decide (k = 2)) as [-> | H2]; [vm_compute in Hm; injection Hm as <-; by eexists |].
  destruct (decide (k = 3)) as [-> | H3]; [vm_compute in Hm; injection Hm as <-; by eexists |].
  rewrite !lookup_insert_ne, lookup_singleton_ne in Hm by done. discriminate Hm.
Qed.

Lemma crud_preserves_integrity_witness :
  integrity (stored (snd (eliminar_chat 1 10 (sesion [])))).
Proof.
  destruct (crud_preserves_integrity (sesion []) integrity_tablas integrity_tablas)
    as (_ & He & _).
  exact (proj1 (He 1 10)).
Defined.

(** [renombrar_chat] checks the owner like the deletion does: for a chat
    that does not exist or belongs to someone else it returns false and
    the committed tables stay as they are (and the open transaction
    too, when the lookup itself does not fail). *)
Theorem renombrar_chat_not_owned (chat_id uid : Z) (nuevo : pystr)
  (s : Session) :
  ~ owned_by (pending s) chat_id uid ->
  fst (renombrar_chat chat_id uid nuevo s) = false
  /\ stored (snd (renombrar_chat chat_id uid nuevo s)) = stored s
  /\ (healthy 1 s ->
      pending (snd (renombrar_chat chat_id uid nuevo s)) = pending s).
Proof.
  destruct s as [st pe fs]. cbn [pending stored]. intros Hn.
  pose proof (not_owned_query _ _ _ Hn) as Hq.
  split_faults fs; db_step; rewrite ?Hq; repeat split; try done;
    intros Hh; healthy_inv Hh.
Qed.

Lemma renombrar_chat_not_owned_witness :
  fst (renombrar_chat 1 20 (lit "Mío") (sesion [])) = false
  /\ stored (snd (renombrar_chat 1 20 (lit "Mío") (sesion []))) = tablas.
Proof.
  assert (Hnot : ~ owned_by (pending (sesion [])) 1 20).
  { intros (chat & Hl & Hu). vm_compute in Hl. injection Hl as <-.
    discriminate Hu. }
  destruct (renombrar_chat_not_owned 1 20 (lit "Mío") (sesion []) Hnot)
    as (H1 & H2 & _).
  split; assumption.
Defined.

Lemma sin_chat_not_owned chat_id uid t :
  ~ owned_by (tablas_sin_chat chat_id t) chat_id uid.
Proof.
  intros (chat & Hl & _). cbn [tablas_sin_chat chats] in Hl.
  by rewrite lookup_delete_eq in Hl.
Qed.

(** Once a chat has been deleted, the same request again, or any
    request on that id by any user, finds nothing: deleting or renaming
    it returns false and changes nothing. *)
Theorem eliminar_chat_then_gone (chat_id uid uid' : Z) (nuevo : pystr)
  (s : Session) :
  owned_by (pending s) chat_id uid -> healthy 5 s ->
  let s1 := snd (eliminar_chat chat_id uid s) in
  fst (eliminar_chat chat_id uid' s1) = false
  /\ stored (snd (eliminar_chat chat_id uid' s1)) = stored s1
  /\ pending (snd (eliminar_chat chat_id uid' s1)) = pending s1
  /\ fst (renombrar_chat chat_id uid' nuevo s1) = false
  /\ stored (snd (renombrar_chat chat_id uid' nuevo s1)) = stored s1
  /\ pending (snd (renombrar_chat chat_id uid' nuevo s1)) = pending s1.
Proof.
  destruct s as [st pe fs]. cbn [pending]. intros Ho Hh.
  destruct (healthy_drop 4 1 st pe (tablas_sin_chat chat_id pe)
              (tablas_sin_chat chat_id pe) fs Hh) as [H4 H1].
  rewrite (eliminar_chat_healthy _ _ _ _ _ Ho H4). cbn [snd].
  destruct (not_owned_healthy chat_id uid' nuevo _ _ _
              (sin_chat_not_owned chat_id uid' pe) H1) as [-> ->].
  repeat split; reflexivity.
Qed.

Lemma eliminar_chat_then_gone_witness :
  fst (eliminar_chat 1 10 (snd (eliminar_chat 1 10 (sesion [])))) = false.
Proof.
  assert (Hown : owned_by (pending (sesion [])) 1 10).
  { exists (chat_de 10 "Álgebra"). split; reflexivity. }
  assert (Hh : healthy 5 (sesion [])) by constructor.
  exact (proj1 (eliminar_chat_then_gone 1 10 10 [] (sesion []) Hown Hh)).
Defined.

Lemma tablas_sin_chat_con_chat new_id chat t :
  chats t !! new_id = None -> integrity t ->
  tablas_sin_chat new_id (tablas_con_chat new_id chat t) = t.
Proof.
  intros Hfresh Hi. destruct t as [cs ms].
  unfold tablas_sin_chat, tablas_con_chat. cbn [chats mensajes] in *.
  f_equal.
  - by rewrite delete_insert_eq, delete_id.
  - apply map_filter_id. intros k m Hm. cbn [snd]. intros He.
    destruct (Hi k m Hm) as [c Hc]. cbn [chats] in Hc. congruence.
Qed.

(** Creating a chat and then deleting it gives back the tables as they
    were before the creation, provided every message belonged to an
    existing chat and none of the seven calls of the persistence layer
    fails (three of the creation, four of the deletion); and between
    the two, the new chat belongs to its creator only: a deletion asked
    by anyone else returns false. *)
Theorem crear_then_eliminar (clk : Clock) (uid : Z) (nombre : option pystr)
  (s : Session) :
  integrity (pending s) -> healthy 7 s ->
  exists new_id chat,
    fst (crear_chat clk uid nombre s) = Some (new_id, chat)
    /\ let s1 := snd (crear_chat clk uid nombre s) in
       fst (eliminar_chat new_id uid s1) = true
       /\ stored (snd (eliminar_chat new_id uid s1)) = pending s
       /\ pending (snd (eliminar_chat new_id uid s1)) = pending s
       /\ forall uid', uid' <> uid ->
            fst (eliminar_chat new_id uid' s1) = false.
Proof.
  destruct s as [st pe fs]. cbn [pending]. intros Hi Hh.
  set (new_id := next_id (chats pe)). set (chat := chat_nuevo clk uid nombre).
  set (t1 := tablas_con_chat new_id chat pe).
  destruct (healthy_drop 3 4 st pe t1 t1 fs Hh) as [H2 H4].
  exists new_id, chat. rewrite (crear_chat_healthy _ _ _ _ _ _ H2).
  cbn [fst snd]. fold new_id chat t1. split; [reflexivity |].
  assert (Ho : owned_by t1 new_id uid).
  { exists chat. split; [apply lookup_insert_eq | reflexivity]. }
  rewrite (eliminar_chat_healthy _ _ _ _ _ Ho H4). cbn [fst snd stored pending].
  unfold t1 at 1 2.
  rewrite (tablas_sin_chat_con_chat new_id chat pe (next_id_fresh _) Hi).
  repeat split; try reflexivity.
  intros uid' Hne.
  pose proof (proj1 (healthy_drop 1 3 t1 t1 t1 t1 (drop 3 fs) H4)) as H1.
  assert (Hn : ~ owned_by t1 new_id uid').
  { intros (c & Hl & Hu). unfold t1 in Hl. cbn [tablas_con_chat chats] in Hl.
    rewrite lookup_insert_eq in Hl. injection Hl as <-. by apply Hne. }
  by rewrite (proj1 (not_owned_healthy new_id uid' [] _ _ _ Hn H1)).
Qed.

Lemma crear_then_eliminar_witness :
  exists new_id chat,
    fst (crear_chat reloj 10 None (sesion [])) = Some (new_id, chat)
    /\ stored (snd (eliminar_chat new_id 10
                      (snd (crear_chat reloj 10 None (sesion []))))) = tablas.
Proof.
  destruct (crear_then_eliminar reloj 10 None (sesion []) integrity_tablas)
    as (new_id & chat & Hc & _ & Hs & _); [constructor |].
  exists new_id, chat. split; [exact Hc | exact Hs].
Defined.

(** A renaming touches the name and nothing else: the chat keeps its
    owner and both timestamps (the time of the last message is not
    refreshed), every other chat and every message is as before. *)
Theorem renombrar_chat_frame (chat_id uid : Z) (nuevo : pystr) (s : Session)
  (chat : ChatIA) :
  chats (pending s) !! chat_id = Some chat -> usuario_id chat = uid ->
  healthy 2 s ->
  let t' := stored (snd (renombrar_chat chat_id uid nuevo s)) in
  chats t' !! chat_id = Some (con_nombre (take 200 (strip nuevo)) chat)
  /\ (forall k, k <> chat_id -> chats t' !! k = chats (pending s) !! k)
  /\ dom (chats t') = dom (chats (pending s))
  /\ mensajes t' = mensajes (pending s).
Proof.
  destruct s as [st pe fs]. cbn [pending]. intros Hl Hu Hh.
  assert (Ho : owned_by pe chat_id uid) by (by exists chat).
  rewrite (renombrar_chat_healthy _ _ _ _ _ _ Ho Hh).
  cbn [snd stored tablas_renombrado chats mensajes]. unfold slice_to.
  split; [by rewrite lookup_alter_eq, Hl |].
  split; [intros k Hk; by rewrite lookup_alter_ne |].
  split; [apply dom_alter_L | reflexivity].
Qed.

Lemma renombrar_chat_frame_witness :
  chats (stored (snd (renombrar_chat 1 10 (lit "Geometría") (sesion [])))) !! 2
  = Some (chat_de 20 "Historia").
Proof.
  assert (Hh : healthy 2 (sesion [])) by constructor.
  destruct (renombrar_chat_frame 1 10 (lit "Geometría") (sesion [])
              (chat_de 10 "Álgebra") eq_refl eq_refl Hh) as (_ & Hk & _).
  rewrite (Hk 2); [reflexivity | discriminate].
Defined.

(** A new name made only of white space is not rejected: the renaming
    returns true and the chat is left with the empty name. *)
Theorem renombrar_chat_blank (chat_id uid : Z) (nuevo : pystr) (s : Session) :
  owned_by (pending s) chat_id uid -> healthy 2 s ->
  Forall (fun c => isspace c = true) nuevo ->
  fst (renombrar_chat chat_id uid nuevo s) = true
  /\ nombre_chat
     <$> chats (stored (snd (renombrar_chat chat_id uid nuevo s))) !! chat_id
     = Some [].
Proof.
  destruct s as [st pe fs]. cbn [pending]. intros Ho Hh Hblank.
  rewrite (renombrar_chat_healthy _ _ _ _ _ _ Ho Hh).
  cbn [fst snd stored tablas_renombrado chats]. split; [reflexivity |].
  destruct Ho as (chat & Hl & _).
  by rewrite lookup_alter_eq, Hl, (strip_blank nuevo Hblank).
Qed.

Lemma renombrar_chat_blank_witness :
  nombre_chat
  <$> chats (stored (snd (renombrar_chat 1 10 [32%N; 32%N] (sesion [])))) !! 1
  = Some [].
Proof.
  assert (Hown : owned_by (pending (sesion [])) 1 10).
  { exists (chat_de 10 "Álgebra"). split; reflexivity. }
  assert (Hh : healthy 2 (sesion [])) by constructor.
  refine (proj2 (renombrar_chat_blank 1 10 [32%N; 32%N] (sesion []) Hown Hh _)).
  repeat constructor.
Defined.



(** ** File data and prompt, continued *)


Lemma recoger_length entrada l : (length (recoger entrada l) <= length l)%nat.
Proof.
  induction l as [|a l IH]; [done |]. cbn [recoger length].
  destruct (entrada a); cbn [length]; lia.
Qed.

Lemma recoger_take_length entrada rows :
  (length (recoger entrada (take 10 rows)) <= 10)%nat.
Proof.
  pose proof (recoger_length entrada (take 10 rows)) as H.
  rewrite length_take in H. lia.
Qed.

Lemma try_except_Ok {A} (body : result A) handler (a : A) :
  try_except body handler = Ok a ->
  body = Ok a \/ exists e, body = Raise e /\ handler e = Ok a.
Proof. destruct body as [x|e]; simpl; eauto. Qed.

Lemma log_then_empty u l :
  (do* log_usuario_id u in Ok []) = Ok l -> l = @nil pydict.
Proof.
  intros H. apply bind_Ok in H as (_ & _ & H). by injection H.
Qed.

(** The file list handed to the prompt never has more than ten
    entries, whoever the user is and however many rows the query
    finds. *)
Theorem get_archivos_data_at_most_10 (amb : Ambiente) (u : Usuario)
  (l : list pydict) :
  _get_archivos_data amb u = Ok l -> (length l <= 10)%nat.
Proof.
  unfold _get_archivos_data. intros H.
  apply try_except_Ok in H as [H | (e & _ & H)];
    [| apply log_then_empty in H as ->; cbn; lia].
  apply bind_Ok in H as (r & _ & H).
  destruct (es_profesor r).
  - unfold archivos_profesor in H.
    apply try_except_Ok in H as [H | (e & _ & H)];
      [| apply log_then_empty in H as ->; cbn; lia].
    apply bind_Ok in H as (uid & _ & H). apply bind_Ok in H as (rows & _ & H).
    injection H as <-. apply recoger_take_length.
  - unfold archivos_alumno in H.
    apply try_except_Ok in H as [H | (e & _ & H)];
      [| apply log_then_empty in H as ->; cbn; lia].
    apply bind_Ok in H as (h & _ & H). apply bind_Ok in H as (sc & _ & H).
    destruct sc; [apply log_then_empty in H as ->; cbn; lia |].
    apply bind_Ok in H as (c & _ & H). apply bind_Ok in H as (rows & _ & H).
    injection H as <-. apply recoger_take_length.
Qed.

Lemma get_archivos_data_at_most_10_witness :
  exists l,
    _get_archivos_data amb_once_archivos profesora = Ok l
    /\ (length l <= 10)%nat.
Proof.
  assert (E : _get_archivos_data amb_once_archivos profesora
              = Ok (recoger entrada_profesor (take 10 once_archivos)))
    by reflexivity.
  eexists. split; [exact E |].
  exact (get_archivos_data_at_most_10 _ _ _ E).
Defined.

(** [_get_archivos_data] can raise in one way only, through the log
    line that reads [usuario.id]: when the id can be read it returns a
    list, whatever the role attribute, the course and the queries do. *)
Theorem get_archivos_data_raises_only_without_id (amb : Ambiente) (u : Usuario) :
  (forall i, id u = Value i -> exists l, _get_archivos_data amb u = Ok l)
  /\ (forall e, _get_archivos_data amb u = Raise e -> forall i, id u <> Value i).
Proof.
  assert (Htot : forall i, id u = Value i ->
                   exists l, _get_archivos_data amb u = Ok l).
  { intros i Hid. unfold _get_archivos_data, try_except.
    destruct (let* r := get_attr "rol" (rol u) in
              if es_profesor r then archivos_profesor amb u
              else archivos_alumno amb u) as [l|e]; [eauto |].
    unfold log_usuario_id. rewrite Hid. simpl. eauto. }
  split; [exact Htot |].
  intros e He i Hid. destruct (Htot i Hid) as [l Hl]. congruence.
Qed.

Lemma get_archivos_data_raises_only_without_id_witness :
  (exists l, _get_archivos_data amb_con_archivos objeto_solo_id = Ok l)
  /\ forall i, id objeto_sin_atributos <> Value i.
Proof.
  destruct (get_archivos_data_raises_only_without_id amb_con_archivos
              objeto_solo_id) as [Hok _].
  destruct (get_archivos_data_raises_only_without_id amb_con_archivos
              objeto_sin_atributos) as [_ Hraise].
  split; [exact (Hok 5 eq_refl) |].
  apply (Hraise (AttributeError "id")). reflexivity.
Defined.

(** A student with no course (the attribute is missing, [None] or 0)
    gets the empty file list, and the database is not asked: the answer
    is the same whatever the queries would return or raise. *)
Theorem alumno_sin_curso_sin_archivos (amb : Ambiente) (u : Usuario)
  (r : option RolUsuario) (i : Z) :
  rol u = Value r -> es_profesor r = false -> id u = Value i ->
  curso_id u = Missing \/ curso_id u = Value None \/ curso_id u = Value (Some 0) ->
  _get_archivos_data amb u = Ok [].
Proof.
  intros Hrol Hr Hid Hc. unfold _get_archivos_data. rewrite Hrol.
  cbn [get_attr bind]. rewrite Hr. unfold archivos_alumno, log_usuario_id.
  rewrite Hid. destruct Hc as [-> | [-> | ->]]; reflexivity.
Qed.

Lemma alumno_sin_curso_sin_archivos_witness :
  _get_archivos_data amb_con_archivos alumno_sin_curso = Ok [].
Proof.
  apply (alumno_sin_curso_sin_archivos amb_con_archivos alumno_sin_curso
           (Some ALUMNO) 11); try reflexivity.
  right. left. reflexivity.
Defined.


Lemma existsb_sep_false sep (s : pystr) :
  existsb (N.eqb sep) s = false -> sep ∉ s.
Proof.
  intros H Hin. apply list_elem_of_In in Hin.
  assert (existsb (N.eqb sep) s = true); [| congruence].
  apply existsb_exists. exists sep. split; [done | apply N.eqb_refl].
Qed.

Lemma existsb_sep_true sep (s : pystr) :
  existsb (N.eqb sep) s = true -> sep ∈ s.
Proof.
  intros H. apply existsb_exists in H as (x & Hx & He).
  apply N.eqb_eq in He as ->. by apply list_elem_of_In.
Qed.

(** What [s.split(sep)[-1]] is: the whole string when the separator
    does not occur, and otherwise what follows its last occurrence. *)
Lemma split_last_spec sep (s : pystr) :
  (sep ∉ split_last sep s)
  /\ (((sep ∉ s) /\ split_last sep s = s)
      \/ exists pre, s = pre ++ sep :: split_last sep s).
Proof.
  induction s as [|c r [IH1 IH2]]; [split; [apply not_elem_of_nil | left; split; [apply not_elem_of_nil | done]] |].
  cbn [split_last]. destruct (existsb (N.eqb sep) r) eqn:Er.
  - split; [exact IH1 |]. right. destruct IH2 as [[Hno _] | [pre Hpre]].
    + by destruct Hno; apply existsb_sep_true.
    + exists (c :: pre). cbn. by f_equal.
  - pose proof (existsb_sep_false _ _ Er) as Hr.
    destruct (c =? sep)%N eqn:Ec.
    + apply N.eqb_eq in Ec as ->. split; [exact Hr |]. right. by exists [].
    + apply N.eqb_neq in Ec.
      assert (sep ∉ c :: r) by (rewrite not_elem_of_cons; split; [congruence | done]).
      split; [done |]. by left.
Qed.

Lemma sin_nombre_no_slash : 47%N ∉ lit "Sin nombre".
Proof. refine (bool_decide_unpack _ _). vm_compute. exact I. Qed.

(** The file name a teacher sees is the last segment of the stored
    path: it never contains a slash, it is the whole path when the path
    has none and otherwise what follows the last slash (so a path ending
    in a slash gives the empty name); without a path it is the
    placeholder. *)
Theorem nombre_archivo_last_segment (a : ArchivoMateria) (d : pydict) :
  entrada_profesor a = Ok d ->
  exists n,
    d !! "nombre_archivo" = Some (Some n)
    /\ (47%N ∉ n)
    /\ (forall p, archivo_path a = Some p -> p <> [] ->
        ((47%N ∉ p) /\ n = p) \/ exists pre, p = pre ++ 47%N :: n)
    /\ (archivo_path a = None \/ archivo_path a = Some [] ->
        n = lit "Sin nombre").
Proof.
  intros H. apply entrada_profesor_inv in H as (nm & _ & ->).
  eexists. split; [reflexivity |].
  destruct (archivo_path a) as [[|c p]|]; cbn [truthy fmt].
  - split; [apply sin_nombre_no_slash |].
    split; [intros p Hp Hne; injection Hp as <-; done | intros _; reflexivity].
  - destruct (split_last_spec 47%N (c :: p)) as [Hno Hsp].
    split; [exact Hno |]. split.
    + intros p' Hp' _. injection Hp' as <-. exact Hsp.
    + intros [? | ?]; discriminate.
  - split; [apply sin_nombre_no_slash |].
    split; [intros p Hp; discriminate Hp | intros _; reflexivity].
Qed.

Lemma nombre_archivo_last_segment_witness :
  exists d n,
    entrada_profesor archivo_breve = Ok d
    /\ d !! "nombre_archivo" = Some (Some n) /\ (47%N ∉ n).
Proof.
  assert (E : entrada_profesor archivo_breve
              = Ok {[ "tema" := Some (lit "Ondas");
                      "materia" := Some (lit "Física");
                      "nombre_archivo" := Some (lit "ondas.pdf") ]})
    by (vm_compute; reflexivity).
  destruct (nombre_archivo_last_segment archivo_breve _ E) as (n & Hn & Hno & _).
  eexists _, n. split; [exact E |]. split; assumption.
Defined.

(** However long the extracted text of a file is, the text a student
    entry carries has at most 2003 characters. *)
Theorem texto_entrada_bounded (a : ArchivoMateria) (d : pydict) :
  entrada_alumno a = Ok d ->
  exists t, d !! "texto" = Some (Some t) /\ (length t <= 2003)%nat.
Proof.
  intros H. apply entrada_alumno_inv in H as (nm & nc & _ & _ & ->).
  exists (texto_procesado a). split; [reflexivity |].
  unfold texto_procesado. destruct (truthy (texto_extraido a)); [| vm_compute; lia].
  destruct (2000 <? len (fmt (texto_extraido a))) eqn:El.
  - unfold slice_to. rewrite length_app, length_take.
    change (length (lit "...")) with 3%nat. lia.
  - apply Z.ltb_ge in El. unfold len in El. lia.
Qed.

Lemma texto_entrada_bounded_witness :
  exists t, entrada_larga !! "texto" = Some (Some t) /\ (length t <= 2003)%nat.
Proof.
  assert (E : entrada_alumno archivo_largo = Ok entrada_larga)
    by (vm_compute; reflexivity).
  exact (texto_entrada_bounded archivo_largo entrada_larga E).
Defined.

(** For a user whose role and id can be read (and whose surname does not
    fail on access), the full prompt is assembled exactly when the name
    can be read: no failure of the institution lookup or of a query
    leads to the fallback, and an unreadable name always does. *)
Theorem prompt_complete_iff_nombre (amb : Ambiente) (u : Usuario)
  (r : option RolUsuario) (i : Z) :
  rol u = Value r -> id u = Value i -> (forall e, apellido u <> Broken e) ->
  ((exists n, nombre u = Value n)
   <-> exists p, _build_system_prompt_body amb u = Ok p)
  /\ ((forall n, nombre u <> Value n) ->
      _build_system_prompt amb u = Ok (prompt_fallback r)).
Proof.
  intros Hrol Hid Hap. split; [split |].
  - intros [n Hn].
    destruct (build_system_prompt_degrades amb u n r i Hn Hrol Hid Hap)
      as (p & Hp & _). eauto.
  - intros [p Hp]. unfold _build_system_prompt_body in Hp.
    destruct (nombre u) as [| e | n]; [discriminate Hp | discriminate Hp | eauto].
  - intros Hno. unfold _build_system_prompt, _build_system_prompt_body.
    destruct (nombre u) as [| e | n]; [| | by destruct (Hno n)];
      cbn [get_attr bind try_except]; by rewrite Hrol.
Qed.

Lemma prompt_complete_iff_nombre_witness :
  exists p, _build_system_prompt_body
              {| getenv := getenv amb_vacio; hoy := hoy amb_vacio;
                 queries :=
                   {| archivos_de_profesor := fun _ => Raise (PyException "db");
                      archivos_de_curso := fun _ => Raise (PyException "db");
                      materias_cursos_de_profesor :=
                        fun _ => Raise (PyException "db");
                      materias_de_curso := fun _ => Raise (PyException "db") |};
                 rol_value := rol_value amb_vacio |}
              profesora = Ok p.
Proof.
  refine (proj1 (proj1 (prompt_complete_iff_nombre _ profesora (Some PROFESOR) 8
                          eq_refl eq_refl _)) _).
  - intros e H. discriminate H.
  - eexists. reflexivity.
Defined.


Lemma materias_de_cursos_raises amb cs :
  Exists (fun c => exists e,
            materias_de_curso (queries amb) (curso_id_ c) = Raise e) cs ->
  exists e, materias_de_cursos amb cs = Raise e.
Proof.
  induction 1 as [c cs [e He] | c cs _ [e IH]]; cbn [materias_de_cursos].
  - rewrite He. simpl. eauto.
  - destruct (materias_de_curso (queries amb) (curso_id_ c)); simpl; [| eauto].
    rewrite IH. simpl. eauto.
Qed.

Lemma materias_de_cursos_ok amb cs (ms : Curso -> list Materia) :
  (forall c, c ∈ cs -> materias_de_curso (queries amb) (curso_id_ c) = Ok (ms c)) ->
  materias_de_cursos amb cs
  = Ok (flat_map (fun c => map (fun m => materia_dict m c) (ms c)) cs).
Proof.
  induction cs as [|c cs IH]; intros H; [reflexivity |].
  cbn [materias_de_cursos flat_map].
  rewrite (H c) by apply list_elem_of_here. cbn [bind].
  rewrite IH; [reflexivity |]. intros c' Hc'. apply H. by apply list_elem_of_further.
Qed.

(** The subjects of a student are all or nothing: if the query of any
    one course fails, the list is empty, the subjects of the courses
    already read being discarded; if all succeed, the list is the
    subjects of the courses, course after course in their order. *)
Theorem materias_alumno_all_or_nothing (amb : Ambiente) (u : Usuario)
  (cs : list Curso) :
  cursos u = Value cs ->
  (Exists (fun c => exists e,
             materias_de_curso (queries amb) (curso_id_ c) = Raise e) cs ->
   _get_materias_alumno amb u = [])
  /\ (forall ms : Curso -> list Materia,
      (forall c, c ∈ cs ->
         materias_de_curso (queries amb) (curso_id_ c) = Ok (ms c)) ->
      _get_materias_alumno amb u
      = flat_map (fun c => map (fun m => materia_dict m c) (ms c)) cs).
Proof.
  intros Hcs. unfold _get_materias_alumno. rewrite Hcs.
  cbn [has_attr get_attr bind]. split.
  - intros Hex. destruct (materias_de_cursos_raises amb cs Hex) as [e ->].
    reflexivity.
  - intros ms Hms. by rewrite (materias_de_cursos_ok amb cs ms Hms).
Qed.

Lemma materias_alumno_all_or_nothing_witness :
  _get_materias_alumno amb_segundo_curso_falla alumno_dos_cursos = [].
Proof.
  refine (proj1 (materias_alumno_all_or_nothing amb_segundo_curso_falla
                   alumno_dos_cursos _ eq_refl) _).
  apply Exists_cons_tl, Exists_cons_hd. eexists. reflexivity.
Defined.

Lemma campo_institucion_legible a name d :
  ~ campo_roto a -> campo_institucion a name d = Ok (texto_campo a d).
Proof.
  unfold campo_roto, campo_institucion. intros H.
  destruct a as [|[m|m|m]|v]; cbn [has_attr get_attr bind texto_campo];
    try reflexivity; destruct H; eexists; (split; [reflexivity | discriminate]).
Qed.

Lemma campo_institucion_roto a name d :
  campo_roto a -> exists e, campo_institucion a name d = Raise e.
Proof.
  unfold campo_institucion. intros (e & -> & He).
  destruct e as [m|m|m]; [by destruct (He m) | |]; eexists; reflexivity.
Qed.

(** The institution block is all or nothing too. When the institution
    is found and reading none of its four attributes raises (an
    [AttributeError] apart, which [hasattr] takes for a missing
    attribute), each field is the printed value of its attribute, a
    [None] value printing as the word None and only a missing attribute
    giving the placeholder; when reading one attribute raises anything
    else, all four fields fall back to the placeholders, those that
    could be read included. *)
Theorem institucion_all_or_nothing (u : Usuario) (inst : Institucion) :
  get_institucion u = Value (Ok (Some inst)) ->
  (~ campo_roto (inst_nombre inst) ->
   ~ campo_roto (valores_institucionales inst) ->
   ~ campo_roto (metodologia_pedagogica inst) ->
   ~ campo_roto (configuracion_ia inst) ->
   _get_institucion_data u
   = {[ "nombre" :=
          Some (texto_campo (inst_nombre inst) (lit "No especificado"));
        "valores" :=
          Some (texto_campo (valores_institucionales inst)
                  (lit "No especificado"));
        "metodologia" :=
          Some (texto_campo (metodologia_pedagogica inst)
                  (lit "No especificado"));
        "configuracion" :=
          Some (texto_campo (configuracion_ia inst) (lit "Estándar")) ]})
  /\ (campo_roto (inst_nombre inst)
      \/ campo_roto (valores_institucionales inst)
      \/ campo_roto (metodologia_pedagogica inst)
      \/ campo_roto (configuracion_ia inst) ->
      _get_institucion_data u = institucion_por_defecto)
  /\ (forall m d,
      inst_nombre inst = Broken (AttributeError m) ->
      texto_campo (inst_nombre inst) d = d)
  /\ (forall m,
      inst_nombre inst = Broken (AttributeError m) ->
      ~ campo_roto (valores_institucionales inst) ->
      ~ campo_roto (metodologia_pedagogica inst) ->
      ~ campo_roto (configuracion_ia inst) ->
      _get_institucion_data u !! "nombre" = Some (Some (lit "No especificado"))
      /\ _get_institucion_data u !! "valores"
         = Some (Some (texto_campo (valores_institucionales inst)
                         (lit "No especificado"))))
  /\ (forall a e d, a = Broken e -> ~ campo_roto a ->
      texto_campo a d = d /\ exists m, e = AttributeError m).
Proof.
  intros Hg.
  assert (Hleg :
    ~ campo_roto (inst_nombre inst) ->
    ~ campo_roto (valores_institucionales inst) ->
    ~ campo_roto (metodologia_pedagogica inst) ->
    ~ campo_roto (configuracion_ia inst) ->
    _get_institucion_data u
    = {[ "nombre" :=
           Some (texto_campo (inst_nombre inst) (lit "No especificado"));
         "valores" :=
           Some (texto_campo (valores_institucionales inst)
                   (lit "No especificado"));
         "metodologia" :=
           Some (texto_campo (metodologia_pedagogica inst)
                   (lit "No especificado"));
         "configuracion" :=
           Some (texto_campo (configuracion_ia inst) (lit "Estándar")) ]}).
  { intros H1 H2 H3 H4.
    unfold _get_institucion_data, _get_institucion_data_body.
    rewrite Hg. cbn [has_attr get_attr bind].
    rewrite (campo_institucion_legible _ _ _ H1). cbn [bind].
    rewrite (campo_institucion_legible _ _ _ H2). cbn [bind].
    rewrite (campo_institucion_legible _ _ _ H3). cbn [bind].
    rewrite (campo_institucion_legible _ _ _ H4). reflexivity. }
  split; [exact Hleg |]. split; [| split; [| split]].
  - intros H. unfold _get_institucion_data, _get_institucion_data_body.
    rewrite Hg. cbn [has_attr get_attr bind].
    destruct (campo_institucion (inst_nombre inst) "nombre" _) as [n|e1] eqn:E1;
      cbn [bind]; [| reflexivity].
    destruct (campo_institucion (valores_institucionales inst) _ _)
      as [v|e2] eqn:E2; cbn [bind]; [| reflexivity].
    destruct (campo_institucion (metodologia_pedagogica inst) _ _)
      as [m|e3] eqn:E3; cbn [bind]; [| reflexivity].
    destruct (campo_institucion (configuracion_ia inst) _ _)
      as [c|e4] eqn:E4; cbn [bind]; [| reflexivity].
    exfalso.
    destruct H as [H | [H | [H | H]]].
    + destruct (campo_institucion_roto _ "nombre" (lit "No especificado") H)
        as [e He]. congruence.
    + destruct (campo_institucion_roto _ "valores_institucionales"
                  (lit "No especificado") H) as [e He]. congruence.
    + destruct (campo_institucion_roto _ "metodologia_pedagogica"
                  (lit "No especificado") H) as [e He]. congruence.
    + destruct (campo_institucion_roto _ "configuracion_ia"
                  (lit "Estándar") H) as [e He]. congruence.
  - intros m d ->. reflexivity.
  - intros m Hn H2 H3 H4.
    assert (H1 : ~ campo_roto (inst_nombre inst)).
    { rewrite Hn. intros (e & [= <-] & He). by destruct (He m). }
    rewrite (Hleg H1 H2 H3 H4), Hn. cbn [texto_campo]. split; reflexivity.
  - intros a e d -> Hno. split; [reflexivity |].
    destruct e as [m|m|m]; [by exists m | |];
      destruct Hno; eexists; (split; [reflexivity | discriminate]).
Qed.

Lemma institucion_all_or_nothing_witness :
  _get_institucion_data alumna_con_institucion
  = {[ "nombre" := Some (lit "None");
       "valores" := Some (lit "Respeto");
       "metodologia" := Some (lit "Proyectos");
       "configuracion" := Some (lit "Estándar") ]}.
Proof.
  refine (proj1 (institucion_all_or_nothing alumna_con_institucion
                   institucion_parcial eq_refl) _ _ _ _);
    intros (e & H & _); discriminate H.
Defined.


Lemma bind_ext {A B} (c : result A) (k1 k2 : A -> result B) :
  (forall a, k1 a = k2 a) -> bind c k1 = bind c k2.
Proof. intros H. destruct c; simpl; [apply H | reflexivity]. Qed.

Lemma materias_de_cursos_con_consultas_profesor qa qm amb cs :
  materias_de_cursos (con_consultas_profesor qa qm amb) cs
  = materias_de_cursos amb cs.
Proof.
  induction cs as [|c cs IH]; [reflexivity |].
  cbn [materias_de_cursos]. rewrite IH. reflexivity.
Qed.

Lemma get_materias_alumno_con_consultas_profesor qa qm amb u :
  _get_materias_alumno (con_consultas_profesor qa qm amb) u
  = _get_materias_alumno amb u.
Proof.
  unfold _get_materias_alumno.
  destruct (has_attr (cursos u)) as [[]|]; cbn [bind]; try reflexivity.
  destruct (get_attr "cursos" (cursos u)); cbn [bind]; try reflexivity.
  by rewrite materias_de_cursos_con_consultas_profesor.
Qed.

(** Each role's prompt is built from that role's two queries only: the
    prompt of a user who is not a teacher is the same whatever the
    teacher queries would return or raise, and the prompt of a teacher
    is the same whatever the student queries would. *)
Theorem role_queries_separated (amb : Ambiente) (u : Usuario)
  (r : option RolUsuario) :
  rol u = Value r ->
  (es_profesor r = false ->
   forall qa qm,
     _build_system_prompt (con_consultas_profesor qa qm amb) u
     = _build_system_prompt amb u)
  /\ (es_profesor r = true ->
      forall qa qm,
        _build_system_prompt (con_consultas_alumno qa qm amb) u
        = _build_system_prompt amb u).
Proof.
  intros Hrol. split; intros Hr qa qm.
  - unfold _build_system_prompt, _build_system_prompt_body.
    rewrite (get_materias_alumno_con_consultas_profesor qa qm amb u).
    assert (Ha : _get_archivos_data (con_consultas_profesor qa qm amb) u
                 = _get_archivos_data amb u).
    { unfold _get_archivos_data. rewrite Hrol. cbn [get_attr bind].
      rewrite Hr. reflexivity. }
    rewrite Ha, Hrol. f_equal.
    apply bind_ext; intros n. apply bind_ext; intros ap.
    cbn [get_attr bind]. rewrite Hr. reflexivity.
  - unfold _build_system_prompt, _build_system_prompt_body.
    assert (Ha : _get_archivos_data (con_consultas_alumno qa qm amb) u
                 = _get_archivos_data amb u).
    { unfold _get_archivos_data. rewrite Hrol. cbn [get_attr bind].
      rewrite Hr. reflexivity. }
    rewrite Ha, Hrol. f_equal.
    apply bind_ext; intros n. apply bind_ext; intros ap.
    cbn [get_attr bind]. rewrite Hr. reflexivity.
Qed.

Lemma role_queries_separated_witness :
  _build_system_prompt
    (con_consultas_profesor (fun _ => Raise (PyException "db"))
       (fun _ => Raise (PyException "db")) amb_con_archivos)
    alumna_sin_fecha
  = _build_system_prompt amb_con_archivos alumna_sin_fecha.
Proof.
  exact (proj1 (role_queries_separated amb_con_archivos alumna_sin_fecha
                  (Some ALUMNO) eq_refl) eq_refl _ _).
Defined.


Abbreviation sin_descripcion_dict :=
  (insert (M := pydict) "descripcion" (Some (lit "Sin descripción"))).

Lemma materia_dict_sin_descripcion m c :
  materia_dict (sin_descripcion m) c = sin_descripcion_dict (materia_dict m c).
Proof.
  unfold materia_dict. cbn [sin_descripcion materia_nombre materia_descripcion or_else].
  apply map_eq. intros k.
  destruct (decide (k = "descripcion")) as [-> | Hd].
  - rewrite lookup_insert_eq. reflexivity.
  - rewrite (lookup_insert_ne _ "descripcion" k) by done.
    destruct (decide (k = "nombre")) as [-> | Hn]; [reflexivity |].
    rewrite !(lookup_insert_ne _ "nombre" k) by done.
    destruct (decide (k = "curso")) as [-> | Hc]; [reflexivity |].
    rewrite !(lookup_insert_ne _ "curso" k) by done.
    by rewrite !lookup_singleton_ne.
Qed.

Lemma linea_materia_sin_descripcion (d : pydict) :
  linea_materia (sin_descripcion_dict d) = linea_materia d.
Proof.
  unfold linea_materia, getitem. by rewrite !lookup_insert_ne.
Qed.

Lemma lineas_sin_descripcion (l : list pydict) :
  for_each (fun m => let* l := linea_materia m in Ok [l])
    (map sin_descripcion_dict l)
  = for_each (fun m => let* l := linea_materia m in Ok [l]) l.
Proof.
  induction l as [|d l IH]; [reflexivity |].
  cbn [map for_each]. by rewrite linea_materia_sin_descripcion, IH.
Qed.

Lemma get_materias_profesor_sin_descripcion amb u :
  _get_materias_profesor (ambiente_sin_descripcion amb) u
  = map sin_descripcion_dict (_get_materias_profesor amb u).
Proof.
  unfold _get_materias_profesor.
  destruct (get_attr "id" (id u)) as [pid|e]; cbn [bind]; [| reflexivity].
  cbn [ambiente_sin_descripcion queries materias_cursos_de_profesor].
  destruct (materias_cursos_de_profesor (queries amb) pid) as [rows|e];
    cbn [map_result bind]; [| reflexivity].
  rewrite !map_map. apply map_ext. intros [m c]. cbn [fst snd].
  apply materia_dict_sin_descripcion.
Qed.

Lemma materias_de_cursos_sin_descripcion amb cs :
  materias_de_cursos (ambiente_sin_descripcion amb) cs
  = map_result (map sin_descripcion_dict) (materias_de_cursos amb cs).
Proof.
  induction cs as [|c cs IH]; [reflexivity |].
  cbn [materias_de_cursos]. rewrite IH.
  cbn [ambiente_sin_descripcion queries materias_de_curso].
  destruct (materias_de_curso (queries amb) (curso_id_ c)) as [ms|e];
    cbn [map_result bind]; [| reflexivity].
  destruct (materias_de_cursos amb cs) as [tl|e]; cbn [map_result bind];
    [| reflexivity].
  f_equal. rewrite map_app, !map_map. f_equal.
  all: try (apply map_ext; intros m; apply materia_dict_sin_descripcion).
Qed.

Lemma get_materias_alumno_sin_descripcion amb u :
  _get_materias_alumno (ambiente_sin_descripcion amb) u
  = map sin_descripcion_dict (_get_materias_alumno amb u).
Proof.
  unfold _get_materias_alumno.
  destruct (has_attr (cursos u)) as [[]|]; cbn [bind]; try reflexivity.
  destruct (get_attr "cursos" (cursos u)) as [cs|e]; cbn [bind]; try reflexivity.
  rewrite materias_de_cursos_sin_descripcion.
  destruct (materias_de_cursos amb cs); reflexivity.
Qed.

(** The description of a subject is fetched with it and then dropped:
    no prompt depends on it. Erasing every description in what the two
    subject queries return leaves the prompt of every user as it is. *)
Theorem prompt_ignores_descriptions (amb : Ambiente) (u : Usuario) :
  _build_system_prompt (ambiente_sin_descripcion amb) u
  = _build_system_prompt amb u.
Proof.
  unfold _build_system_prompt, _build_system_prompt_body.
  rewrite get_materias_profesor_sin_descripcion,
    get_materias_alumno_sin_descripcion.
  f_equal.
  apply bind_ext; intros n. apply bind_ext; intros ap.
  apply bind_ext; intros r. apply bind_ext; intros edad.
  apply bind_ext; intros archivos.
  apply bind_ext; intros i1. apply bind_ext; intros i2.
  apply bind_ext; intros i3. apply bind_ext; intros i4.
  destruct (es_profesor r); rewrite lineas_sin_descripcion; reflexivity.
Qed.

Lemma recoger_app entrada l1 l2 :
  recoger entrada (l1 ++ l2) = recoger entrada l1 ++ recoger entrada l2.
Proof.
  induction l1 as [|a l1 IH]; [reflexivity |]. cbn [app recoger].
  destruct (entrada a); [cbn [app]; by rewrite IH | exact IH].
Qed.

Lemma recoger_skip entrada a e l1 l2 :
  entrada a = Raise e ->
  recoger entrada (l1 ++ a :: l2) = recoger entrada (l1 ++ l2).
Proof.
  intros Ha. rewrite !recoger_app. cbn [recoger]. by rewrite Ha.
Qed.

Lemma recoger_keep entrada a d l1 l2 :
  entrada a = Ok d ->
  recoger entrada (l1 ++ a :: l2) = recoger entrada l1 ++ d :: recoger entrada l2.
Proof.
  intros Ha. rewrite recoger_app. cbn [recoger]. by rewrite Ha.
Qed.

Lemma has_attr_raises {A} (a : attr A) e :
  a = Broken e -> (forall m, e <> AttributeError m) -> has_attr a = Raise e.
Proof.
  intros -> He. destruct e as [m|m|m]; [by destruct (He m) | |]; reflexivity.
Qed.

(** A file whose subject relation fails to load (with anything but an
    [AttributeError]) is left out of the list and the files around it
    are kept, for a teacher and for a student alike. For a student the
    same happens when the course of the subject fails to load, although
    the course is not printed; a teacher still gets that file. When the
    failure is an [AttributeError], [hasattr] takes the relation for a
    missing one: the file is kept, with 'Sin materia' and 'Sin curso'
    in the place of the names. *)
Theorem archivo_roto_se_omite (a : ArchivoMateria) (e : exn)
  (l1 l2 : list ArchivoMateria) :
  ((forall m, e <> AttributeError m) -> materia a = Broken e ->
   recoger entrada_profesor (l1 ++ a :: l2) = recoger entrada_profesor (l1 ++ l2)
   /\ recoger entrada_alumno (l1 ++ a :: l2) = recoger entrada_alumno (l1 ++ l2))
  /\ ((forall m, e <> AttributeError m) ->
      forall mat, materia a = Value (Some mat) -> materia_curso mat = Broken e ->
      recoger entrada_alumno (l1 ++ a :: l2) = recoger entrada_alumno (l1 ++ l2)
      /\ exists d, entrada_profesor a = Ok d
                   /\ recoger entrada_profesor (l1 ++ a :: l2)
                      = recoger entrada_profesor l1 ++ d
                        :: recoger entrada_profesor l2)
  /\ (forall m, materia a = Broken (AttributeError m) ->
      (exists d, entrada_profesor a = Ok d
                 /\ d !! "materia" = Some (Some (lit "Sin materia"))
                 /\ recoger entrada_profesor (l1 ++ a :: l2)
                    = recoger entrada_profesor l1 ++ d
                      :: recoger entrada_profesor l2)
      /\ (exists d, entrada_alumno a = Ok d
                    /\ d !! "materia" = Some (Some (lit "Sin materia"))
                    /\ d !! "curso" = Some (Some (lit "Sin curso"))
                    /\ recoger entrada_alumno (l1 ++ a :: l2)
                       = recoger entrada_alumno l1 ++ d
                         :: recoger entrada_alumno l2))
  /\ (forall m mat, materia a = Value (Some mat) ->
      materia_curso mat = Broken (AttributeError m) ->
      exists d, entrada_alumno a = Ok d
                /\ d !! "materia"
                   = Some (Some (or_else (materia_nombre mat) (lit "Sin materia")))
                /\ d !! "curso" = Some (Some (lit "Sin curso"))
                /\ recoger entrada_alumno (l1 ++ a :: l2)
                   = recoger entrada_alumno l1 ++ d
                     :: recoger entrada_alumno l2).
Proof.
  split; [| split; [| split]].
  - intros He Hm. pose proof (has_attr_raises _ _ Hm He) as Hh.
    split; apply (recoger_skip _ a e).
    + unfold entrada_profesor, nombre_materia_de. by rewrite Hh.
    + unfold entrada_alumno, nombre_materia_de. by rewrite Hh.
  - intros He mat Hm Hc. pose proof (has_attr_raises _ _ Hc He) as Hh. split.
    + apply (recoger_skip _ a e).
      unfold entrada_alumno, nombre_materia_de, nombre_curso_de.
      rewrite Hm. cbn [has_attr get_attr bind]. by rewrite Hh.
    + assert (Hd : exists d, entrada_profesor a = Ok d).
      { unfold entrada_profesor, nombre_materia_de. rewrite Hm.
        cbn [has_attr get_attr bind]. eauto. }
      destruct Hd as [d Hd]. exists d. split; [exact Hd |].
      by apply recoger_keep.
  - intros m Hm. split.
    + assert (Hd : exists d, entrada_profesor a = Ok d
                             /\ d !! "materia" = Some (Some (lit "Sin materia"))).
      { unfold entrada_profesor, nombre_materia_de. rewrite Hm.
        cbn [has_attr get_attr bind]. eexists. split; reflexivity. }
      destruct Hd as (d & Hd & Hmat). exists d.
      split; [exact Hd |]. split; [exact Hmat | by apply recoger_keep].
    + assert (Hd : exists d, entrada_alumno a = Ok d
                             /\ d !! "materia" = Some (Some (lit "Sin materia"))
                             /\ d !! "curso" = Some (Some (lit "Sin curso"))).
      { unfold entrada_alumno, nombre_materia_de, nombre_curso_de. rewrite Hm.
        cbn [has_attr get_attr bind]. eexists.
        split; [reflexivity |]. split; reflexivity. }
      destruct Hd as (d & Hd & Hmat & Hcur). exists d.
      split; [exact Hd |]. split; [exact Hmat |].
      split; [exact Hcur | by apply recoger_keep].
  - intros m mat Hm Hc.
    assert (Hd : exists d, entrada_alumno a = Ok d
                   /\ d !! "materia"
                      = Some (Some (or_else (materia_nombre mat)
                                      (lit "Sin materia")))
                   /\ d !! "curso" = Some (Some (lit "Sin curso"))).
    { unfold entrada_alumno, nombre_materia_de, nombre_curso_de. rewrite Hm.
      cbn [has_attr get_attr bind]. rewrite Hc. cbn [has_attr get_attr bind].
      eexists. split; [reflexivity |]. split; reflexivity. }
    destruct Hd as (d & Hd & Hmat & Hcur). exists d.
    split; [exact Hd |]. split; [exact Hmat |].
    split; [exact Hcur | by apply recoger_keep].
Qed.

Lemma archivo_roto_se_omite_witness :
  recoger entrada_profesor [archivo_breve; archivo_sin_materia; archivo_largo]
  = recoger entrada_profesor [archivo_breve; archivo_largo].
Proof.
  refine (proj1 (proj1 (archivo_roto_se_omite archivo_sin_materia
                          (PyException "db") [archivo_breve] [archivo_largo])
                   _ eq_refl)).
  intros m. discriminate.
Defined.

Lemma for_each_length {A} (f : A -> result (list pystr)) (n : nat) l ls :
  (forall x xs, f x = Ok xs -> length xs = n) ->
  for_each f l = Ok ls -> length ls = (n * length l)%nat.
Proof.
  intros Hf. revert ls. induction l as [|x l IH]; intros ls H.
  - injection H as <-. cbn. lia.
  - cbn [for_each] in H. apply bind_Ok in H as (xs & Hx & H).
    apply bind_Ok in H as (tl & Htl & H). injection H as <-.
    rewrite length_app, (Hf _ _ Hx), (IH _ Htl). cbn [length]. lia.
Qed.

Lemma bloque_profesor_length ia ls :
  bloque_profesor ia = Ok ls -> length ls = 5%nat.
Proof.
  destruct ia as [idx d]. unfold bloque_profesor. intros H.
  apply bind_Ok in H as (? & _ & H). apply bind_Ok in H as (? & _ & H).
  apply bind_Ok in H as (? & _ & H). by injection H as <-.
Qed.

Lemma bloque_alumno_length ia ls :
  bloque_alumno ia = Ok ls -> length ls = 7%nat.
Proof.
  destruct ia as [idx d]. unfold bloque_alumno. intros H.
  apply bind_Ok in H as (? & _ & H). apply bind_Ok in H as (? & _ & H).
  apply bind_Ok in H as (? & _ & H). apply bind_Ok in H as (? & _ & H).
  apply bind_Ok in H as (? & _ & H). by injection H as <-.
Qed.

Lemma enumerate1_length {A} (l : list A) : length (enumerate1 l) = length l.
Proof.
  unfold enumerate1. rewrite length_zip_with, length_seq. lia.
Qed.

(** The file section adds to [prompt_parts] one element when there is
    no file, and otherwise five elements per file for a teacher and
    seven per file for a student; with the ten files the fetch allows
    at most, never more than seventy elements. (The elements are joined
    by line breaks afterwards: an element is one line of the prompt
    unless the field it prints holds a line break itself.) *)
Theorem seccion_archivos_line_count (profesor : bool) (l : list pydict)
  (ls : list pystr) :
  seccion_archivos profesor l = Ok ls ->
  length ls
  = (if decide (l = []) then 1
     else (if profesor then 5 else 7) * length l)%nat
  /\ ((length l <= 10)%nat -> (length ls <= 70)%nat).
Proof.
  intros H.
  assert (Hlen : length ls
                 = (if decide (l = []) then 1
                    else (if profesor then 5 else 7) * length l)%nat).
  { unfold seccion_archivos in H. destruct l as [|d l]; [by injection H as <- |].
    rewrite decide_False by done. rewrite <- (enumerate1_length (d :: l)).
    destruct profesor.
    - apply (for_each_length bloque_profesor 5 _ _ bloque_profesor_length H).
    - apply (for_each_length bloque_alumno 7 _ _ bloque_alumno_length H). }
  split; [exact Hlen |]. intros Hl. rewrite Hlen.
  case_decide; [lia |]. destruct profesor; lia.
Qed.

Lemma seccion_archivos_line_count_witness :
  exists ls,
    seccion_archivos false [entrada_breve] = Ok ls /\ length ls = 7%nat.
Proof.
  assert (E : seccion_archivos false [entrada_breve]
              = for_each bloque_alumno (enumerate1 [entrada_breve]))
    by reflexivity.
  assert (B : exists ls, for_each bloque_alumno (enumerate1 [entrada_breve]) = Ok ls).
  { cbn [enumerate1 length seq zip zip_with for_each].
    unfold entrada_breve. rewrite bloque_alumno_lines. cbn [bind]. eauto. }
  destruct B as [ls B]. exists ls. rewrite E. split; [exact B |].
  rewrite <- E in B.
  exact (proj1 (seccion_archivos_line_count false [entrada_breve] ls B)).
Defined.

(** Whatever the persistence layer does, a deletion and a renaming are
    atomic on the committed tables: either the operation reports
    success and they are exactly the tables of the open transaction
    with the whole change applied, or it reports failure and they are
    untouched. A deletion in particular never commits the loss of the
    messages without the loss of the chat. A creation commits the whole
    chat or nothing too, but its answer is in step with the tables in
    two cases of three only: it answers with the new chat when its
    three calls go through, it answers None with the tables untouched
    when the add or the commit fails, and it answers None with the chat
    committed when the add and the commit go through and the reload of
    the id after the commit fails. *)
Theorem crud_atomic (s : Session) :
  (forall clk uid nombre,
      let r := crear_chat clk uid nombre s in
      (healthy 3 s
       /\ fst r = Some (next_id (chats (pending s)), chat_nuevo clk uid nombre)
       /\ stored (snd r)
          = tablas_con_chat (next_id (chats (pending s)))
              (chat_nuevo clk uid nombre) (pending s))
      \/ (~ healthy 2 s /\ fst r = None /\ stored (snd r) = stored s)
      \/ (healthy 2 s /\ ~ healthy 3 s
          /\ fst r = None
          /\ stored (snd r)
             = tablas_con_chat (next_id (chats (pending s)))
                 (chat_nuevo clk uid nombre) (pending s)))
  /\ (forall chat_id uid,
      let r := eliminar_chat chat_id uid s in
      (fst r = true /\ stored (snd r) = tablas_sin_chat chat_id (pending s))
      \/ (fst r = false /\ stored (snd r) = stored s))
  /\ (forall chat_id uid nuevo,
      let r := renombrar_chat chat_id uid nuevo s in
      (fst r = true
       /\ stored (snd r)
          = tablas_renombrado chat_id (slice_to 200 (strip nuevo)) (pending s))
      \/ (fst r = false /\ stored (snd r) = stored s)).
Proof.
  destruct s as [st pe fs]. cbn [stored pending]. split; [| split].
  - intros clk uid nombre.
    split_faults fs; db_step;
      first
        [ left; split; [by repeat constructor | split; reflexivity]
        | right; left; split;
          [intros Hh; healthy_inv Hh | split; reflexivity]
        | right; right; split; [by repeat constructor |];
          split; [intros Hh; healthy_inv Hh | split; reflexivity] ].
  - intros chat_id uid.
    destruct (chats pe !! chat_id) as [chat|] eqn:Hl;
      [destruct (decide (usuario_id chat = uid)) as [Hu|Hu] |];
      split_faults fs; db_step; rewrite ?Hl; rewrite ?(decide_True _ _ Hu);
      rewrite ?(decide_False _ _ Hu); db_step;
      first [left; split; reflexivity | right; split; reflexivity].
  - intros chat_id uid nuevo.
    destruct (chats pe !! chat_id) as [chat|] eqn:Hl;
      [destruct (decide (usuario_id chat = uid)) as [Hu|Hu] |];
      split_faults fs; db_step; rewrite ?Hl; rewrite ?(decide_True _ _ Hu);
      rewrite ?(decide_False _ _ Hu); db_step;
      first [left; split; reflexivity | right; split; reflexivity].
Qed.
